(** * Bond_Beyond: identity and authorization core

    A shallow embedding of [backend/models/User.js] (the Mongoose schema,
    its [pre('save')] hook and [hasPermission]), of [backend/routes/auth.js]
    (the [JWT_SECRET] guard, [generateToken], [safeUser], the [/register] and
    [/login] handlers and [authMiddleware]) and of the start-up sequence of
    [backend/server.js].

    Conventions of the embedding:
    - JavaScript strings are [string]s whose characters stand for code units
      in the ASCII range; [trim] strips the ASCII white space, and the case
      mappings act on the letters A-Z and a-z.
    - A JSON request body is a [gmap string jsval]; a key that is not in
      the map reads as [undefined]. Body values are the scalar JSON values
      (null, booleans, integers, strings); nested objects, arrays and
      fractional numbers in a body are outside the embedding.
    - The MongoDB collection is a [list User.t] in insertion order with
      unique indexes on [_id] and [email].
    - The clock, the bcrypt salt and the ObjectId of a new document are
      inputs of a handler ([Effects]); time is counted in seconds.
    - The packages [bcryptjs] and [jsonwebtoken] are used through the
      interfaces [Bcrypt] and [JwtCodec]; an instance of each is given at the
      end of the definitions. *)

From stdpp Require Import gmap strings list.
From Stdlib Require Import ZArith NArith DecimalString DecimalN Ascii String.

Local Open Scope string_scope.
Local Open Scope list_scope.
Local Open Scope Z_scope.

#[local] Arguments String.append !s1 s2 : simpl nomatch.

(** ** JavaScript strings *)

Module Js.

Definition is_upper (c : ascii) : bool :=
  ((65 <=? nat_of_ascii c) && (nat_of_ascii c <=? 90))%nat.

Definition is_lower (c : ascii) : bool :=
  ((97 <=? nat_of_ascii c) && (nat_of_ascii c <=? 122))%nat.

(** White space removed by [String.prototype.trim], ASCII range:
    TAB, LF, VT, FF, CR and SPACE. *)
Definition is_space (c : ascii) : bool :=
  (((9 <=? nat_of_ascii c) && (nat_of_ascii c <=? 13)) || (nat_of_ascii c =? 32))%nat.

Definition lower_char (c : ascii) : ascii :=
  if is_upper c then ascii_of_nat (nat_of_ascii c + 32) else c.

Definition upper_char (c : ascii) : ascii :=
  if is_lower c then ascii_of_nat (nat_of_ascii c - 32) else c.

Fixpoint map_chars (f : ascii -> ascii) (s : string) : string :=
  match s with
  | EmptyString => EmptyString
  | String c s' => String (f c) (map_chars f s')
  end.

Definition toLowerCase : string -> string := map_chars lower_char.
Definition toUpperCase : string -> string := map_chars upper_char.

Fixpoint trimStart (s : string) : string :=
  match s with
  | EmptyString => EmptyString
  | String c s' => if is_space c then trimStart s' else s
  end.

Fixpoint trimEnd (s : string) : string :=
  match s with
  | EmptyString => EmptyString
  | String c s' =>
      match trimEnd s' with
      | EmptyString => if is_space c then EmptyString else String c EmptyString
      | t => String c t
      end
  end.

Definition trim (s : string) : string := trimEnd (trimStart s).

Definition startsWith (s p : string) : bool := String.prefix p s.

(** [s.split(sep)] for a separator of one character. *)
Fixpoint split (sep : ascii) (s : string) : list string :=
  match s with
  | EmptyString => [EmptyString]
  | String c s' =>
      if Ascii.eqb c sep then EmptyString :: split sep s'
      else match split sep s' with
           | h :: t => String c h :: t
           | [] => [String c EmptyString]
           end
  end.

(** [arr.includes(x)] on an array of strings. *)
Definition includes (arr : list string) (x : string) : bool :=
  existsb (String.eqb x) arr.

(** [c] does not occur in [s]. *)
Fixpoint lacks (c : ascii) (s : string) : bool :=
  match s with
  | EmptyString => true
  | String d s' => negb (Ascii.eqb d c) && lacks c s'
  end.

(** *** [parseInt] with no radix argument *)

Inductive jsnum := NaN | Num (z : Z).

Definition digit_value (radix : Z) (c : ascii) : option Z :=
  let n := Z.of_nat (nat_of_ascii c) in
  let v := if (48 <=? n) && (n <=? 57) then Some (n - 48)
           else if (97 <=? n) && (n <=? 122) then Some (n - 87)
           else if (65 <=? n) && (n <=? 90) then Some (n - 55)
           else None in
  match v with
  | Some d => if d <? radix then Some d else None
  | None => None
  end.

(** Reads the longest prefix of digits; [acc] is [None] until a digit is
    seen. *)
Fixpoint read_digits (radix : Z) (acc : option Z) (s : string) : option Z :=
  match s with
  | EmptyString => acc
  | String c s' =>
      match digit_value radix c with
      | Some d => read_digits radix (Some (default 0 acc * radix + d)) s'
      | None => acc
      end
  end.

Definition parseInt_string (s : string) : jsnum :=
  let s1 := trimStart s in
  let '(sign, s2) :=
    match s1 with
    | String "-" r => (-1, r)
    | String "+" r => (1, r)
    | _ => (1, s1)
    end in
  let '(radix, s3) :=
    match s2 with
    | String "0" (String "x" r) => (16, r)
    | String "0" (String "X" r) => (16, r)
    | _ => (10, s2)
    end in
  match read_digits radix None s3 with
  | Some n => Num (sign * n)
  | None => NaN
  end.

End Js.

(** ** Values of a request body, exceptions *)

Inductive jsval :=
  | VNull
  | VBool (b : bool)
  | VNum (n : Z)
  | VStr (s : string).

(** [!v] is [negb (truthy v)]; [None] is [undefined]. *)
Definition truthy (v : option jsval) : bool :=
  match v with
  | None | Some VNull => false
  | Some (VBool b) => b
  | Some (VNum n) => negb (n =? 0)
  | Some (VStr s) => negb (String.eqb s "")
  end.

(** One entry of [error.errors] of a Mongoose [ValidationError]. The wording
    of Mongoose's messages is not reproduced: an entry records the validator
    that failed and the path. *)
Inductive ValidatorError :=
  | RequiredError (path : string)
  | EnumError (path value : string)
  | MinError (path : string) (value : Z)
  | MaxError (path : string) (value : Z)
  | CastError (path : string).

Inductive Exn :=
  | TypeError (what : string)
  | MongoServerError (code : N)
  | ValidationError (errors : list ValidatorError)
  | IllegalArguments
  | JsonWebTokenError (message : string)
  | TokenExpiredError.

(** [error.code] and [error.name]. *)
Definition exn_code (e : Exn) : option N :=
  match e with MongoServerError c => Some c | _ => None end.

Definition exn_name (e : Exn) : string :=
  match e with
  | TypeError _ => "TypeError"
  | MongoServerError _ => "MongoServerError"
  | ValidationError _ => "ValidationError"
  | IllegalArguments => "Error"
  | JsonWebTokenError _ => "JsonWebTokenError"
  | TokenExpiredError => "TokenExpiredError"
  end.

(** [error.errors] *)
Definition exn_errors (e : Exn) : list ValidatorError :=
  match e with ValidationError errors => errors | _ => [] end.

(** Result of a block that may throw. *)
Inductive Try (A : Type) :=
  | Ok (a : A)
  | Throw (e : Exn).
Arguments Ok {A} a.
Arguments Throw {A} e.

(** ** The [bcryptjs] interface *)

Class Bcrypt := {
  (** [bcrypt.hash(s, salt)] *)
  bcrypt_hash : string -> string -> string;
  (** [bcrypt.compare(s, hash)] on two strings *)
  bcrypt_compare : string -> string -> bool;
  bcrypt_compare_hash : forall s salt, bcrypt_compare s (bcrypt_hash s salt) = true
}.

(** ** models/User.js *)

Module User.

Record Permissions := {
  manageCalendar : bool;
  manageUsers : bool;
  viewAnalytics : bool;
  manageProctors : bool;
  manageAdmins : bool;
  exportReports : bool
}.

(** A document of the collection: the fields of [userSchema] and [_id].
    The four [required] strings are always present in a stored document;
    an optional field that is absent is [None]. *)
Record t := mk {
  _id : string;
  name : string;
  email : string;
  password : string;
  role : string;
  rollNumber : option string;
  department : option string;
  semester : option Js.jsnum;
  batch : option string;
  proctorId : option string;
  assignedStudents : list string;
  adminLevel : string;
  permissions : Permissions;
  createdAt : N;
  lastLogin : option N;
  isActive : bool;
  profilePicture : option string;
  phone : option string
}.

(** The schema paths. *)
Inductive Path :=
  | p_name | p_email | p_password | p_role | p_rollNumber | p_department
  | p_semester | p_batch | p_proctorId | p_assignedStudents | p_adminLevel
  | p_permissions | p_createdAt | p_lastLogin | p_isActive
  | p_profilePicture | p_phone.

#[global] Instance Path_eq_dec : EqDecision Path.
Proof. solve_decision. Defined.

Definition schemaPaths : list Path :=
  [p_name; p_email; p_password; p_role; p_rollNumber; p_department;
   p_semester; p_batch; p_proctorId; p_assignedStudents; p_adminLevel;
   p_permissions; p_createdAt; p_lastLogin; p_isActive; p_profilePicture;
   p_phone].

(** [dst[p] = src[p]] *)
Definition copyPath (p : Path) (src dst : t) : t :=
  let 'mk i n e pw r rn dp sm bt pi asg al pm ca ll ia pp ph := dst in
  match p with
  | p_name => mk i (name src) e pw r rn dp sm bt pi asg al pm ca ll ia pp ph
  | p_email => mk i n (email src) pw r rn dp sm bt pi asg al pm ca ll ia pp ph
  | p_password => mk i n e (password src) r rn dp sm bt pi asg al pm ca ll ia pp ph
  | p_role => mk i n e pw (role src) rn dp sm bt pi asg al pm ca ll ia pp ph
  | p_rollNumber => mk i n e pw r (rollNumber src) dp sm bt pi asg al pm ca ll ia pp ph
  | p_department => mk i n e pw r rn (department src) sm bt pi asg al pm ca ll ia pp ph
  | p_semester => mk i n e pw r rn dp (semester src) bt pi asg al pm ca ll ia pp ph
  | p_batch => mk i n e pw r rn dp sm (batch src) pi asg al pm ca ll ia pp ph
  | p_proctorId => mk i n e pw r rn dp sm bt (proctorId src) asg al pm ca ll ia pp ph
  | p_assignedStudents => mk i n e pw r rn dp sm bt pi (assignedStudents src) al pm ca ll ia pp ph
  | p_adminLevel => mk i n e pw r rn dp sm bt pi asg (adminLevel src) pm ca ll ia pp ph
  | p_permissions => mk i n e pw r rn dp sm bt pi asg al (permissions src) ca ll ia pp ph
  | p_createdAt => mk i n e pw r rn dp sm bt pi asg al pm (createdAt src) ll ia pp ph
  | p_lastLogin => mk i n e pw r rn dp sm bt pi asg al pm ca (lastLogin src) ia pp ph
  | p_isActive => mk i n e pw r rn dp sm bt pi asg al pm ca ll (isActive src) pp ph
  | p_profilePicture => mk i n e pw r rn dp sm bt pi asg al pm ca ll ia (profilePicture src) ph
  | p_phone => mk i n e pw r rn dp sm bt pi asg al pm ca ll ia pp (phone src)
  end.

Definition set_password (v : string) (u : t) : t :=
  let 'mk i n e _ r rn dp sm bt pi asg al pm ca ll ia pp ph := u in
  mk i n e v r rn dp sm bt pi asg al pm ca ll ia pp ph.

Definition set_permissions (v : Permissions) (u : t) : t :=
  let 'mk i n e pw r rn dp sm bt pi asg al _ ca ll ia pp ph := u in
  mk i n e pw r rn dp sm bt pi asg al v ca ll ia pp ph.

Definition set_lastLogin (v : option N) (u : t) : t :=
  let 'mk i n e pw r rn dp sm bt pi asg al pm ca _ ia pp ph := u in
  mk i n e pw r rn dp sm bt pi asg al pm ca v ia pp ph.

(** A Mongoose document in memory: its fields, whether it was built by
    [new User(...)] and not yet stored, and the paths that [isModified]
    reports. *)
Record Doc := mkDoc {
  fields : t;
  isNew : bool;
  modifiedPaths : list Path
}.

Definition isModified (p : Path) (d : Doc) : bool :=
  bool_decide (p ∈ modifiedPaths d).

(** An assignment [this.p = v] changes the field and marks the path. *)
Definition assign (p : Path) (f : t -> t) (d : Doc) : Doc :=
  mkDoc (f (fields d)) (isNew d) (p :: modifiedPaths d).

(** *** The [pre('save')] hook *)

Definition permissionsFor (adminLevel : string) : Permissions :=
  if String.eqb adminLevel "super" then
    {| manageCalendar := true; manageUsers := true; viewAnalytics := true;
       manageProctors := true; manageAdmins := true; exportReports := true |}
  else if String.eqb adminLevel "department" then
    {| manageCalendar := true; manageUsers := true; viewAnalytics := true;
       manageProctors := true; manageAdmins := false; exportReports := true |}
  else (* case 'limited': default: *)
    {| manageCalendar := true; manageUsers := false; viewAnalytics := true;
       manageProctors := false; manageAdmins := false; exportReports := false |}.

Definition preSave `{Bcrypt} (salt : string) (d : Doc) : Doc :=
  let d1 :=
    if isModified p_password d
    then assign p_password (set_password (bcrypt_hash (password (fields d)) salt)) d
    else d in
  if String.eqb (role (fields d1)) "admin" && isModified p_adminLevel d1
  then assign p_permissions (set_permissions (permissionsFor (adminLevel (fields d1)))) d1
  else d1.

(** *** Methods *)

Definition comparePassword `{Bcrypt} (u : t) (candidatePassword : string) : bool :=
  bcrypt_compare candidatePassword (password u).

(** [this.permissions[permission]]; [None] is [undefined]. *)
Definition permissions_get (p : Permissions) (permission : string) : option bool :=
  if String.eqb permission "manageCalendar" then Some (manageCalendar p)
  else if String.eqb permission "manageUsers" then Some (manageUsers p)
  else if String.eqb permission "viewAnalytics" then Some (viewAnalytics p)
  else if String.eqb permission "manageProctors" then Some (manageProctors p)
  else if String.eqb permission "manageAdmins" then Some (manageAdmins p)
  else if String.eqb permission "exportReports" then Some (exportReports p)
  else None.

Definition hasPermission (u : t) (permission : string) : bool :=
  if negb (String.eqb (role u) "admin") then false
  else match permissions_get (permissions u) permission with
       | Some true => true
       | _ => false
       end.

End User.

(** ** Mongoose: construction, validation and [save] *)

(** How Mongoose casts a scalar to a [String] path. [null] stays [null],
    which the [required] validator rejects as it rejects the empty string;
    it is cast to the empty string here. *)
Definition castString (v : jsval) : string :=
  match v with
  | VStr s => s
  | VNum n => NilZero.string_of_int (Z.to_int n)
  | VBool true => "true"
  | VBool false => "false"
  | VNull => ""
  end.

(** The object literal [userData] of the register handler. *)
Record UserData := {
  ud_name : string;
  ud_email : string;
  ud_password : jsval;
  ud_role : string;
  ud_rollNumber : option string;
  ud_department : option jsval;
  ud_semester : option Js.jsnum;
  ud_batch : option string;
  ud_proctorId : option string;
  ud_adminLevel : option jsval
}.

Module Mongoose.
Import User.

Definition noPermissions : Permissions :=
  {| manageCalendar := false; manageUsers := false; viewAnalytics := false;
     manageProctors := false; manageAdmins := false; exportReports := false |}.

Definition markIf {A} (o : option A) (p : Path) : list Path :=
  match o with Some _ => [p] | None => [] end.

(** [new User(userData)]: casts and the [lowercase] setter of [email] are
    applied, the schema defaults fill the paths that [userData] leaves out,
    and exactly the paths that [userData] sets are marked as modified. A
    [NaN] given for [semester] is kept in the field and reported by
    [validatePath] as the cast error that Mongoose records for it. *)
Definition construct (objectId : string) (clock : N) (ud : UserData) : Doc :=
  mkDoc
    {| _id := objectId;
       name := ud_name ud;
       email := Js.toLowerCase (ud_email ud);
       password := castString (ud_password ud);
       role := ud_role ud;
       rollNumber := ud_rollNumber ud;
       department := castString <$> ud_department ud;
       semester := ud_semester ud;
       batch := ud_batch ud;
       proctorId := ud_proctorId ud;
       assignedStudents := [];
       adminLevel := from_option castString "limited" (ud_adminLevel ud);
       permissions := noPermissions;
       createdAt := clock;
       lastLogin := None;
       isActive := true;
       profilePicture := None;
       phone := None |}
    true
    ([p_name; p_email; p_password; p_role]
       ++ markIf (ud_rollNumber ud) p_rollNumber
       ++ markIf (ud_department ud) p_department
       ++ markIf (ud_semester ud) p_semester
       ++ markIf (ud_batch ud) p_batch
       ++ markIf (ud_proctorId ud) p_proctorId
       ++ markIf (ud_adminLevel ud) p_adminLevel).

Definition roles : list string := ["student"; "proctor"; "admin"].
Definition departments : list string :=
  ["CSE"; "ECE"; "EEE"; "MECH"; "CIVIL"; "IT"; "OTHER"].
Definition adminLevels : list string := ["super"; "department"; "limited"].

Definition required (path value : string) : list ValidatorError :=
  if String.eqb value "" then [RequiredError path] else [].

Definition enum (path : string) (allowed : list string) (value : string)
  : list ValidatorError :=
  if Js.includes allowed value then [] else [EnumError path value].

(** The validators that the schema declares for one path. *)
Definition validatePath (u : t) (p : Path) : list ValidatorError :=
  match p with
  | p_name => required "name" (name u)
  | p_email => required "email" (email u)
  | p_password => required "password" (password u)
  | p_role =>
      match required "role" (role u) with
      | [] => enum "role" roles (role u)
      | errs => errs
      end
  | p_department =>
      match department u with
      | Some d => enum "department" departments d
      | None => []
      end
  | p_semester =>
      match semester u with
      | Some Js.NaN => [CastError "semester"]
      | Some (Js.Num z) =>
          if z <? 1 then [MinError "semester" z]
          else if 8 <? z then [MaxError "semester" z]
          else []
      | None => []
      end
  | p_adminLevel => enum "adminLevel" adminLevels (adminLevel u)
  | _ => []
  end.

(** A new document is validated on every path, a stored one on the paths
    that were modified. The errors are listed in schema order. *)
Definition validate (d : Doc) : list ValidatorError :=
  flat_map (validatePath (fields d))
    (if isNew d then schemaPaths
     else filter (fun p => p ∈ modifiedPaths d) schemaPaths).

(** *** The collection *)

(** [User.findOne({ email })] *)
Definition findOne (e : string) (db : list t) : option t :=
  List.find (fun u => String.eqb (email u) e) db.

(** [insertOne] under the unique indexes on [_id] and [email]. *)
Definition insertOne (u : t) (db : list t) : Try (list t) :=
  if existsb (fun v => String.eqb (_id v) (_id u) || String.eqb (email v) (email u)) db
  then Throw (MongoServerError 11000)
  else Ok (db ++ [u]).

(** [updateOne({ _id }, update)] *)
Fixpoint updateOne (id : string) (update : t -> t) (db : list t) : list t :=
  match db with
  | [] => []
  | u :: rest =>
      if String.eqb (_id u) id then update u :: rest
      else u :: updateOne id update rest
  end.

(** [{ $set: ... }] of the modified paths of [d]. *)
Definition setModified (d : Doc) (stored : t) : t :=
  foldr (fun p acc => copyPath p (fields d) acc) stored (modifiedPaths d).

(** A document returned by a query. *)
Definition hydrate (u : t) : Doc := mkDoc u false [].

(** [await doc.save()]: validation, then the [pre('save')] hook, then the
    write. Returns the collection and the document as it is afterwards. *)
Definition save `{Bcrypt} (salt : string) (db : list t) (d : Doc)
  : Try (list t * Doc) :=
  match validate d with
  | [] =>
      let d' := preSave salt d in
      if isNew d' then
        match insertOne (fields d') db with
        | Ok db' => Ok (db', hydrate (fields d'))
        | Throw e => Throw e
        end
      else Ok (updateOne (_id (fields d')) (setModified d') db, hydrate (fields d'))
  | errs => Throw (ValidationError errs)
  end.

End Mongoose.

(** ** The [jsonwebtoken] interface *)

Module Jwt.

(** The claims of a token: the payload given to [sign] with the [iat] and
    [exp] that [sign] adds. *)
Record Payload := {
  userId : string;
  role : string;
  iat : N;
  exp : N
}.

(** The base64url alphabet: letters, digits, [-] and [_]. *)
Definition base64urlChar (c : ascii) : bool :=
  let n := nat_of_ascii c in
  (((65 <=? n) && (n <=? 90)) || ((97 <=? n) && (n <=? 122))
   || ((48 <=? n) && (n <=? 57)) || (n =? 45) || (n =? 95))%nat.

Fixpoint base64url (s : string) : bool :=
  match s with
  | EmptyString => true
  | String c s' => base64urlChar c && base64url s'
  end.

(** The primitives under the compact serialisation: the base64url form of
    the JSON payload and its inverse, and the base64url HMAC-SHA256 tag of a
    signing input under a key. Their outputs are base64url text, and a tag
    is not empty. *)
Class Codec := {
  encodePayload : Payload -> string;
  decodePayload : string -> option Payload;
  hs256 : string -> string -> string;
  decode_encode : forall p, decodePayload (encodePayload p) = Some p;
  encodePayload_base64url : forall p, base64url (encodePayload p) = true;
  hs256_base64url : forall k m, base64url (hs256 k m) = true;
  hs256_nonempty : forall k m, hs256 k m <> ""
}.

(** base64url of [{"alg":"HS256","typ":"JWT"}] *)
Definition header : string := "eyJhbGciOiJIUzI1NiIsInR5cCI6IkpXVCJ9".

Definition signingInput (h p : string) : string := h +:+ "." +:+ p.

(** The compact serialisation of a payload signed under [secret]. *)
Definition serialize `{Codec} (secret : string) (p : Payload) : string :=
  signingInput header (encodePayload p) +:+ "." +:+
  hs256 secret (signingInput header (encodePayload p)).

(** [jwt.sign({ userId, role }, secret, { expiresIn })] at time [clock];
    [expiresIn] is in seconds. *)
Definition sign `{Codec} (userId role secret : string) (expiresIn clock : N)
  : Try string :=
  if String.eqb secret "" then Throw (JsonWebTokenError "secretOrPrivateKey must have a value")
  else
    Ok (serialize secret {| userId := userId; role := role; iat := clock;
                            exp := (clock + expiresIn)%N |}).

(** [jwt.verify(token, secret)] at time [clock]. Only the header that
    [sign] writes is accepted. *)
Definition verify `{Codec} (token secret : string) (clock : N) : Try Payload :=
  if String.eqb token "" then Throw (JsonWebTokenError "jwt must be provided")
  else if String.eqb secret "" then
    Throw (JsonWebTokenError "secret or public key must be provided")
  else
    match Js.split "." token with
    | [h; p; s] =>
        match decodePayload p with
        | Some payload =>
            if negb (String.eqb h header) then
              Throw (JsonWebTokenError "invalid token")
            else if String.eqb (Js.trim s) "" then
              Throw (JsonWebTokenError "jwt signature is required")
            else if negb (String.eqb s (hs256 secret (signingInput h p))) then
              Throw (JsonWebTokenError "invalid signature")
            else if (exp payload <=? clock)%N then Throw TokenExpiredError
            else Ok payload
        | None => Throw (JsonWebTokenError "invalid token")
        end
    | _ => Throw (JsonWebTokenError "jwt malformed")
    end.

End Jwt.

(** ** Responses *)

(** Values written by [res.json]. [JUndefined] is a member whose value is
    [undefined]; serialisation leaves such members out. *)
#[warnings="-register-all"]
Inductive json :=
  | JUndefined
  | JNull
  | JBool (b : bool)
  | JNum (n : Z)
  | JStr (s : string)
  | JObject (members : list (string * json)).

(** The [error] member: a literal of the handler, or the messages of a
    [ValidationError] joined by [", "]. *)
Inductive ErrorText :=
  | Text (s : string)
  | ValidationMessages (errors : list ValidatorError).

(** The two shapes of body: [{ error, detail }], where [detail] carries the
    message of the exception that was caught, and [{ token, user }]. *)
Inductive ResBody :=
  | ErrorJson (error : ErrorText) (detail : option Exn)
  | AuthJson (token : string) (user : list (string * json)).

Record Response := { status : nat; jsonBody : ResBody }.

Definition reject (code : nat) (msg : string) : Response :=
  {| status := code; jsonBody := ErrorJson (Text msg) None |}.

(** ** Control flow of a handler *)

(** Inside a [try]: go on with a value, [return res...], or throw. *)
Inductive Flow (A : Type) :=
  | Next (a : A)
  | Return (r : Response)
  | Raise (e : Exn).
Arguments Next {A} a.
Arguments Return {A} r.
Arguments Raise {A} e.

Definition andThen {A B} (m : Flow A) (k : A -> Flow B) : Flow B :=
  match m with
  | Next a => k a
  | Return r => Return r
  | Raise e => Raise e
  end.

Notation "'do' x <- m ; k" := (andThen m (fun x => k))
  (at level 10, x pattern, m at level 100, k at level 200).

Definition await {A} (t : Try A) : Flow A :=
  match t with Ok a => Next a | Throw e => Raise e end.

(** [if (c) return r;] *)
Definition returnIf (c : bool) (r : Response) : Flow unit :=
  if c then Return r else Next tt.

(** A handler runs against the collection, which it may change. *)
Definition Handler (A : Type) : Type := list User.t -> list User.t * Flow A.

Definition pure {A} (m : Flow A) : Handler A := fun db => (db, m).

Definition andThenH {A B} (m : Handler A) (k : A -> Handler B) : Handler B :=
  fun db =>
    match m db with
    | (db', Next a) => k a db'
    | (db', Return r) => (db', Return r)
    | (db', Raise e) => (db', Raise e)
    end.

Notation "'run' x <- m ; k" := (andThenH m (fun x => k))
  (at level 10, x pattern, m at level 100, k at level 200).

(** [await User.findOne({ email })] *)
Definition User_findOne (e : string) : Handler (option User.t) :=
  fun db => (db, Next (Mongoose.findOne e db)).

(** [await user.save()]; the value is the document as it is afterwards. *)
Definition user_save `{Bcrypt} (salt : string) (d : User.Doc) : Handler User.Doc :=
  fun db =>
    match Mongoose.save salt db d with
    | Ok (db', d') => (db', Next d')
    | Throw e => (db, Raise e)
    end.

(** Documents that other requests insert while this handler is suspended
    between its query and its write. *)
Definition meanwhile (others : list User.t) : Handler unit :=
  fun db => (db ++ others, Next tt).

(** The response of a handler whose [try] body is [body] and whose [catch]
    block is [handle]. *)
Definition tryCatch (body : Handler Empty_set) (handle : Exn -> Response)
  : list User.t -> list User.t * Response :=
  fun db =>
    match body db with
    | (db', Next impossible) => match impossible with end
    | (db', Return r) => (db', r)
    | (db', Raise e) => (db', handle e)
    end.

(** ** Operations on the values of a body *)

(** Method calls [x.trim()] and [x.toLowerCase()] on the variable named
    [x]: a string has the method, on any other scalar the property is
    [undefined] and the call throws. *)
Definition call_trim (x : string) (v : option jsval) : Flow string :=
  match v with
  | Some (VStr s) => Next (Js.trim s)
  | _ => Raise (TypeError (x +:+ ".trim is not a function"))
  end.

Definition call_toLowerCase (x : string) (v : option jsval) : Flow string :=
  match v with
  | Some (VStr s) => Next (Js.toLowerCase s)
  | _ => Raise (TypeError (x +:+ ".toLowerCase is not a function"))
  end.

(** [v.length < n]: a string has a length; on another scalar [length] is
    [undefined] and the comparison is false. *)
Definition length_lt (v : option jsval) (n : nat) : bool :=
  match v with
  | Some (VStr s) => (String.length s <? n)%nat
  | _ => false
  end.

(** [arr.includes(v)] for an array of strings and any value. *)
Definition includes_val (arr : list string) (v : option jsval) : bool :=
  match v with
  | Some (VStr s) => Js.includes arr s
  | _ => false
  end.

(** [v === s] *)
Definition strict_eq (v : option jsval) (s : string) : bool :=
  match v with
  | Some (VStr r) => String.eqb r s
  | _ => false
  end.

(** [parseInt(v)]: the argument is first converted to a string; an integer
    prints as the digits that [parseInt] reads back. *)
Definition parseInt (v : option jsval) : Js.jsnum :=
  match v with
  | Some (VStr s) => Js.parseInt_string s
  | Some (VNum n) => Js.Num n
  | _ => Js.NaN
  end.

(** [bcrypt.compare(s, hash)]: throws unless both arguments are strings. *)
Definition compare_val `{Bcrypt} (v : option jsval) (hash : string) : Flow bool :=
  match v with
  | Some (VStr s) => Next (bcrypt_compare s hash)
  | _ => Raise IllegalArguments
  end.

(** [v] is a string that is not blank: the two conditions under which
    [!v || !v.trim()] is false. *)
Definition nonBlank (v : option jsval) : bool :=
  match v with
  | Some (VStr s) => negb (String.eqb (Js.trim s) "")
  | _ => false
  end.

(** A response that reports an error: a status from 400 on and a body
    [{ error, detail }]. *)
Definition failed (r : Response) : Prop :=
  (400 <= status r)%nat /\ exists txt d, jsonBody r = ErrorJson txt d.

(** The unique indexes on [_id] and [email] hold and every address is
    stored in its normal form, trimmed and in lower case. *)
Definition wellKeyed (db : list User.t) : Prop :=
  NoDup (map User._id db) /\ NoDup (map User.email db) /\
  Forall (fun u => Js.trim (Js.toLowerCase (User.email u)) = User.email u) db.

(** What a handler reads from outside the request: the clock, the salt
    that [bcrypt.genSalt(10)] draws and the ObjectId of a new document. *)
Record Effects := {
  clock : N;
  salt : string;
  objectId : string
}.

(** ** routes/auth.js *)

(** The guard at module load: [Some] secret when the module loads, [None]
    when [process.exit(1)] is called. [!JWT_SECRET] holds for [undefined]
    and for the empty string. *)
Definition loadSecret (env : gmap string string) : option string :=
  match env !! "JWT_SECRET" with
  | Some s => if String.eqb s "" then None else Some s
  | None => None
  end.

Section Routes.

Context `{Bcrypt} `{Jwt.Codec}.

(** The constant [JWT_SECRET] of the loaded module, and whether [NODE_ENV]
    is ['development']. *)
Variable JWT_SECRET : string.
Variable development : bool.

(** ['7d'] in seconds *)
Definition sevenDays : N := 7 * 24 * 60 * 60.

Definition generateToken (now : N) (userId role : string) : Try string :=
  Jwt.sign userId role JWT_SECRET sevenDays now.

Definition optStr (o : option string) : json :=
  match o with Some s => JStr s | None => JUndefined end.

Definition permissionsJson (p : User.Permissions) : json :=
  JObject [("manageCalendar", JBool (User.manageCalendar p));
           ("manageUsers", JBool (User.manageUsers p));
           ("viewAnalytics", JBool (User.viewAnalytics p));
           ("manageProctors", JBool (User.manageProctors p));
           ("manageAdmins", JBool (User.manageAdmins p));
           ("exportReports", JBool (User.exportReports p))].

Definition safeUser (user : User.t) : list (string * json) :=
  [("id", JStr (User._id user));
   ("name", JStr (User.name user));
   ("email", JStr (User.email user));
   ("role", JStr (User.role user));
   ("rollNumber", optStr (User.rollNumber user));
   ("department", optStr (User.department user));
   ("semester", match User.semester user with
                | Some (Js.Num z) => JNum z
                | Some Js.NaN => JNull
                | None => JUndefined
                end);
   ("batch", optStr (User.batch user));
   ("proctorId", optStr (User.proctorId user));
   ("adminLevel", JStr (User.adminLevel user));
   ("permissions", permissionsJson (User.permissions user))].

(** *** POST /register *)

(** The names that the handler destructures from [req.body]. *)
Definition bodyFields : list string :=
  ["name"; "email"; "password"; "role"; "rollNumber"; "department";
   "semester"; "batch"; "proctorId"; "adminLevel"].

(** Base field validation. *)
Definition validateBase (body : gmap string jsval) : Flow unit :=
  let name := body !! "name" in
  let email := body !! "email" in
  let password := body !! "password" in
  let role := body !! "role" in
  do _ <- returnIf (negb (truthy name)) (reject 400 "Name is required");
  do trimmed <- call_trim "name" name;
  do _ <- returnIf (String.eqb trimmed "") (reject 400 "Name is required");
  do _ <- returnIf (negb (truthy email)) (reject 400 "Email is required");
  do trimmed <- call_trim "email" email;
  do _ <- returnIf (String.eqb trimmed "") (reject 400 "Email is required");
  do _ <- returnIf (negb (truthy password) || length_lt password 6)
            (reject 400 "Password must be at least 6 characters");
  returnIf (negb (includes_val ["student"; "proctor"; "admin"] role))
    (reject 400 "Invalid role").

(** Role-specific validation. *)
Definition validateRole (body : gmap string jsval) : Flow unit :=
  let role := body !! "role" in
  let rollNumber := body !! "rollNumber" in
  let department := body !! "department" in
  let semester := body !! "semester" in
  let batch := body !! "batch" in
  let proctorId := body !! "proctorId" in
  do _ <- (if strict_eq role "student" then
             do _ <- returnIf (negb (truthy rollNumber)) (reject 400 "Roll number is required");
             do _ <- returnIf (negb (truthy department)) (reject 400 "Department is required");
             do _ <- returnIf (negb (truthy semester)) (reject 400 "Semester is required");
             returnIf (negb (truthy batch)) (reject 400 "Batch is required")
           else Next tt);
  do _ <- (if strict_eq role "proctor" then
             do _ <- returnIf (negb (truthy proctorId)) (reject 400 "Proctor ID is required");
             returnIf (negb (truthy department)) (reject 400 "Department is required")
           else Next tt);
  if strict_eq role "admin" then
    returnIf (negb (truthy department)) (reject 400 "Department is required")
  else Next tt.

(** The object [userData]. *)
Definition buildUserData (body : gmap string jsval) : Flow UserData :=
  let name := body !! "name" in
  let email := body !! "email" in
  let password := body !! "password" in
  let role := body !! "role" in
  let rollNumber := body !! "rollNumber" in
  let department := body !! "department" in
  let semester := body !! "semester" in
  let batch := body !! "batch" in
  let proctorId := body !! "proctorId" in
  let adminLevel := body !! "adminLevel" in
  do trimmedName <- call_trim "name" name;
  do lowered <- call_toLowerCase "email" email;
  let userData rn dp sm bt pi al :=
    {| ud_name := trimmedName;
       ud_email := Js.trim lowered;
       ud_password := default VNull password;
       ud_role := castString (default VNull role);
       ud_rollNumber := rn; ud_department := dp; ud_semester := sm;
       ud_batch := bt; ud_proctorId := pi; ud_adminLevel := al |} in
  if strict_eq role "student" then
    do rn <- call_trim "rollNumber" rollNumber;
    do bt <- call_trim "batch" batch;
    Next (userData (Some (Js.toUpperCase rn)) department
            (Some (parseInt semester)) (Some bt) None None)
  else if strict_eq role "proctor" then
    do pi <- call_trim "proctorId" proctorId;
    Next (userData None department None None (Some (Js.toUpperCase pi)) None)
  else if strict_eq role "admin" then
    Next (userData None department None None None
            (Some (if truthy adminLevel then default VNull adminLevel
                   else VStr "limited")))
  else Next (userData None None None None None None).

(** The body of the [try] block. [others] are the documents that other
    requests insert between the duplicate check and the save; it is empty
    when the handler runs alone. *)
Definition registerTry (fx : Effects) (others : list User.t)
    (body : gmap string jsval) : Handler Empty_set :=
  run _ <- pure (validateBase body);
  run _ <- pure (validateRole body);
  (* duplicate email check *)
  run lowered <- pure (call_toLowerCase "email" (body !! "email"));
  run existing <- User_findOne (Js.trim lowered);
  run _ <- meanwhile others;
  run _ <- pure (returnIf (bool_decide (is_Some existing))
                   (reject 400 "Email already registered"));
  (* build user object *)
  run userData <- pure (buildUserData body);
  let user := Mongoose.construct (objectId fx) (clock fx) userData in
  run user <- user_save (salt fx) user;
  let user := User.fields user in
  run token <- pure (await (generateToken (clock fx) (User._id user) (User.role user)));
  pure (Return {| status := 201; jsonBody := AuthJson token (safeUser user) |}).

(** The [catch] block. *)
Definition registerCatch (error : Exn) : Response :=
  if bool_decide (exn_code error = Some 11000%N) then
    reject 400 "Email already registered"
  else if String.eqb (exn_name error) "ValidationError" then
    {| status := 400;
       jsonBody := ErrorJson (ValidationMessages (exn_errors error)) None |}
  else
    {| status := 500;
       jsonBody := ErrorJson (Text "Registration failed. Please try again.")
                     (if development then Some error else None) |}.

Definition register (fx : Effects) (others : list User.t)
    (body : gmap string jsval) : list User.t -> list User.t * Response :=
  tryCatch (registerTry fx others body) registerCatch.

(** *** POST /login *)

Definition loginTry (fx : Effects) (body : gmap string jsval) : Handler Empty_set :=
  let email := body !! "email" in
  let password := body !! "password" in
  run _ <- pure (returnIf (negb (truthy email) || negb (truthy password))
                   (reject 400 "Email and password are required"));
  run lowered <- pure (call_toLowerCase "email" email);
  run found <- User_findOne (Js.trim lowered);
  match found with
  | None => pure (Return (reject 401 "Invalid credentials"))
  | Some found =>
      let user := Mongoose.hydrate found in
      run _ <- pure (returnIf (negb (User.isActive (User.fields user)))
                       (reject 401 "Account is deactivated. Contact admin."));
      run isMatch <- pure (compare_val password (User.password (User.fields user)));
      run _ <- pure (returnIf (negb isMatch) (reject 401 "Invalid credentials"));
      let user := User.assign User.p_lastLogin
                    (User.set_lastLogin (Some (clock fx))) user in
      run user <- user_save (salt fx) user;
      let user := User.fields user in
      run token <- pure (await (generateToken (clock fx) (User._id user) (User.role user)));
      pure (Return {| status := 200; jsonBody := AuthJson token (safeUser user) |})
  end.

Definition loginCatch (error : Exn) : Response :=
  {| status := 500;
     jsonBody := ErrorJson (Text "Login failed. Please try again.")
               (if development then Some error else None) |}.

Definition login (fx : Effects) (body : gmap string jsval)
  : list User.t -> list User.t * Response :=
  tryCatch (loginTry fx body) loginCatch.

(** *** The auth middleware *)

(** The part of [req] that the middleware reads and writes. *)
Record Request := {
  authorization : option string;
  userId : option string;
  userRole : option string
}.

(** The middleware either answers or calls [next()] with the request. *)
Inductive Gate :=
  | Answered (r : Response)
  | Passed (req : Request).

Definition authMiddleware (now : N) (req : Request) : Gate :=
  match authorization req with
  | Some authHeader =>
      if String.eqb authHeader "" || negb (Js.startsWith authHeader "Bearer ")
      then Answered (reject 401 "No token provided")
      else
        match Js.split " " authHeader !! 1%nat with
        | Some token =>
            if String.eqb token "" then
              Answered (reject 401 "Malformed authorization header")
            else
              match Jwt.verify token JWT_SECRET now with
              | Ok decoded =>
                  Passed {| authorization := authorization req;
                            userId := Some (Jwt.userId decoded);
                            userRole := Some (Jwt.role decoded) |}
              | Throw _ => Answered (reject 401 "Invalid or expired token")
              end
        | None => Answered (reject 401 "Malformed authorization header")
        end
  | None => Answered (reject 401 "No token provided")
  end.

End Routes.

(** ** server.js: start-up *)

(** The process after [server.js] has been loaded: it has called
    [process.exit(code)], or it listens with the auth module loaded under a
    secret. The connection to MongoDB is established in the background and
    is not part of this state. *)
Inductive Process :=
  | Exited (code : nat)
  | Listening (secret : string) (development : bool).

Definition envTruthy (v : option string) : bool :=
  match v with Some s => negb (String.eqb s "") | None => false end.

Definition startServer (env : gmap string string) : Process :=
  let MONGODB_URI :=
    if envTruthy (env !! "MONGODB_URI") then env !! "MONGODB_URI"
    else env !! "MONGO_URI" in
  if negb (envTruthy MONGODB_URI) then Exited 1
  else
    (* require('./routes/auth') *)
    match loadSecret env with
    | None => Exited 1
    | Some secret =>
        Listening secret (bool_decide (env !! "NODE_ENV" = Some "development"))
    end.

(** A request reaches a handler only in a process that listens. *)
Definition serve {A} (p : Process) (handler : string -> bool -> A) : option A :=
  match p with
  | Listening secret development => Some (handler secret development)
  | Exited _ => None
  end.

(** ** Instances of the two interfaces

    A small implementation of each interface, used to run the handlers on
    concrete requests. The digest and the token keep their inputs readable
    (base16 where the packages use bcrypt and base64url); the properties
    that the interfaces ask for are proved for them. *)

Module Reference.

Definition hexDigit (n : N) : ascii :=
  nth (N.to_nat n) (list_ascii_of_string "0123456789abcdef") "0"%char.

Definition hexValue (c : ascii) : option N :=
  let n := N_of_ascii c in
  if ((48 <=? n) && (n <=? 57))%N then Some (n - 48)%N
  else if ((97 <=? n) && (n <=? 102))%N then Some (n - 87)%N
  else None.

Fixpoint hex (s : string) : string :=
  match s with
  | EmptyString => EmptyString
  | String c s' =>
      String (hexDigit (N_of_ascii c / 16)) (String (hexDigit (N_of_ascii c mod 16)) (hex s'))
  end.

Fixpoint unhex (s : string) : option string :=
  match s with
  | EmptyString => Some EmptyString
  | String a (String b s') =>
      match hexValue a, hexValue b, unhex s' with
      | Some x, Some y, Some r => Some (String (ascii_of_N (x * 16 + y)) r)
      | _, _, _ => None
      end
  | String _ EmptyString => None
  end.

Definition decimal (n : N) : string := NilEmpty.string_of_uint (N.to_uint n).

Definition undecimal (s : string) : option N :=
  match NilEmpty.uint_of_string s with
  | Some d => Some (N.of_uint d)
  | None => None
  end.

Definition encodePayload (p : Jwt.Payload) : string :=
  hex (Jwt.userId p) +:+ "-" +:+ hex (Jwt.role p) +:+ "-" +:+
  hex (decimal (Jwt.iat p)) +:+ "-" +:+ hex (decimal (Jwt.exp p)).

Definition decodePayload (s : string) : option Jwt.Payload :=
  match Js.split "-" s with
  | [a; b; c; d] =>
      match unhex a, unhex b, unhex c, unhex d with
      | Some u, Some r, Some i, Some e =>
          match undecimal i, undecimal e with
          | Some i', Some e' =>
              Some {| Jwt.userId := u; Jwt.role := r; Jwt.iat := i'; Jwt.exp := e' |}
          | _, _ => None
          end
      | _, _, _, _ => None
      end
  | _ => None
  end.

Definition tag (key input : string) : string :=
  String "t" (hex (key +:+ "/" +:+ input)).

Definition digest (s salt : string) : string := hex s +:+ "$" +:+ salt.

Definition matches (s hash : string) : bool := String.prefix (hex s +:+ "$") hash.

End Reference.

(** ** Facts about strings *)

Example toLowerCase_mixed : Js.toLowerCase "A@X.com" = "a@x.com".
Proof. reflexivity. Qed.

Example trim_both_ends : Js.trim "  r1 	" = "r1".
Proof. reflexivity. Qed.

Example split_bearer : Js.split " " "Bearer abc" = ["Bearer"; "abc"].
Proof. reflexivity. Qed.

Example split_bearer_empty : Js.split " " "Bearer " = ["Bearer"; ""].
Proof. reflexivity. Qed.

Example parseInt_examples :
  Js.parseInt_string " 3rd" = Js.Num 3 /\ Js.parseInt_string "0x1f" = Js.Num 31 /\
  Js.parseInt_string "-7" = Js.Num (-7) /\ Js.parseInt_string "abc" = Js.NaN.
Proof. repeat split; reflexivity. Qed.

Lemma append_assoc (a b c : string) : (a +:+ b) +:+ c = a +:+ (b +:+ c).
Proof. induction a as [|x a IH]; simpl; [reflexivity | now rewrite IH]. Qed.

Lemma prefix_append (a b : string) : String.prefix a (a +:+ b) = true.
Proof.
  induction a as [|x a IH]; simpl.
  - now destruct b.
  - destruct (ascii_dec x x); [exact IH | congruence].
Qed.

Lemma lacks_append (c : ascii) (a b : string) :
  Js.lacks c (a +:+ b) = Js.lacks c a && Js.lacks c b.
Proof.
  induction a as [|x a IH]; simpl; [reflexivity |].
  rewrite IH. now rewrite andb_assoc.
Qed.

(** A string without the separator is one piece. *)
Lemma split_lacks (c : ascii) (a : string) :
  Js.lacks c a = true -> Js.split c a = [a].
Proof.
  induction a as [|x a IH]; simpl; [reflexivity |].
  intros Hl. apply andb_prop in Hl as [Hx Ha].
  apply negb_true_iff in Hx. rewrite Hx, (IH Ha). reflexivity.
Qed.

(** Splitting cuts at the first separator. *)
Lemma split_append (c : ascii) (a b : string) :
  Js.lacks c a = true ->
  Js.split c (a +:+ String c b) = a :: Js.split c b.
Proof.
  induction a as [|x a IH]; simpl.
  - intros _. now rewrite Ascii.eqb_refl.
  - intros Hl. apply andb_prop in Hl as [Hx Ha].
    apply negb_true_iff in Hx. rewrite Hx, (IH Ha). reflexivity.
Qed.

Lemma base64url_append (a b : string) :
  Jwt.base64url (a +:+ b) = Jwt.base64url a && Jwt.base64url b.
Proof.
  induction a as [|x a IH]; simpl; [reflexivity |].
  rewrite IH. now rewrite andb_assoc.
Qed.

(** A character outside the alphabet does not occur in base64url text. *)
Lemma base64url_lacks (x : ascii) (s : string) :
  Jwt.base64urlChar x = false -> Jwt.base64url s = true -> Js.lacks x s = true.
Proof.
  intros Hx. induction s as [|c s IH]; simpl; [reflexivity |].
  intros Hs. apply andb_prop in Hs as [Hc Hs]. rewrite (IH Hs), andb_true_r.
  apply negb_true_iff, Ascii.eqb_neq. intros ->. congruence.
Qed.

Lemma base64urlChar_not_space (c : ascii) :
  Jwt.base64urlChar c = true -> Js.is_space c = false.
Proof.
  destruct c as [[] [] [] [] [] [] [] []]; vm_compute; congruence.
Qed.

Lemma trimEnd_base64url (s : string) : Jwt.base64url s = true -> Js.trimEnd s = s.
Proof.
  induction s as [|c s IH]; simpl; [reflexivity |].
  intros Hs. apply andb_prop in Hs as [Hc Hs]. rewrite (IH Hs).
  rewrite (base64urlChar_not_space c Hc). now destruct s.
Qed.

(** [trim] leaves base64url text as it is. *)
Lemma trim_base64url (s : string) : Jwt.base64url s = true -> Js.trim s = s.
Proof.
  intros Hs. unfold Js.trim.
  assert (Js.trimStart s = s) as ->.
  { destruct s as [|c s]; simpl; [reflexivity |].
    simpl in Hs. apply andb_prop in Hs as [Hc _].
    now rewrite (base64urlChar_not_space c Hc). }
  now apply trimEnd_base64url.
Qed.

Module ReferenceFacts.
Import Reference.

Lemma hex_char (c : ascii) :
  hexValue (hexDigit (N_of_ascii c / 16)) = Some (N_of_ascii c / 16)%N /\
  hexValue (hexDigit (N_of_ascii c mod 16)) = Some (N_of_ascii c mod 16)%N /\
  ascii_of_N (N_of_ascii c / 16 * 16 + N_of_ascii c mod 16) = c /\
  Jwt.base64urlChar (hexDigit (N_of_ascii c / 16)) = true /\
  Jwt.base64urlChar (hexDigit (N_of_ascii c mod 16)) = true.
Proof.
  destruct c as [[] [] [] [] [] [] [] []]; vm_compute; repeat split; reflexivity.
Qed.

Lemma unhex_hex (s : string) : unhex (hex s) = Some s.
Proof.
  induction s as [|c s IH]; simpl; [reflexivity |].
  destruct (hex_char c) as (-> & -> & Hc & _). now rewrite IH, Hc.
Qed.

Lemma hex_base64url (s : string) : Jwt.base64url (hex s) = true.
Proof.
  induction s as [|c s IH]; simpl; [reflexivity |].
  destruct (hex_char c) as (_ & _ & _ & -> & ->). exact IH.
Qed.

Lemma hex_lacks_dash (s : string) : Js.lacks "-" (hex s) = true.
Proof.
  induction s as [|c s IH]; simpl Js.lacks; [reflexivity |].
  rewrite IH, andb_true_r.
  destruct c as [[] [] [] [] [] [] [] []]; vm_compute; reflexivity.
Qed.

Lemma undecimal_decimal (n : N) : undecimal (decimal n) = Some n.
Proof.
  unfold undecimal, decimal. rewrite NilEmpty.usu.
  now rewrite DecimalN.Unsigned.of_to.
Qed.

Lemma reference_decode_encode (p : Jwt.Payload) :
  decodePayload (encodePayload p) = Some p.
Proof.
  destruct p as [u r i e]. unfold decodePayload, encodePayload. simpl.
  rewrite !split_append by apply hex_lacks_dash.
  rewrite split_lacks by apply hex_lacks_dash.
  now rewrite !unhex_hex, !undecimal_decimal.
Qed.

Lemma reference_encode_base64url (p : Jwt.Payload) :
  Jwt.base64url (encodePayload p) = true.
Proof.
  unfold encodePayload. rewrite !base64url_append, !hex_base64url. reflexivity.
Qed.

Lemma reference_tag_base64url (k m : string) : Jwt.base64url (tag k m) = true.
Proof. unfold tag. simpl. apply hex_base64url. Qed.

Lemma reference_tag_nonempty (k m : string) : tag k m <> "".
Proof. discriminate. Qed.

Lemma matches_digest (s salt : string) : matches s (digest s salt) = true.
Proof. unfold matches, digest. rewrite <- append_assoc. apply prefix_append. Qed.

End ReferenceFacts.

Definition reference_bcrypt : Bcrypt := {|
  bcrypt_hash := Reference.digest;
  bcrypt_compare := Reference.matches;
  bcrypt_compare_hash := ReferenceFacts.matches_digest
|}.

Definition reference_codec : Jwt.Codec := {|
  Jwt.encodePayload := Reference.encodePayload;
  Jwt.decodePayload := Reference.decodePayload;
  Jwt.hs256 := Reference.tag;
  Jwt.decode_encode := ReferenceFacts.reference_decode_encode;
  Jwt.encodePayload_base64url := ReferenceFacts.reference_encode_base64url;
  Jwt.hs256_base64url := ReferenceFacts.reference_tag_base64url;
  Jwt.hs256_nonempty := ReferenceFacts.reference_tag_nonempty
|}.

(** ** Sample data *)

Module Sample.

Definition secret : string := "s3cret".

Definition superAdmin : UserData :=
  {| ud_name := "Root"; ud_email := "root@x.com"; ud_password := VStr "hunter22";
     ud_role := "admin"; ud_rollNumber := None; ud_department := Some (VStr "CSE");
     ud_semester := None; ud_batch := None; ud_proctorId := None;
     ud_adminLevel := Some (VStr "super") |}.

(** A proctor whose stored permissions were all switched on by hand. *)
Definition proctor : User.t :=
  {| User._id := "p1"; User.name := "P"; User.email := "p@x.com";
     User.password := "digest"; User.role := "proctor";
     User.rollNumber := None; User.department := Some "ECE";
     User.semester := None; User.batch := None; User.proctorId := Some "PR7";
     User.assignedStudents := []; User.adminLevel := "super";
     User.permissions := User.permissionsFor "super";
     User.createdAt := 5%N; User.lastLogin := None; User.isActive := true;
     User.profilePicture := None; User.phone := None |}.

Definition payload : Jwt.Payload :=
  {| Jwt.userId := "id1"; Jwt.role := "student"; Jwt.iat := 1000%N;
     Jwt.exp := 605800%N |}.

Definition token : string := Eval vm_compute in
  @Jwt.serialize reference_codec secret payload.

Definition bearer (h : option string) : Request :=
  {| authorization := h; userId := None; userRole := None |}.

Definition fx1 : Effects := {| clock := 1000; salt := "salt1"; objectId := "id1" |}.
Definition fx2 : Effects := {| clock := 2000; salt := "salt2"; objectId := "id2" |}.

(** The register and login handlers under the reference instances. *)
Definition register := @register reference_bcrypt reference_codec secret false.
Definition login := @login reference_bcrypt reference_codec secret false.

Definition studentBody : gmap string jsval :=
  list_to_map
    [("name", VStr "A"); ("email", VStr "a@x.com"); ("password", VStr "secret1");
     ("role", VStr "student"); ("rollNumber", VStr "r1");
     ("department", VStr "CSE"); ("semester", VNum 3); ("batch", VStr "2024")].

(** The object [userData] that the handler builds from [studentBody]. *)
Definition studentData : UserData :=
  {| ud_name := "A"; ud_email := "a@x.com"; ud_password := VStr "secret1";
     ud_role := "student"; ud_rollNumber := Some "R1";
     ud_department := Some (VStr "CSE"); ud_semester := Some (Js.Num 3);
     ud_batch := Some "2024"; ud_proctorId := None; ud_adminLevel := None |}.

Definition adminBody : gmap string jsval :=
  list_to_map
    [("name", VStr "Root"); ("email", VStr " Root@X.com "); ("password", VStr "hunter22");
     ("role", VStr "admin"); ("department", VStr "IT");
     ("adminLevel", VStr "department")].

Definition loginBody (email password : string) : gmap string jsval :=
  list_to_map [("email", VStr email); ("password", VStr password)].

(** The collection after the student has registered, and the same
    collection with the account deactivated. *)
Definition registered : list User.t := Eval vm_compute in
  fst (register fx1 [] studentBody []).

Definition suspended : User.t :=
  {| User._id := "s9"; User.name := "S"; User.email := "s@x.com";
     User.password := "digest"; User.role := "student";
     User.rollNumber := Some "R9"; User.department := Some "IT";
     User.semester := Some (Js.Num 2); User.batch := Some "2023";
     User.proctorId := None; User.assignedStudents := [];
     User.adminLevel := "limited"; User.permissions := Mongoose.noPermissions;
     User.createdAt := 3%N; User.lastLogin := None; User.isActive := false;
     User.profilePicture := None; User.phone := None |}.


Definition newAdmin : User.Doc := Mongoose.construct "a1" 7 superAdmin.

End Sample.

Ltac case_if :=
  match goal with |- context [if ?c then _ else _] => destruct c eqn:? end.

Ltac case_if_in H :=
  match type of H with context [if ?c then _ else _] => destruct c eqn:? end.

(** ** Facts about tokens *)

Section TokenFacts.

Context `{Jwt.Codec}.

Lemma eqb_false_of_neq (a b : string) : a <> b -> String.eqb a b = false.
Proof. apply String.eqb_neq. Qed.

Lemma split_nonempty (c : ascii) (s : string) : Js.split c s <> [].
Proof.
  destruct s as [|d s]; simpl; [discriminate |].
  destruct (Ascii.eqb d c); [discriminate |].
  destruct (Js.split c s); discriminate.
Qed.

(** A single piece of a split is the whole string. *)
Lemma split_single (c : ascii) (s x : string) : Js.split c s = [x] -> x = s.
Proof.
  revert x. induction s as [|d s IH]; simpl; intros x Hs.
  - now injection Hs as <-.
  - destruct (Ascii.eqb d c).
    + injection Hs as _ Hs. now apply split_nonempty in Hs.
    + destruct (Js.split c s) as [|h t] eqn:E.
      * now apply split_nonempty in E.
      * injection Hs as <- ->. now rewrite (IH h eq_refl).
Qed.

Lemma split_token (h p s : string) :
  Js.lacks "." h = true -> Js.lacks "." p = true ->
  Js.split "." (Jwt.signingInput h p +:+ "." +:+ s) = h :: p :: Js.split "." s.
Proof.
  intros Hh Hp. unfold Jwt.signingInput.
  rewrite !append_assoc. simpl.
  rewrite (split_append "." h) by assumption.
  now rewrite (split_append "." p) by assumption.
Qed.

Lemma header_lacks_dot : Js.lacks "." Jwt.header = true.
Proof. reflexivity. Qed.

Lemma payload_lacks_dot (p : Jwt.Payload) : Js.lacks "." (Jwt.encodePayload p) = true.
Proof. apply base64url_lacks; [reflexivity | apply Jwt.encodePayload_base64url]. Qed.

Lemma hs256_lacks_dot (k m : string) : Js.lacks "." (Jwt.hs256 k m) = true.
Proof. apply base64url_lacks; [reflexivity | apply Jwt.hs256_base64url]. Qed.

Lemma sign_serialize (id role secret : string) (ttl issued : N) :
  secret <> "" ->
  Jwt.sign id role secret ttl issued =
  Ok (Jwt.serialize secret {| Jwt.userId := id; Jwt.role := role; Jwt.iat := issued;
                        Jwt.exp := (issued + ttl)%N |}).
Proof.
  intros Hs. unfold Jwt.sign. now rewrite (eqb_false_of_neq _ _ Hs).
Qed.

Lemma serialize_plain (secret : string) (p : Jwt.Payload) :
  Js.lacks " " (Jwt.serialize secret p) = true /\ Jwt.serialize secret p <> "".
Proof.
  split.
  - unfold Jwt.serialize, Jwt.signingInput. rewrite !lacks_append.
    rewrite (base64url_lacks " " (Jwt.encodePayload p)) by
      (reflexivity || apply Jwt.encodePayload_base64url).
    rewrite (base64url_lacks " " (Jwt.hs256 _ _)) by
      (reflexivity || apply Jwt.hs256_base64url).
    reflexivity.
  - unfold Jwt.serialize, Jwt.signingInput, Jwt.header. discriminate.
Qed.

(** What [verify] does on a token of three pieces whose first two are the
    header and an encoded payload. *)
Lemma verify_three (secret sig : string) (p : Jwt.Payload) (now : N) :
  secret <> "" -> Js.lacks "." sig = true ->
  Jwt.verify (Jwt.signingInput Jwt.header (Jwt.encodePayload p) +:+ "." +:+ sig)
             secret now =
  if String.eqb (Js.trim sig) "" then
    Throw (JsonWebTokenError "jwt signature is required")
  else if negb (String.eqb sig
                  (Jwt.hs256 secret (Jwt.signingInput Jwt.header (Jwt.encodePayload p))))
  then Throw (JsonWebTokenError "invalid signature")
  else if (Jwt.exp p <=? now)%N then Throw TokenExpiredError
  else Ok p.
Proof.
  intros Hs Hsig. unfold Jwt.verify.
  rewrite (eqb_false_of_neq _ "") by (unfold Jwt.signingInput, Jwt.header; discriminate).
  rewrite (eqb_false_of_neq _ _ Hs).
  rewrite split_token by (apply header_lacks_dot || apply payload_lacks_dot).
  rewrite (split_lacks "." sig Hsig).
  rewrite Jwt.decode_encode, String.eqb_refl. reflexivity.
Qed.

Lemma verify_serialize (secret : string) (p : Jwt.Payload) (now : N) :
  secret <> "" ->
  Jwt.verify (Jwt.serialize secret p) secret now =
  if (Jwt.exp p <=? now)%N then Throw TokenExpiredError else Ok p.
Proof.
  intros Hs. unfold Jwt.serialize.
  rewrite verify_three by (assumption || apply hs256_lacks_dot).
  rewrite trim_base64url by apply Jwt.hs256_base64url.
  rewrite (eqb_false_of_neq _ "") by apply Jwt.hs256_nonempty.
  now rewrite String.eqb_refl.
Qed.

(** Any other third piece is refused. *)
Lemma verify_altered (secret sig : string) (p : Jwt.Payload) (now : N) :
  secret <> "" ->
  sig <> Jwt.hs256 secret (Jwt.signingInput Jwt.header (Jwt.encodePayload p)) ->
  exists e,
    Jwt.verify (Jwt.signingInput Jwt.header (Jwt.encodePayload p) +:+ "." +:+ sig)
               secret now = Throw e.
Proof.
  intros Hs Hne. destruct (Js.lacks "." sig) eqn:Hdot.
  - rewrite verify_three by assumption.
    destruct (String.eqb (Js.trim sig) ""); [eauto |].
    rewrite (eqb_false_of_neq _ _ Hne). simpl. eauto.
  - unfold Jwt.verify.
    rewrite (eqb_false_of_neq _ "") by (unfold Jwt.signingInput, Jwt.header; discriminate).
    rewrite (eqb_false_of_neq _ _ Hs).
    rewrite split_token by (apply header_lacks_dot || apply payload_lacks_dot).
    destruct (Js.split "." sig) as [|x [|y l]] eqn:E; [eauto | | eauto].
    apply split_single in E. subst x.
    destruct (Jwt.decodePayload _); [|eauto].
    rewrite String.eqb_refl. simpl.
    destruct (String.eqb (Js.trim sig) ""); [eauto |].
    rewrite (eqb_false_of_neq _ _ Hne). simpl. eauto.
Qed.

(** A string that does not split into three pieces is refused. *)
Lemma verify_malformed (token secret : string) (now : N) :
  List.length (Js.split "." token) <> 3%nat ->
  exists e, Jwt.verify token secret now = Throw e.
Proof.
  intros Hl. unfold Jwt.verify.
  destruct (String.eqb token ""); [eauto |].
  destruct (String.eqb secret ""); [eauto |].
  destruct (Js.split "." token) as [|a [|b [|c [|d l]]]]; simpl in Hl; eauto.
  congruence.
Qed.

(** The token that follows ["Bearer "] in a header is what the gate reads. *)
Lemma split_bearer_token (token : string) :
  Js.lacks " " token = true ->
  Js.split " " ("Bearer " +:+ token) !! 1%nat = Some token.
Proof.
  intros Hl. change ("Bearer " +:+ token) with ("Bearer" +:+ String " " token).
  rewrite split_append by reflexivity.
  now rewrite (split_lacks " " token Hl).
Qed.

(** A header made of the scheme and a token passes the first check. *)
Lemma bearer_scheme (token : string) :
  String.eqb ("Bearer " +:+ token) "" || negb (Js.startsWith ("Bearer " +:+ token) "Bearer ")
  = false.
Proof.
  unfold Js.startsWith. rewrite prefix_append. reflexivity.
Qed.

End TokenFacts.

(** ** Facts about the handlers *)

Section HandlerFacts.

Context `{Bcrypt} `{Jwt.Codec}.
Variable secret : string.
Variable development : bool.

(** The register handler in direct style. *)
Lemma register_unfold (fx : Effects) (others : list User.t)
    (body : gmap string jsval) (db : list User.t) :
  register secret development fx others body db =
  match validateBase body with
  | Return r => (db, r)
  | Raise e => (db, registerCatch development e)
  | Next _ =>
    match validateRole body with
    | Return r => (db, r)
    | Raise e => (db, registerCatch development e)
    | Next _ =>
      match call_toLowerCase "email" (body !! "email") with
      | Return r => (db, r)
      | Raise e => (db, registerCatch development e)
      | Next lowered =>
        if bool_decide (is_Some (Mongoose.findOne (Js.trim lowered) db)) then
          (db ++ others, reject 400 "Email already registered")
        else
          match buildUserData body with
          | Return r => (db ++ others, r)
          | Raise e => (db ++ others, registerCatch development e)
          | Next userData =>
            match Mongoose.save (salt fx) (db ++ others)
                    (Mongoose.construct (objectId fx) (clock fx) userData) with
            | Throw e => (db ++ others, registerCatch development e)
            | Ok (db', d) =>
              let user := User.fields d in
              match generateToken secret (clock fx) (User._id user) (User.role user) with
              | Throw e => (db', registerCatch development e)
              | Ok token =>
                (db', {| status := 201; jsonBody := AuthJson token (safeUser user) |})
              end
            end
          end
      end
    end
  end.
Proof.
  unfold register, tryCatch, registerTry, andThenH, pure, User_findOne,
    meanwhile, user_save.
  destruct (validateBase body) as [[]| |]; try reflexivity.
  destruct (validateRole body) as [[]| |]; try reflexivity.
  destruct (call_toLowerCase "email" (body !! "email")); try reflexivity.
  destruct (bool_decide _); simpl; try reflexivity.
  destruct (buildUserData body); try reflexivity.
  destruct (Mongoose.save _ _ _) as [[db' d]|]; try reflexivity.
  destruct (generateToken _ _ _ _); reflexivity.
Qed.

(** The login handler in direct style. *)
Lemma login_unfold (fx : Effects) (body : gmap string jsval) (db : list User.t) :
  login secret development fx body db =
  if negb (truthy (body !! "email")) || negb (truthy (body !! "password")) then
    (db, reject 400 "Email and password are required")
  else
    match call_toLowerCase "email" (body !! "email") with
    | Return r => (db, r)
    | Raise e => (db, loginCatch development e)
    | Next lowered =>
      match Mongoose.findOne (Js.trim lowered) db with
      | None => (db, reject 401 "Invalid credentials")
      | Some found =>
        if negb (User.isActive found) then
          (db, reject 401 "Account is deactivated. Contact admin.")
        else
          match compare_val (body !! "password") (User.password found) with
          | Return r => (db, r)
          | Raise e => (db, loginCatch development e)
          | Next isMatch =>
            if negb isMatch then (db, reject 401 "Invalid credentials")
            else
              match Mongoose.save (salt fx) db
                      (User.assign User.p_lastLogin
                         (User.set_lastLogin (Some (clock fx)))
                         (Mongoose.hydrate found)) with
              | Throw e => (db, loginCatch development e)
              | Ok (db', d) =>
                let user := User.fields d in
                match generateToken secret (clock fx) (User._id user) (User.role user) with
                | Throw e => (db', loginCatch development e)
                | Ok token =>
                  (db', {| status := 200; jsonBody := AuthJson token (safeUser user) |})
                end
              end
          end
      end
    end.
Proof.
  unfold login, tryCatch, loginTry, andThenH, pure, User_findOne, user_save.
  destruct (negb (truthy (body !! "email")) || negb (truthy (body !! "password")));
    try reflexivity.
  simpl. destruct (call_toLowerCase "email" (body !! "email")); try reflexivity.
  destruct (Mongoose.findOne _ db) as [found|]; try reflexivity.
  simpl. destruct (negb (User.isActive found)); try reflexivity.
  simpl. destruct (compare_val _ _) as [[]| |]; try reflexivity.
  simpl. destruct (Mongoose.save _ _ _) as [[db' d]|]; try reflexivity.
  destruct (generateToken _ _ _ _); reflexivity.
Qed.

End HandlerFacts.

(** ** Facts about normalisation *)

Lemma lower_char_space (c : ascii) : Js.is_space (Js.lower_char c) = Js.is_space c.
Proof. destruct c as [[] [] [] [] [] [] [] []]; reflexivity. Qed.

Lemma lower_char_idem (c : ascii) : Js.lower_char (Js.lower_char c) = Js.lower_char c.
Proof. destruct c as [[] [] [] [] [] [] [] []]; reflexivity. Qed.

Lemma toLowerCase_idem (s : string) : Js.toLowerCase (Js.toLowerCase s) = Js.toLowerCase s.
Proof.
  unfold Js.toLowerCase. induction s as [|c s IH]; simpl; [reflexivity |].
  now rewrite lower_char_idem, IH.
Qed.

Lemma toLowerCase_trimStart (s : string) :
  Js.toLowerCase (Js.trimStart s) = Js.trimStart (Js.toLowerCase s).
Proof.
  unfold Js.toLowerCase. induction s as [|c s IH]; simpl; [reflexivity |].
  rewrite lower_char_space. now destruct (Js.is_space c).
Qed.

Lemma toLowerCase_empty (s : string) : Js.toLowerCase s = "" -> s = "".
Proof. now destruct s. Qed.

Lemma toLowerCase_trimEnd (s : string) :
  Js.toLowerCase (Js.trimEnd s) = Js.trimEnd (Js.toLowerCase s).
Proof.
  unfold Js.toLowerCase. induction s as [|c s IH]; simpl; [reflexivity |].
  rewrite <- IH, lower_char_space.
  destruct (Js.trimEnd s) as [|d t]; simpl; [now destruct (Js.is_space c) | reflexivity].
Qed.

(** Lowering the case and trimming commute. *)
Lemma toLowerCase_trim (s : string) :
  Js.toLowerCase (Js.trim s) = Js.trim (Js.toLowerCase s).
Proof. unfold Js.trim. now rewrite toLowerCase_trimEnd, toLowerCase_trimStart. Qed.

(** The [lowercase] setter leaves a normalised address as it is. *)
Lemma toLowerCase_normalised (s : string) :
  Js.toLowerCase (Js.trim (Js.toLowerCase s)) = Js.trim (Js.toLowerCase s).
Proof. now rewrite toLowerCase_trim, toLowerCase_idem. Qed.

Lemma trim_toLowerCase_nonempty (s : string) :
  Js.trim s <> "" -> Js.trim (Js.toLowerCase s) <> "".
Proof.
  intros Hs E. rewrite <- toLowerCase_trim in E.
  now apply toLowerCase_empty in E.
Qed.

(** ** Facts about documents and the collection *)

Module UserFacts.
Import User.

Lemma copy_lastLogin (src dst : t) :
  copyPath p_lastLogin src dst = set_lastLogin (lastLogin src) dst.
Proof. now destruct dst. Qed.

Lemma set_lastLogin_fields (v : option N) (u : t) :
  _id (set_lastLogin v u) = _id u /\ email (set_lastLogin v u) = email u /\
  password (set_lastLogin v u) = password u /\ role (set_lastLogin v u) = role u /\
  isActive (set_lastLogin v u) = isActive u /\
  permissions (set_lastLogin v u) = permissions u /\
  adminLevel (set_lastLogin v u) = adminLevel u /\
  lastLogin (set_lastLogin v u) = v.
Proof. destruct u; repeat split; reflexivity. Qed.

(** The hook leaves a document alone when neither [password] nor
    [adminLevel] was modified. *)
Lemma preSave_unmodified `{Bcrypt} (salt : string) (d : Doc) :
  isModified p_password d = false -> isModified p_adminLevel d = false ->
  preSave salt d = d.
Proof.
  intros Hp Ha. unfold preSave. rewrite Hp, Ha, andb_false_r. reflexivity.
Qed.

(** What the hook writes in general: the hash when [password] was modified,
    and the table entry when the role is admin and [adminLevel] was. *)
Lemma preSave_fields `{Bcrypt} (salt : string) (d : Doc) :
  let u := fields (preSave salt d) in
  password u = (if isModified p_password d
                then bcrypt_hash (password (fields d)) salt
                else password (fields d)) /\
  permissions u = (if String.eqb (role (fields d)) "admin" && isModified p_adminLevel d
                   then permissionsFor (adminLevel (fields d))
                   else permissions (fields d)) /\
  _id u = _id (fields d) /\ name u = name (fields d) /\
  email u = email (fields d) /\ role u = role (fields d) /\
  rollNumber u = rollNumber (fields d) /\ department u = department (fields d) /\
  semester u = semester (fields d) /\ batch u = batch (fields d) /\
  proctorId u = proctorId (fields d) /\
  assignedStudents u = assignedStudents (fields d) /\
  adminLevel u = adminLevel (fields d) /\ createdAt u = createdAt (fields d) /\
  lastLogin u = lastLogin (fields d) /\ isActive u = isActive (fields d).
Proof.
  destruct d as [u n m]. destruct u. unfold preSave, isModified. simpl.
  destruct (bool_decide (p_password ∈ m)) eqn:Hp; simpl.
  - assert (bool_decide (p_adminLevel ∈ p_password :: m) = bool_decide (p_adminLevel ∈ m)) as ->.
    { apply bool_decide_ext. rewrite elem_of_cons.
      split; [intros [E|E]; [discriminate E | exact E] | intros E; now right]. }
    destruct (_ && _); simpl; repeat split; reflexivity.
  - destruct (_ && _); simpl; repeat split; reflexivity.
Qed.

End UserFacts.

Module CollectionFacts.
Import User Mongoose.

Lemma findOne_Some (e : string) (db : list t) (u : t) :
  findOne e db = Some u -> In u db /\ email u = e.
Proof.
  intros Hf. apply List.find_some in Hf as [Hin He].
  split; [assumption | now apply String.eqb_eq].
Qed.

Lemma findOne_None (e : string) (db : list t) :
  findOne e db = None <-> forall u, In u db -> email u <> e.
Proof.
  split.
  - intros Hf u Hin. apply (List.find_none _ _ Hf) in Hin. now apply String.eqb_neq.
  - intros Hall. induction db as [|v db IH]; simpl; [reflexivity |].
    rewrite (eqb_false_of_neq (email v) e) by (apply Hall; now left).
    apply IH. intros u Hu. apply Hall. now right.
Qed.


Lemma findOne_app (e : string) (db db' : list t) :
  findOne e (db ++ db') =
  match findOne e db with Some u => Some u | None => findOne e db' end.
Proof.
  induction db as [|v db IH]; simpl; [reflexivity |].
  now destruct (String.eqb (email v) e).
Qed.

Lemma insertOne_Ok (u : t) (db db' : list t) :
  insertOne u db = Ok db' ->
  db' = db ++ [u] /\
  forall v, In v db -> _id v <> _id u /\ email v <> email u.
Proof.
  unfold insertOne. destruct (existsb _ db) eqn:E; [discriminate |].
  intros [= <-]. split; [reflexivity |].
  intros v Hv. rewrite <- Bool.not_true_iff_false, existsb_exists in E.
  split; intros Heq; apply E; exists v; (split; [assumption |]);
    rewrite Heq, String.eqb_refl; [reflexivity | apply orb_true_r].
Qed.

Lemma insertOne_fresh (u : t) (db : list t) :
  (forall v, In v db -> _id v <> _id u /\ email v <> email u) ->
  insertOne u db = Ok (db ++ [u]).
Proof.
  intros Hfresh. unfold insertOne.
  assert (existsb (fun v => String.eqb (_id v) (_id u) || String.eqb (email v) (email u)) db
          = false) as ->; [| reflexivity].
  apply Bool.not_true_iff_false. intros Hex.
  apply existsb_exists in Hex as (v & Hv & Heq).
  destruct (Hfresh v Hv) as [Hid Hmail].
  now rewrite (eqb_false_of_neq _ _ Hid), (eqb_false_of_neq _ _ Hmail) in Heq.
Qed.


Lemma updateOne_ext (id : string) (f g : t -> t) (db : list t) :
  (forall u, f u = g u) -> updateOne id f db = updateOne id g db.
Proof.
  intros Hfg. induction db as [|v db IH]; simpl; [reflexivity |].
  now rewrite Hfg, IH.
Qed.


(** An update that keeps a projection keeps it on every document. *)
Lemma updateOne_map {A} (proj : t -> A) (id : string) (f : t -> t) (db : list t) :
  (forall u, proj (f u) = proj u) ->
  map proj (updateOne id f db) = map proj db.
Proof.
  intros Hf. induction db as [|v db IH]; simpl; [reflexivity |].
  destruct (String.eqb (_id v) id); simpl; [now rewrite Hf | now rewrite IH].
Qed.

(** A lookup after an update that keeps the address finds the document
    at the same place, updated or not. *)
Lemma findOne_updateOne (e id : string) (f : t -> t) (db : list t) (u' : t) :
  (forall u, email (f u) = email u) ->
  findOne e (updateOne id f db) = Some u' ->
  exists u, findOne e db = Some u /\ (u' = u \/ u' = f u).
Proof.
  intros Hf. induction db as [|v db IH]; simpl; [discriminate |].
  destruct (String.eqb (_id v) id); simpl.
  - rewrite Hf. destruct (String.eqb (email v) e); [| eauto].
    intros [= <-]. eauto.
  - destruct (String.eqb (email v) e); [| exact IH].
    intros [= <-]. eauto.
Qed.

End CollectionFacts.

(** ** Facts about the validation of a registration *)

Section ValidationFacts.

Implicit Types (body : gmap string jsval) (v : option jsval).

Lemma nonBlank_inv v :
  nonBlank v = true -> exists s, v = Some (VStr s) /\ Js.trim s <> "".
Proof.
  destruct v as [[| | |s]|]; simpl; try discriminate.
  intros Hs. exists s. split; [reflexivity |].
  now apply String.eqb_neq, negb_true_iff.
Qed.

Lemma nonBlank_truthy v : nonBlank v = true -> truthy v = true.
Proof.
  destruct v as [[| | |s]|]; simpl; try discriminate.
  now destruct s.
Qed.


(** With a name and an address that are not blank, the base validation
    is the two checks that remain. *)
Lemma validateBase_named body :
  nonBlank (body !! "name") = true -> nonBlank (body !! "email") = true ->
  validateBase body =
  (do _ <- returnIf (negb (truthy (body !! "password")) || length_lt (body !! "password") 6)
             (reject 400 "Password must be at least 6 characters");
   returnIf (negb (includes_val ["student"; "proctor"; "admin"] (body !! "role")))
     (reject 400 "Invalid role")).
Proof.
  intros Hn He. unfold validateBase.
  rewrite (nonBlank_truthy _ Hn), (nonBlank_truthy _ He).
  destruct (nonBlank_inv _ Hn) as (n & -> & Hn').
  destruct (nonBlank_inv _ He) as (e & -> & He').
  simpl. rewrite (eqb_false_of_neq _ _ Hn'), (eqb_false_of_neq _ _ He').
  reflexivity.
Qed.

(** What a body that passes the base validation looks like. *)
Lemma andThen_Next {A B} (m : Flow A) (k : A -> Flow B) (b : B) :
  andThen m k = Next b -> exists a, m = Next a /\ k a = Next b.
Proof. destruct m; simpl; try discriminate. eauto. Qed.

Lemma returnIf_Next (c : bool) (r : Response) (u : unit) :
  returnIf c r = Next u -> c = false.
Proof. now destruct c. Qed.

Lemma call_trim_Next (what : string) v (s : string) :
  call_trim what v = Next s -> exists x, v = Some (VStr x) /\ s = Js.trim x.
Proof.
  destruct v as [[| | |x]|]; simpl; try discriminate.
  intros [= <-]. eauto.
Qed.

Lemma validateBase_Next body :
  validateBase body = Next tt ->
  nonBlank (body !! "name") = true /\ nonBlank (body !! "email") = true /\
  truthy (body !! "password") = true /\ length_lt (body !! "password") 6 = false /\
  exists r, body !! "role" = Some (VStr r) /\ Js.includes ["student"; "proctor"; "admin"] r = true.
Proof.
  unfold validateBase. intros Hv.
  apply andThen_Next in Hv as (_ & _ & Hv).
  apply andThen_Next in Hv as (tn & Hn & Hv).
  apply andThen_Next in Hv as ([] & Hn' & Hv).
  apply andThen_Next in Hv as (_ & _ & Hv).
  apply andThen_Next in Hv as (te & He & Hv).
  apply andThen_Next in Hv as ([] & He' & Hv).
  apply andThen_Next in Hv as ([] & Hp & Hr).
  apply returnIf_Next in Hn', He', Hp, Hr.
  apply call_trim_Next in Hn as (n & Hn & Etn).
  apply call_trim_Next in He as (e & He & Ete).
  subst tn te. rewrite Hn, He.
  apply orb_false_elim in Hp as [Hp Hl]. apply negb_false_iff in Hp, Hr.
  simpl. rewrite Hn', He'. repeat split; try assumption.
  destruct (body !! "role") as [[| | |r]|]; simpl in Hr; try discriminate. eauto.
Qed.


(** The fields of [userData] that every role has, and [adminLevel], which
    only an admin has. *)
Lemma buildUserData_Next body (r : string) (ud : UserData) :
  body !! "role" = Some (VStr r) ->
  buildUserData body = Next ud ->
  (exists n, body !! "name" = Some (VStr n) /\ ud_name ud = Js.trim n) /\
  (exists e, body !! "email" = Some (VStr e) /\ ud_email ud = Js.trim (Js.toLowerCase e)) /\
  ud_password ud = default VNull (body !! "password") /\
  ud_role ud = r /\
  ud_adminLevel ud =
    (if String.eqb r "admin"
     then Some (if truthy (body !! "adminLevel") then default VNull (body !! "adminLevel")
                else VStr "limited")
     else None) /\
  (r = "student" ->
   exists rn, body !! "rollNumber" = Some (VStr rn) /\
              ud_rollNumber ud = Some (Js.toUpperCase (Js.trim rn))).
Proof.
  intros Hr. unfold buildUserData. rewrite Hr.
  destruct (body !! "name") as [[| | |n]|]; simpl; try discriminate.
  destruct (body !! "email") as [[| | |e]|]; simpl; try discriminate.
  destruct (String.eqb r "student") eqn:Hs.
  { apply String.eqb_eq in Hs. subst r.
    destruct (body !! "rollNumber") as [[| | |rn]|]; simpl; try discriminate.
    destruct (body !! "batch") as [[| | |bt]|]; simpl; try discriminate.
    intros [= <-]. simpl. repeat split; eauto. }
  destruct (String.eqb r "proctor") eqn:Hp.
  { apply String.eqb_eq in Hp. subst r.
    destruct (body !! "proctorId") as [[| | |pi]|]; simpl; try discriminate.
    intros [= <-]. simpl. repeat split; eauto. discriminate. }
  apply String.eqb_neq in Hs.
  destruct (String.eqb r "admin") eqn:Ha; intros [= <-]; simpl;
    repeat split; eauto; intros ->; congruence.
Qed.

End ValidationFacts.

(** ** Facts about the responses of the register handler *)

Section RegisterFacts.

Context `{Bcrypt} `{Jwt.Codec}.
Variable secret : string.
Variable development : bool.

Implicit Types (body : gmap string jsval) (db others : list User.t).

Lemma reject_failed (msg : string) (code : nat) :
  (400 <= code)%nat -> failed (reject code msg).
Proof. intros Hc. split; simpl; eauto. Qed.

Lemma registerCatch_failed (e : Exn) : failed (registerCatch development e).
Proof.
  unfold registerCatch. case_bool_decide.
  - apply reject_failed. lia.
  - destruct (String.eqb _ _); split; simpl; eauto; lia.
Qed.

Lemma loginCatch_failed (e : Exn) : failed (loginCatch development e).
Proof. split; simpl; eauto; lia. Qed.

Lemma andThen_Return {A B} (m : Flow A) (k : A -> Flow B) (r : Response) :
  andThen m k = Return r -> m = Return r \/ exists a, m = Next a /\ k a = Return r.
Proof.
  destruct m as [a| |]; simpl; try discriminate; [| intros [= ->]; now left].
  intros Hk. right. now exists a.
Qed.

Lemma returnIf_Return (c : bool) (r0 r : Response) :
  returnIf c r0 = Return r -> r = r0.
Proof. destruct c; simpl; congruence. Qed.

Lemma call_trim_Return (what : string) (v : option jsval) (r : Response) :
  call_trim what v <> Return r.
Proof. now destruct v as [[| | |x]|]. Qed.

Lemma call_toLowerCase_Return (what : string) (v : option jsval) (r : Response) :
  call_toLowerCase what v <> Return r.
Proof. now destruct v as [[| | |x]|]. Qed.

Ltac flow_return H :=
  repeat match type of H with
  | andThen _ _ = Return _ =>
      apply andThen_Return in H as [H | (? & _ & H)]
  | returnIf _ _ = Return _ =>
      apply returnIf_Return in H; subst; apply reject_failed; lia
  | (if _ then _ else _) = Return _ => case_if_in H
  | call_trim _ _ = Return _ => now apply call_trim_Return in H
  | call_toLowerCase _ _ = Return _ => now apply call_toLowerCase_Return in H
  | Next _ = Return _ => discriminate H
  end.

Lemma validateBase_Return body (r : Response) :
  validateBase body = Return r -> failed r.
Proof. unfold validateBase. intros Hv. flow_return Hv. Qed.

Lemma validateRole_Return body (r : Response) :
  validateRole body = Return r -> failed r.
Proof. unfold validateRole. intros Hv. flow_return Hv. Qed.

Lemma buildUserData_Return body (r : Response) : buildUserData body <> Return r.
Proof. unfold buildUserData. intros Hv. flow_return Hv. Qed.

End RegisterFacts.

(** ** Facts about [save] *)

Section SaveFacts.

Context `{Bcrypt}.
Import User Mongoose.

Lemma isNew_preSave (salt : string) (d : Doc) : isNew (preSave salt d) = isNew d.
Proof.
  unfold preSave. destruct (isModified p_password d); simpl;
    destruct (_ && _); reflexivity.
Qed.

Lemma construct_modified_password (id : string) (c : N) (ud : UserData) :
  isModified p_password (construct id c ud) = true.
Proof.
  apply bool_decide_eq_true_2. simpl. rewrite !elem_of_cons. tauto.
Qed.

Lemma construct_modified_adminLevel (id : string) (c : N) (ud : UserData) :
  isModified p_adminLevel (construct id c ud) =
  match ud_adminLevel ud with Some _ => true | None => false end.
Proof.
  destruct ud as [n e pw r [rn|] [dp|] [sm|] [bt|] [pi|] [al|]]; reflexivity.
Qed.

(** Saving a new document. *)
Lemma save_construct (salt id : string) (c : N) (ud : UserData) (db : list t) :
  save salt db (construct id c ud) =
  match validate (construct id c ud) with
  | [] =>
      match insertOne (fields (preSave salt (construct id c ud))) db with
      | Ok db' => Ok (db', hydrate (fields (preSave salt (construct id c ud))))
      | Throw e => Throw e
      end
  | errs => Throw (ValidationError errs)
  end.
Proof.
  unfold save. destruct (validate _); [| reflexivity].
  now rewrite isNew_preSave.
Qed.

(** Saving a stored document after [lastLogin] was assigned: the hook
    changes nothing, and the write sets [lastLogin] and nothing else. *)
Lemma save_lastLogin (salt : string) (c : N) (u : t) (db : list t) :
  let d := assign p_lastLogin (set_lastLogin (Some c)) (hydrate u) in
  preSave salt d = d /\
  save salt db d =
  Ok (updateOne (_id u) (set_lastLogin (Some c)) db,
      hydrate (set_lastLogin (Some c) u)).
Proof.
  intros d.
  assert (preSave salt d = d) as Hpre by now apply UserFacts.preSave_unmodified.
  split; [exact Hpre |].
  unfold save. change (validate d) with (@nil ValidatorError).
  rewrite Hpre. simpl. f_equal. f_equal.
  - destruct (UserFacts.set_lastLogin_fields (Some c) u) as (-> & _).
    apply CollectionFacts.updateOne_ext. intros v. unfold setModified. simpl.
    rewrite UserFacts.copy_lastLogin.
    now destruct (UserFacts.set_lastLogin_fields (Some c) u) as (_ & _ & _ & _ & _ & _ & _ & ->).
Qed.

End SaveFacts.

(** ** The outcomes of the two handlers *)

Section Outcomes.

Context `{Bcrypt} `{Jwt.Codec}.
Variable secret : string.
Variable development : bool.

Implicit Types (body : gmap string jsval) (db others : list User.t).

Lemma generateToken_Ok (now : N) (id role : string) :
  secret <> "" ->
  generateToken secret now id role =
  Ok (Jwt.serialize secret {| Jwt.userId := id; Jwt.role := role; Jwt.iat := now;
                              Jwt.exp := (now + sevenDays)%N |}).
Proof. apply sign_serialize. Qed.

(** A registration either reports an error or has created a document. *)
Lemma register_inv (fx : Effects) others body db db' (r : Response) :
  register secret development fx others body db = (db', r) ->
  failed r \/
  exists ud token,
    let d := Mongoose.construct (objectId fx) (clock fx) ud in
    let u := User.fields (User.preSave (salt fx) d) in
    validateBase body = Next tt /\ validateRole body = Next tt /\
    buildUserData body = Next ud /\ Mongoose.validate d = [] /\
    db' = (db ++ others) ++ [u] /\
    (forall v, In v (db ++ others) -> User._id v <> User._id u /\ User.email v <> User.email u) /\
    generateToken secret (clock fx) (User._id u) (User.role u) = Ok token /\
    r = {| status := 201; jsonBody := AuthJson token (safeUser u) |}.
Proof.
  rewrite register_unfold.
  destruct (validateBase body) as [[]|r0|e] eqn:Hb;
    [| intros [= <- <-]; left; eauto using validateBase_Return
     | intros [= <- <-]; left; apply registerCatch_failed].
  destruct (validateRole body) as [[]|r0|e] eqn:Hr;
    [| intros [= <- <-]; left; eauto using validateRole_Return
     | intros [= <- <-]; left; apply registerCatch_failed].
  destruct (call_toLowerCase "email" (body !! "email")) as [lowered|r0|e] eqn:Hl;
    [| now apply call_toLowerCase_Return in Hl
     | intros [= <- <-]; left; apply registerCatch_failed].
  case_bool_decide; [intros [= <- <-]; left; apply reject_failed; lia |].
  destruct (buildUserData body) as [ud|r0|e] eqn:Hu;
    [| now apply buildUserData_Return in Hu
     | intros [= <- <-]; left; apply registerCatch_failed].
  rewrite save_construct.
  destruct (Mongoose.validate _) eqn:Hv;
    [| intros [= <- <-]; left; apply registerCatch_failed].
  destruct (Mongoose.insertOne _ _) as [db1|e] eqn:Hi;
    [| intros [= <- <-]; left; apply registerCatch_failed].
  simpl. destruct (generateToken _ _ _ _) as [token|e] eqn:Ht;
    [| intros [= <- <-]; left; apply registerCatch_failed].
  intros [= <- <-]. right. exists ud, token.
  apply CollectionFacts.insertOne_Ok in Hi as [-> Hfresh].
  repeat split; try assumption; apply Hfresh; assumption.
Qed.

(** A login either reports an error and leaves the collection as it was,
    or it has found an active document whose password matches and has set
    its [lastLogin]. *)
Lemma login_inv (fx : Effects) body db db' (r : Response) :
  secret <> "" ->
  login secret development fx body db = (db', r) ->
  (failed r /\ db' = db) \/
  exists e p u,
    body !! "email" = Some (VStr e) /\ body !! "password" = Some (VStr p) /\
    Mongoose.findOne (Js.trim (Js.toLowerCase e)) db = Some u /\
    User.isActive u = true /\ bcrypt_compare p (User.password u) = true /\
    db' = Mongoose.updateOne (User._id u) (User.set_lastLogin (Some (clock fx))) db /\
    r = {| status := 200;
           jsonBody := AuthJson
                     (Jwt.serialize secret
                        {| Jwt.userId := User._id u; Jwt.role := User.role u;
                           Jwt.iat := clock fx; Jwt.exp := (clock fx + sevenDays)%N |})
                     (safeUser (User.set_lastLogin (Some (clock fx)) u)) |}.
Proof.
  intros Hs. rewrite login_unfold.
  destruct (negb (truthy (body !! "email")) || negb (truthy (body !! "password")));
    [intros [= <- <-]; left; split; [apply reject_failed; lia | reflexivity] |].
  destruct (body !! "email") as [[| | |e]|]; simpl;
    try (intros [= <- <-]; left; split; [apply loginCatch_failed | reflexivity]).
  destruct (Mongoose.findOne _ db) as [u|] eqn:Hf;
    [| intros [= <- <-]; left; split; [apply reject_failed; lia | reflexivity]].
  destruct (User.isActive u) eqn:Ha; simpl;
    [| intros [= <- <-]; left; split; [apply reject_failed; lia | reflexivity]].
  destruct (body !! "password") as [[| | |p]|]; simpl;
    try (intros [= <- <-]; left; split; [apply loginCatch_failed | reflexivity]).
  destruct (bcrypt_compare p (User.password u)) eqn:Hm; simpl;
    [| intros [= <- <-]; left; split; [apply reject_failed; lia | reflexivity]].
  destruct (save_lastLogin (salt fx) (clock fx) u db) as [_ ->]. simpl.
  destruct (UserFacts.set_lastLogin_fields (Some (clock fx)) u) as (-> & _ & _ & -> & _).
  rewrite generateToken_Ok by assumption.
  intros [= <- <-]. right. exists e, p, u. repeat split; assumption.
Qed.


(** The address that a new document is stored under. *)
Lemma stored_email (fx : Effects) body (e : string) (ud : UserData) :
  validateBase body = Next tt -> body !! "email" = Some (VStr e) ->
  buildUserData body = Next ud ->
  User.email (User.fields (User.preSave (salt fx)
     (Mongoose.construct (objectId fx) (clock fx) ud))) =
  Js.trim (Js.toLowerCase e).
Proof.
  intros Hb He Hud.
  destruct (validateBase_Next body Hb) as (_ & _ & _ & _ & r & Hr & _).
  destruct (buildUserData_Next body r ud Hr Hud) as (_ & (e0 & He0 & Hmail) & _).
  rewrite He in He0. injection He0 as <-.
  destruct (UserFacts.preSave_fields (salt fx)
              (Mongoose.construct (objectId fx) (clock fx) ud))
    as (_ & _ & _ & _ & -> & _).
  simpl. rewrite Hmail. apply toLowerCase_normalised.
Qed.


(** The document that a registration stores. *)
Lemma created_document (fx : Effects) body (ud : UserData) :
  validateBase body = Next tt -> buildUserData body = Next ud ->
  let u := User.fields (User.preSave (salt fx)
             (Mongoose.construct (objectId fx) (clock fx) ud)) in
  body !! "role" = Some (VStr (User.role u)) /\
  User.password u =
    bcrypt_hash (castString (default VNull (body !! "password"))) (salt fx) /\
  User.permissions u =
    (if String.eqb (User.role u) "admin"
     then User.permissionsFor (User.adminLevel u)
     else Mongoose.noPermissions) /\
  User.isActive u = true /\ User.assignedStudents u = [] /\
  User.lastLogin u = None /\ User._id u = objectId fx /\
  (User.role u = "student" ->
   exists rn, body !! "rollNumber" = Some (VStr rn) /\
              User.rollNumber u = Some (Js.toUpperCase (Js.trim rn))).
Proof.
  intros Hb Hud u.
  destruct (validateBase_Next body Hb) as (_ & _ & _ & _ & r & Hr & _).
  destruct (buildUserData_Next body r ud Hr Hud)
    as (_ & _ & Hpw & Hrole & Hal & Hstudent).
  destruct (UserFacts.preSave_fields (salt fx)
              (Mongoose.construct (objectId fx) (clock fx) ud))
    as (Hp & Hperm & Hid & _ & _ & Hro & Hrn & _ & _ & _ & _ & Has & Hlevel & _ & Hll & Hact).
  fold u in Hp, Hperm, Hid, Hro, Hrn, Has, Hlevel, Hll, Hact.
  rewrite construct_modified_password in Hp.
  rewrite construct_modified_adminLevel in Hperm.
  simpl in Hp, Hperm, Hid, Hro, Hrn, Has, Hlevel, Hll, Hact.
  rewrite Hrole in Hro. rewrite Hro.
  repeat split; try assumption.
  - now rewrite Hp, Hpw.
  - rewrite Hperm, Hlevel, Hrole, Hal. now destruct (String.eqb r "admin").
  - intros ->. destruct (Hstudent eq_refl) as (rn & Hbody & Hu).
    exists rn. split; [assumption |]. now rewrite Hrn.
Qed.

(** A request that passes the checks and the validators, for an address
    and an ObjectId that no document has, is answered 201 and its document
    is stored last. *)
Lemma register_created (fx : Effects) body db (e : string) (ud : UserData) :
  secret <> "" ->
  validateBase body = Next tt -> validateRole body = Next tt ->
  buildUserData body = Next ud ->
  Mongoose.validate (Mongoose.construct (objectId fx) (clock fx) ud) = [] ->
  body !! "email" = Some (VStr e) ->
  (forall v, In v db ->
     User._id v <> objectId fx /\ User.email v <> Js.trim (Js.toLowerCase e)) ->
  let u := User.fields (User.preSave (salt fx)
             (Mongoose.construct (objectId fx) (clock fx) ud)) in
  register secret development fx [] body db =
  (db ++ [u],
   {| status := 201;
      jsonBody := AuthJson
                    (Jwt.serialize secret
                       {| Jwt.userId := User._id u; Jwt.role := User.role u;
                          Jwt.iat := clock fx; Jwt.exp := (clock fx + sevenDays)%N |})
                    (safeUser u) |}).
Proof.
  intros Hs Hb Hr Hud Hv He Hfresh u.
  destruct (created_document fx body ud Hb Hud) as (_ & _ & _ & _ & _ & _ & Hid & _).
  fold u in Hid.
  assert (User.email u = Js.trim (Js.toLowerCase e)) as Hmail
    by exact (stored_email fx body e ud Hb He Hud).
  rewrite register_unfold, Hb, Hr, He. simpl.
  rewrite bool_decide_eq_false_2.
  2:{ intros [x Hx]. apply CollectionFacts.findOne_Some in Hx as [Hin Hx].
      now apply (Hfresh x Hin). }
  rewrite Hud, app_nil_r, save_construct, Hv. fold u.
  rewrite CollectionFacts.insertOne_fresh by (now rewrite Hid, Hmail).
  simpl. now rewrite generateToken_Ok.
Qed.

(** A member of the body that the handler does not destructure is not
    read by any part of it. *)
Lemma unread_member body (k : string) (v : jsval) :
  ~ In k bodyFields ->
  validateBase (<[k:=v]> body) = validateBase body /\
  validateRole (<[k:=v]> body) = validateRole body /\
  buildUserData (<[k:=v]> body) = buildUserData body /\
  (<[k:=v]> body) !! "email" = body !! "email".
Proof.
  intros Hk.
  assert (forall f, In f bodyFields -> (<[k:=v]> body) !! f = body !! f) as Hread.
  { intros f Hf. apply lookup_insert_ne. intros ->. now apply Hk. }
  unfold validateBase, validateRole, buildUserData.
  rewrite !Hread by (simpl; tauto). repeat split.
Qed.

Lemma register_unread (fx : Effects) others body db (k : string) (v : jsval) :
  ~ In k bodyFields ->
  register secret development fx others (<[k:=v]> body) db =
  register secret development fx others body db.
Proof.
  intros Hk. destruct (unread_member body k v Hk) as (Hb & Hr & Hu & He).
  now rewrite !register_unfold, Hb, Hr, Hu, He.
Qed.

End Outcomes.

(** ** The claims *)

Section Claims.

Context `{Bcrypt} `{Jwt.Codec}.

(** C1. The permissions that the [pre('save')] hook writes for an admin
    document whose [adminLevel] was set or changed are a function of
    [adminLevel] alone, given by the fixed table: super has all six
    capabilities, department all but [manageAdmins], limited only
    [manageCalendar] and [viewAnalytics]. For a document whose role is not
    admin, [hasPermission] is false for every capability name, whatever its
    [adminLevel] and stored [permissions] are. *)
Theorem permission_deriver_table
    (salt : string) (d : User.Doc) (u : User.t) (permission : string) :
  User.role (User.fields d) = "admin" ->
  User.isModified User.p_adminLevel d = true ->
  User.role u <> "admin" ->
  User.permissions (User.fields (User.preSave salt d)) =
    User.permissionsFor (User.adminLevel (User.fields d)) /\
  User.permissionsFor "super" =
    {| User.manageCalendar := true; User.manageUsers := true;
       User.viewAnalytics := true; User.manageProctors := true;
       User.manageAdmins := true; User.exportReports := true |} /\
  User.permissionsFor "department" =
    {| User.manageCalendar := true; User.manageUsers := true;
       User.viewAnalytics := true; User.manageProctors := true;
       User.manageAdmins := false; User.exportReports := true |} /\
  User.permissionsFor "limited" =
    {| User.manageCalendar := true; User.manageUsers := false;
       User.viewAnalytics := true; User.manageProctors := false;
       User.manageAdmins := false; User.exportReports := false |} /\
  User.hasPermission u permission = false.
Proof.
  intros Hrole Hmod Hu.
  destruct (UserFacts.preSave_fields salt d) as (_ & Hperm & _).
  rewrite Hperm, Hrole, Hmod. simpl.
  repeat split. unfold User.hasPermission.
  now rewrite (eqb_false_of_neq _ _ Hu).
Qed.

(** C2. A token verified before its expiry, seven days after issuance,
    yields the id and the role it was issued for, through [jwt.verify] and
    through the middleware; verification throws for a token whose
    signature part is altered, for a token whose expiry has passed, and for
    a string that is not made of three parts. *)
Theorem token_round_trip
    (secret id role : string) (issued now later : N) (sig malformed : string) :
  let payload := {| Jwt.userId := id; Jwt.role := role; Jwt.iat := issued;
                    Jwt.exp := (issued + sevenDays)%N |} in
  let input := Jwt.signingInput Jwt.header (Jwt.encodePayload payload) in
  secret <> "" ->
  (now < issued + sevenDays)%N ->
  (issued + sevenDays <= later)%N ->
  sig <> Jwt.hs256 secret input ->
  List.length (Js.split "." malformed) <> 3%nat ->
  exists token,
    generateToken secret issued id role = Ok token /\
    token = input +:+ "." +:+ Jwt.hs256 secret input /\
    Jwt.verify token secret now = Ok payload /\
    authMiddleware secret now
      {| authorization := Some ("Bearer " +:+ token);
         userId := None; userRole := None |} =
      Passed {| authorization := Some ("Bearer " +:+ token);
                userId := Some id; userRole := Some role |} /\
    (exists e, Jwt.verify (input +:+ "." +:+ sig) secret now = Throw e) /\
    Jwt.verify token secret later = Throw TokenExpiredError /\
    (exists e, Jwt.verify malformed secret now = Throw e).
Proof.
  intros payload input Hs Hnow Hlater Hsig Hmal.
  exists (Jwt.serialize secret payload).
  assert (Jwt.verify (Jwt.serialize secret payload) secret now = Ok payload) as Hv.
  { rewrite verify_serialize by assumption. simpl.
    now rewrite (proj2 (N.leb_gt _ _) Hnow). }
  destruct (serialize_plain secret payload) as [Hsp Hne].
  repeat split.
  - now apply generateToken_Ok.
  - exact Hv.
  - unfold authMiddleware. cbn [authorization].
    rewrite bearer_scheme, split_bearer_token by assumption.
    rewrite (eqb_false_of_neq _ _ Hne), Hv. reflexivity.
  - now apply verify_altered.
  - rewrite verify_serialize by assumption. simpl.
    now rewrite (proj2 (N.leb_le _ _) Hlater).
  - now apply verify_malformed.
Qed.


(** C4. The user object of every response that carries a token, from a
    registration or from a login, is [safeUser] of a document: its members
    are the eleven that [safeUser] lists, none of them is named [password]
    or [passwordHash], and it is the same object whatever the stored
    password of the document is. *)
Theorem public_view_without_password
    (secret : string) (development : bool) (fx : Effects) (others : list User.t)
    (body : gmap string jsval) (db db' : list User.t) (r : Response)
    (token : string) (user : list (string * json)) :
  secret <> "" ->
  register secret development fx others body db = (db', r) \/
  login secret development fx body db = (db', r) ->
  jsonBody r = AuthJson token user ->
  (exists u, user = safeUser u) /\
  map fst user = ["id"; "name"; "email"; "role"; "rollNumber"; "department";
                  "semester"; "batch"; "proctorId"; "adminLevel"; "permissions"] /\
  ~ In "password" (map fst user) /\
  ~ In "passwordHash" (map fst user) /\
  forall u hash, safeUser (User.set_password hash u) = safeUser u.
Proof.
  intros Hs Hr Hbody.
  assert (exists u, user = safeUser u) as [u ->].
  { destruct Hr as [Hr | Hr].
    - apply register_inv in Hr as [[_ (txt & d & Hf)] | (ud & tk & Hc)].
      + congruence.
      + destruct Hc as (_ & _ & _ & _ & _ & _ & _ & ->). simpl in Hbody.
        injection Hbody as _ <-. eauto.
    - apply login_inv in Hr as [[[_ (txt & d & Hf)] _] | Hok]; [| | assumption].
      + congruence.
      + destruct Hok as (e & p & u & _ & _ & _ & _ & _ & _ & ->). simpl in Hbody.
        injection Hbody as _ <-. eauto. }
  repeat split.
  - eauto.
  - simpl. intros Hin. repeat (destruct Hin as [Hin | Hin]; [discriminate Hin |]).
    exact Hin.
  - simpl. intros Hin. repeat (destruct Hin as [Hin | Hin]; [discriminate Hin |]).
    exact Hin.
  - intros v hash. now destruct v.
Qed.



(** C7. The middleware answers 401 "No token provided" when there is no
    Authorization header or the header does not start with "Bearer ", 401
    "Malformed authorization header" when the token after the scheme is
    empty, as in the header "Bearer ", and 401 "Invalid or expired token"
    when [jwt.verify] throws on the token, as it does on an expired one; when
    verification succeeds it calls [next()] with the verified id and role
    set on the request. *)
Theorem auth_gate_outcomes (secret : string) (now : N) (req : Request) :
  (authorization req = None ->
   authMiddleware secret now req = Answered (reject 401 "No token provided")) /\
  (forall h, authorization req = Some h -> Js.startsWith h "Bearer " = false ->
   authMiddleware secret now req = Answered (reject 401 "No token provided")) /\
  (authorization req = Some "Bearer " ->
   authMiddleware secret now req =
     Answered (reject 401 "Malformed authorization header")) /\
  (forall h, authorization req = Some h -> Js.startsWith h "Bearer " = true ->
   Js.split " " h !! 1%nat = Some "" ->
   authMiddleware secret now req =
     Answered (reject 401 "Malformed authorization header")) /\
  (forall h token e, authorization req = Some h ->
   Js.startsWith h "Bearer " = true ->
   Js.split " " h !! 1%nat = Some token -> token <> "" ->
   Jwt.verify token secret now = Throw e ->
   authMiddleware secret now req =
     Answered (reject 401 "Invalid or expired token")) /\
  (forall p, secret <> "" -> (Jwt.exp p <= now)%N ->
   authorization req = Some ("Bearer " +:+ Jwt.serialize secret p) ->
   authMiddleware secret now req =
     Answered (reject 401 "Invalid or expired token")) /\
  (forall h token decoded, authorization req = Some h ->
   Js.startsWith h "Bearer " = true ->
   Js.split " " h !! 1%nat = Some token -> token <> "" ->
   Jwt.verify token secret now = Ok decoded ->
   authMiddleware secret now req =
     Passed {| authorization := Some h;
               userId := Some (Jwt.userId decoded);
               userRole := Some (Jwt.role decoded) |}).
Proof.
  assert (forall h, Js.startsWith h "Bearer " = true ->
            String.eqb h "" || negb (Js.startsWith h "Bearer ") = false) as Hstart.
  { intros h Hh. rewrite Hh. now destruct h. }
  unfold authMiddleware. repeat split.
  - now intros ->.
  - intros h -> ->. now rewrite orb_true_r.
  - now intros ->.
  - intros h -> Hh ->. now rewrite (Hstart h Hh).
  - intros h token e -> Hh -> Hne ->.
    now rewrite (Hstart h Hh), (eqb_false_of_neq _ _ Hne).
  - intros p Hs Hexp ->.
    destruct (serialize_plain secret p) as [Hsp Hne].
    rewrite bearer_scheme, split_bearer_token by assumption.
    rewrite (eqb_false_of_neq _ _ Hne), verify_serialize by assumption.
    now rewrite (proj2 (N.leb_le _ _) Hexp).
  - intros h token decoded -> Hh -> Hne ->.
    now rewrite (Hstart h Hh), (eqb_false_of_neq _ _ Hne).
Qed.

(** C8. When [JWT_SECRET] is absent from the environment, or empty, loading
    the auth module exits the process with code 1, so that the process
    never listens and no handler receives a request. A process that listens
    holds the secret of the environment, which is not empty: with it
    [generateToken] returns a token and [jwt.verify] never fails for want of
    a secret. *)
Theorem secret_guard (env : gmap string string) :
  (envTruthy (env !! "JWT_SECRET") = false ->
   loadSecret env = None /\ startServer env = Exited 1 /\
   forall (A : Type) (handler : string -> bool -> A),
     serve (startServer env) handler = None) /\
  (forall secret development,
   startServer env = Listening secret development ->
   env !! "JWT_SECRET" = Some secret /\ secret <> "" /\
   forall now id role token,
     (exists issued, generateToken secret now id role = Ok issued) /\
     Jwt.verify token secret now <>
       Throw (JsonWebTokenError "secret or public key must be provided")).
Proof.
  split.
  - intros Hs.
    assert (loadSecret env = None) as Hl.
    { unfold loadSecret. destruct (env !! "JWT_SECRET") as [s|]; [| reflexivity].
      simpl in Hs. apply negb_false_iff in Hs. now rewrite Hs. }
    assert (startServer env = Exited 1) as He.
    { unfold startServer. rewrite Hl. now destruct (negb _). }
    repeat split; try assumption. intros A handler. now rewrite He.
  - intros secret development. unfold startServer.
    destruct (negb _); [discriminate |].
    unfold loadSecret. destruct (env !! "JWT_SECRET") as [s|]; [| discriminate].
    destruct (String.eqb s "") eqn:Hs; [discriminate |].
    intros [= <- _]. apply String.eqb_neq in Hs.
    repeat split; try assumption.
    + rewrite generateToken_Ok by assumption. eauto.
    + unfold Jwt.verify.
      destruct (String.eqb token ""); [discriminate |].
      rewrite (eqb_false_of_neq _ _ Hs).
      destruct (Js.split "." token) as [|a [|b [|c [|x l]]]]; try discriminate.
      destruct (Jwt.decodePayload b); [| discriminate].
      repeat (case_if; try discriminate).
Qed.

(** C9. A successful login changes the collection only by setting
    [lastLogin] on the document it found: the [pre('save')] hook leaves the
    document alone, since neither [password] nor [adminLevel] was modified,
    every stored password is as before, and the password of the request
    still matches the document that the same lookup finds afterwards. A
    login that does not succeed leaves the collection as it was and its
    response carries an error and no token. *)
Theorem login_frame
    (secret : string) (development : bool) (fx : Effects)
    (body : gmap string jsval) (db db' : list User.t) (r : Response) :
  secret <> "" ->
  login secret development fx body db = (db', r) ->
  (status r = 200%nat ->
   exists e p u,
     body !! "email" = Some (VStr e) /\ body !! "password" = Some (VStr p) /\
     Mongoose.findOne (Js.trim (Js.toLowerCase e)) db = Some u /\
     (let d := User.assign User.p_lastLogin
                 (User.set_lastLogin (Some (clock fx))) (Mongoose.hydrate u) in
      User.preSave (salt fx) d = d) /\
     db' = Mongoose.updateOne (User._id u) (User.set_lastLogin (Some (clock fx))) db /\
     map User.password db' = map User.password db /\
     map User.permissions db' = map User.permissions db /\
     forall u', Mongoose.findOne (Js.trim (Js.toLowerCase e)) db' = Some u' ->
                bcrypt_compare p (User.password u') = true) /\
  (status r <> 200%nat ->
   db' = db /\ exists txt d, jsonBody r = ErrorJson txt d).
Proof.
  intros Hs Hl. apply login_inv in Hl as [[[Hst Hbody] ->] | Hok]; [| | assumption].
  - split; [intros E; rewrite E in Hst; lia | intros _; now split].
  - destruct Hok as (e & p & u & He & Hp & Hf & Ha & Hm & -> & ->).
    split; [intros _ | intros Hst; now elim Hst].
    exists e, p, u. repeat split; try assumption.
    + apply (save_lastLogin (salt fx) (clock fx) u db).
    + apply CollectionFacts.updateOne_map. intros v.
      now destruct (UserFacts.set_lastLogin_fields (Some (clock fx)) v) as (_ & _ & -> & _).
    + apply CollectionFacts.updateOne_map. intros v.
      now destruct (UserFacts.set_lastLogin_fields (Some (clock fx)) v)
        as (_ & _ & _ & _ & _ & -> & _).
    + intros u' Hf'.
      apply CollectionFacts.findOne_updateOne in Hf' as (u0 & Hf0 & Hu');
        [| intros v; now destruct (UserFacts.set_lastLogin_fields (Some (clock fx)) v)
                       as (_ & -> & _)].
      rewrite Hf in Hf0. injection Hf0 as <-.
      destruct Hu' as [-> | ->]; [assumption |].
      now destruct (UserFacts.set_lastLogin_fields (Some (clock fx)) u) as (_ & _ & -> & _).
Qed.

(** C10. The register handler reads only the ten members of the body that
    it destructures: a [permissions], [isActive] or [assignedStudents]
    member sent by the client, like any other member, changes neither the
    stored document nor the response. The document stored by a
    registration has the permissions of the fixed table for its
    [adminLevel] when its role is admin and no permission otherwise, so
    that [hasPermission] is false on it for every capability when the role
    is not admin; its [isActive] is true and its [assignedStudents] is
    empty. *)
Theorem registration_whitelist
    (secret : string) (development : bool) (fx : Effects)
    (others : list User.t) (body : gmap string jsval) (db : list User.t) :
  (forall k v, ~ In k bodyFields ->
   register secret development fx others (<[k:=v]> body) db =
   register secret development fx others body db) /\
  (forall v,
   register secret development fx others (<["permissions":=v]> body) db =
   register secret development fx others body db /\
   register secret development fx others (<["isActive":=v]> body) db =
   register secret development fx others body db /\
   register secret development fx others (<["assignedStudents":=v]> body) db =
   register secret development fx others body db) /\
  (forall db' r,
   register secret development fx others body db = (db', r) ->
   status r = 201%nat ->
   exists u,
     db' = (db ++ others) ++ [u] /\
     User.permissions u =
       (if String.eqb (User.role u) "admin"
        then User.permissionsFor (User.adminLevel u)
        else Mongoose.noPermissions) /\
     (User.role u <> "admin" ->
      forall permission, User.hasPermission u permission = false) /\
     User.isActive u = true /\ User.assignedStudents u = []).
Proof.
  assert (forall k, ~ In k bodyFields -> forall v,
            register secret development fx others (<[k:=v]> body) db =
            register secret development fx others body db) as Hunread.
  { intros k Hk v. now apply register_unread. }
  split; [intros k v Hk; now apply Hunread |].
  split.
  { intros v. repeat split; apply Hunread; simpl; intros Hin;
      repeat (destruct Hin as [Hin | Hin]; [discriminate Hin |]); exact Hin. }
  intros db' r Hr Hst.
  apply register_inv in Hr as [[Hfail _] | (ud & token & Hc)];
    [rewrite Hst in Hfail; lia |].
  destruct Hc as (Hb & _ & Hud & _ & -> & _ & _ & _).
  destruct (created_document fx body ud Hb Hud)
    as (_ & _ & Hperm & Hact & Has & _).
  eexists. split; [reflexivity |].
  repeat split; try assumption.
  intros Hrole permission. unfold User.hasPermission.
  now rewrite (eqb_false_of_neq _ _ Hrole).
Qed.

End Claims.

(** ** The claims at concrete inputs *)

Lemma permission_deriver_table_witness :
  User.permissions (User.fields (@User.preSave reference_bcrypt "salt" Sample.newAdmin)) =
    User.permissionsFor "super" /\
  User.hasPermission Sample.proctor "manageUsers" = false.
Proof.
  destruct (@permission_deriver_table reference_bcrypt "salt" Sample.newAdmin
              Sample.proctor "manageUsers")
    as (Hsaved & _ & _ & _ & Hnone);
    [reflexivity | reflexivity | discriminate |].
  split; [exact Hsaved | exact Hnone].
Defined.

Lemma token_round_trip_witness :
  exists token,
    @generateToken reference_codec Sample.secret 1000 "id1" "student" = Ok token /\
    @Jwt.verify reference_codec token Sample.secret 1500 = Ok Sample.payload /\
    @Jwt.verify reference_codec token Sample.secret 700000 = Throw TokenExpiredError.
Proof.
  destruct (@token_round_trip reference_codec Sample.secret "id1" "student"
              1000 1500 700000 "forged" "a.b")
    as (token & Hissue & _ & Hverify & _ & _ & Hexpired & _);
    [discriminate | reflexivity | vm_compute; discriminate
     | vm_compute; discriminate | vm_compute; discriminate |].
  exists token. split; [exact Hissue |]. split; [exact Hverify | exact Hexpired].
Defined.


Lemma public_view_without_password_witness :
  exists token user,
    jsonBody (snd (Sample.register Sample.fx1 [] Sample.studentBody [])) =
      AuthJson token user /\
    ~ In "password" (map fst user) /\ ~ In "passwordHash" (map fst user).
Proof.
  assert (exists token user,
            jsonBody (snd (Sample.register Sample.fx1 [] Sample.studentBody [])) =
            AuthJson token user) as (token & user & Hbody)
    by (vm_compute; eauto).
  exists token, user. split; [exact Hbody |].
  destruct (@public_view_without_password reference_bcrypt reference_codec
              Sample.secret false Sample.fx1 [] Sample.studentBody []
              (fst (Sample.register Sample.fx1 [] Sample.studentBody []))
              (snd (Sample.register Sample.fx1 [] Sample.studentBody []))
              token user)
    as (_ & _ & Hpassword & Hhash & _);
    [discriminate | left; apply surjective_pairing | exact Hbody |].
  split; [exact Hpassword | exact Hhash].
Defined.



Lemma auth_gate_outcomes_witness :
  @authMiddleware reference_codec Sample.secret 1500 (Sample.bearer None) =
    Answered (reject 401 "No token provided") /\
  @authMiddleware reference_codec Sample.secret 1500 (Sample.bearer (Some "Basic abc")) =
    Answered (reject 401 "No token provided") /\
  @authMiddleware reference_codec Sample.secret 1500 (Sample.bearer (Some "Bearer ")) =
    Answered (reject 401 "Malformed authorization header") /\
  @authMiddleware reference_codec Sample.secret 1500 (Sample.bearer (Some "Bearer a.b.c")) =
    Answered (reject 401 "Invalid or expired token") /\
  @authMiddleware reference_codec Sample.secret 700000
      (Sample.bearer (Some ("Bearer " +:+ Sample.token))) =
    Answered (reject 401 "Invalid or expired token") /\
  @authMiddleware reference_codec Sample.secret 1500
      (Sample.bearer (Some ("Bearer " +:+ Sample.token))) =
    Passed {| authorization := Some ("Bearer " +:+ Sample.token);
              userId := Some "id1"; userRole := Some "student" |}.
Proof.
  repeat apply conj.
  - now apply (@auth_gate_outcomes reference_codec Sample.secret 1500 (Sample.bearer None)).
  - destruct (@auth_gate_outcomes reference_codec Sample.secret 1500
                (Sample.bearer (Some "Basic abc"))) as (_ & Hscheme & _).
    now apply (Hscheme "Basic abc").
  - destruct (@auth_gate_outcomes reference_codec Sample.secret 1500
                (Sample.bearer (Some "Bearer "))) as (_ & _ & Hempty & _).
    now apply Hempty.
  - destruct (@auth_gate_outcomes reference_codec Sample.secret 1500
                (Sample.bearer (Some "Bearer a.b.c"))) as (_ & _ & _ & _ & Hthrow & _).
    eapply (Hthrow "Bearer a.b.c" "a.b.c");
      [reflexivity | reflexivity | reflexivity | discriminate | vm_compute; reflexivity].
  - destruct (@auth_gate_outcomes reference_codec Sample.secret 700000
                (Sample.bearer (Some ("Bearer " +:+ Sample.token))))
      as (_ & _ & _ & _ & _ & Hexpired & _).
    apply (Hexpired Sample.payload);
      [discriminate | vm_compute; discriminate | reflexivity].
  - destruct (@auth_gate_outcomes reference_codec Sample.secret 1500
                (Sample.bearer (Some ("Bearer " +:+ Sample.token))))
      as (_ & _ & _ & _ & _ & _ & Hpass).
    apply (Hpass ("Bearer " +:+ Sample.token) Sample.token Sample.payload);
      [reflexivity | reflexivity | reflexivity | discriminate | vm_compute; reflexivity].
Defined.

Lemma secret_guard_witness :
  startServer (<["MONGODB_URI" := "mongodb://db"]> ∅) = Exited 1 /\
  startServer (<["JWT_SECRET" := ""]> (<["MONGODB_URI" := "mongodb://db"]> ∅)) = Exited 1 /\
  (exists issued,
     @generateToken reference_codec Sample.secret 1000 "id1" "student" = Ok issued).
Proof.
  repeat apply conj.
  - destruct (@secret_guard reference_codec (<["MONGODB_URI" := "mongodb://db"]> ∅))
      as (Habsent & _).
    now apply Habsent.
  - destruct (@secret_guard reference_codec
                (<["JWT_SECRET" := ""]> (<["MONGODB_URI" := "mongodb://db"]> ∅)))
      as (Hempty & _).
    now apply Hempty.
  - destruct (@secret_guard reference_codec
                (<["JWT_SECRET" := Sample.secret]> (<["MONGODB_URI" := "mongodb://db"]> ∅)))
      as (_ & Hlistening).
    destruct (Hlistening Sample.secret false) as (_ & _ & Hrequests);
      [vm_compute; reflexivity |].
    exact (proj1 (Hrequests 1000%N "id1" "student" "")).
Defined.

Lemma login_frame_witness :
  fst (Sample.login Sample.fx2 (Sample.loginBody "A@X.com" "secret1") Sample.registered) =
    Mongoose.updateOne "id1" (User.set_lastLogin (Some 2000%N)) Sample.registered /\
  map User.password
    (fst (Sample.login Sample.fx2 (Sample.loginBody "A@X.com" "secret1") Sample.registered)) =
    map User.password Sample.registered /\
  fst (Sample.login Sample.fx2 (Sample.loginBody "A@X.com" "wrong!") Sample.registered) =
    Sample.registered.
Proof.
  repeat apply conj.
  - destruct (@login_frame reference_bcrypt reference_codec Sample.secret false
                Sample.fx2 (Sample.loginBody "A@X.com" "secret1") Sample.registered
                (fst (Sample.login Sample.fx2 (Sample.loginBody "A@X.com" "secret1")
                        Sample.registered))
                (snd (Sample.login Sample.fx2 (Sample.loginBody "A@X.com" "secret1")
                        Sample.registered)))
      as (Hsuccess & _); [discriminate | apply surjective_pairing |].
    destruct Hsuccess as (e & p & u & He & _ & Hfound & _ & Hdb & _);
      [vm_compute; reflexivity |].
    vm_compute in He. injection He as <-.
    vm_compute in Hfound. injection Hfound as <-.
    rewrite Hdb. reflexivity.
  - destruct (@login_frame reference_bcrypt reference_codec Sample.secret false
                Sample.fx2 (Sample.loginBody "A@X.com" "secret1") Sample.registered
                (fst (Sample.login Sample.fx2 (Sample.loginBody "A@X.com" "secret1")
                        Sample.registered))
                (snd (Sample.login Sample.fx2 (Sample.loginBody "A@X.com" "secret1")
                        Sample.registered)))
      as (Hsuccess & _); [discriminate | apply surjective_pairing |].
    destruct Hsuccess as (e & p & u & _ & _ & _ & _ & _ & Hpasswords & _);
      [vm_compute; reflexivity |].
    exact Hpasswords.
  - destruct (@login_frame reference_bcrypt reference_codec Sample.secret false
                Sample.fx2 (Sample.loginBody "A@X.com" "wrong!") Sample.registered
                (fst (Sample.login Sample.fx2 (Sample.loginBody "A@X.com" "wrong!")
                        Sample.registered))
                (snd (Sample.login Sample.fx2 (Sample.loginBody "A@X.com" "wrong!")
                        Sample.registered)))
      as (_ & Hfailure); [discriminate | apply surjective_pairing |].
    destruct Hfailure as (Hdb & _); [vm_compute; discriminate |].
    exact Hdb.
Defined.

Lemma registration_whitelist_witness :
  Sample.register Sample.fx1 []
      (<["permissions" := VBool true]> (<["isActive" := VBool false]> Sample.adminBody)) [] =
    Sample.register Sample.fx1 [] Sample.adminBody [] /\
  exists u,
    fst (Sample.register Sample.fx1 [] Sample.adminBody []) = [u] /\
    User.email u = "root@x.com" /\
    User.permissions u = User.permissionsFor "department" /\
    User.isActive u = true /\ User.assignedStudents u = [].
Proof.
  split.
  - destruct (@registration_whitelist reference_bcrypt reference_codec Sample.secret
                false Sample.fx1 [] (<["isActive" := VBool false]> Sample.adminBody) [])
      as (_ & Hfirst & _).
    destruct (@registration_whitelist reference_bcrypt reference_codec Sample.secret
                false Sample.fx1 [] Sample.adminBody [])
      as (_ & Hsecond & _).
    unfold Sample.register.
    rewrite (proj1 (Hfirst (VBool true))).
    exact (proj1 (proj2 (Hsecond (VBool false)))).
  - destruct (@registration_whitelist reference_bcrypt reference_codec Sample.secret
                false Sample.fx1 [] Sample.adminBody [])
      as (_ & _ & Hstored).
    destruct (Hstored (fst (Sample.register Sample.fx1 [] Sample.adminBody []))
                (snd (Sample.register Sample.fx1 [] Sample.adminBody [])))
      as (u & Hdb & Hperm & _ & Hactive & Hassigned);
      [apply surjective_pairing | vm_compute; reflexivity |].
    exists u. vm_compute in Hdb. injection Hdb as Hu. subst u.
    repeat apply conj; [reflexivity | reflexivity | exact Hperm | exact Hactive
                        | exact Hassigned].
Defined.

(** ** Facts about [parseInt] *)

Section ParseIntFacts.

Import Decimal.




End ParseIntFacts.

Section ParseIntPrinted.

Import Decimal.




End ParseIntPrinted.

(** ** The shape of every response *)

Section ResponseShapes.

Context `{Bcrypt} `{Jwt.Codec}.
Variable secret : string.
Variable development : bool.

Implicit Types (body : gmap string jsval) (db others : list User.t).

Ltac flow_reject H :=
  repeat match type of H with
  | andThen _ _ = Return _ =>
      apply andThen_Return in H as [H | (? & _ & H)]
  | returnIf _ _ = Return _ =>
      apply returnIf_Return in H; subst; eexists; reflexivity
  | (if _ then _ else _) = Return _ => case_if_in H
  | call_trim _ _ = Return _ => now apply call_trim_Return in H
  | call_toLowerCase _ _ = Return _ => now apply call_toLowerCase_Return in H
  | Next _ = Return _ => discriminate H
  end.

Lemma validateBase_rejects body (r : Response) :
  validateBase body = Return r -> exists msg, r = reject 400 msg.
Proof. unfold validateBase. intros Hv. flow_reject Hv. Qed.

Lemma validateRole_rejects body (r : Response) :
  validateRole body = Return r -> exists msg, r = reject 400 msg.
Proof. unfold validateRole. intros Hv. flow_reject Hv. Qed.

Lemma registerCatch_shape (e : Exn) :
  (exists txt, registerCatch development e =
               {| status := 400; jsonBody := ErrorJson txt None |}) \/
  registerCatch development e =
    {| status := 500;
       jsonBody := ErrorJson (Text "Registration failed. Please try again.")
                     (if development then Some e else None) |}.
Proof.
  unfold registerCatch. case_bool_decide; [left; eexists; reflexivity |].
  destruct (String.eqb _ _); [left; eexists; reflexivity | now right].
Qed.

(** A registration under a secret either reports an error, with nothing
    of the request stored, or has created a document. *)
Lemma register_classify (fx : Effects) others body db db' (r : Response) :
  secret <> "" ->
  register secret development fx others body db = (db', r) ->
  ((db' = db \/ db' = db ++ others) /\
   ((exists txt, r = {| status := 400; jsonBody := ErrorJson txt None |}) \/
    (exists e, r = {| status := 500;
                      jsonBody := ErrorJson (Text "Registration failed. Please try again.")
                                    (if development then Some e else None) |}))) \/
  exists u token,
    db' = (db ++ others) ++ [u] /\
    (forall v, In v (db ++ others) ->
       User._id v <> User._id u /\ User.email v <> User.email u) /\
    r = {| status := 201; jsonBody := AuthJson token (safeUser u) |}.
Proof.
  intros Hs.
  assert (forall e, (exists txt, registerCatch development e =
                       {| status := 400; jsonBody := ErrorJson txt None |}) \/
                    (exists e', registerCatch development e =
                       {| status := 500;
                          jsonBody := ErrorJson (Text "Registration failed. Please try again.")
                                        (if development then Some e' else None) |})) as Hcatch.
  { intros e. destruct (registerCatch_shape e) as [Hc | Hc]; [now left | right; eauto]. }
  rewrite register_unfold.
  destruct (validateBase body) as [[]|r0|e] eqn:Hb.
  2:{ intros [= <- <-]. left. split; [now left |]. left.
      apply validateBase_rejects in Hb as [msg ->]. eexists; reflexivity. }
  2:{ intros [= <- <-]. left. split; [now left | apply Hcatch]. }
  destruct (validateRole body) as [[]|r0|e] eqn:Hr.
  2:{ intros [= <- <-]. left. split; [now left |]. left.
      apply validateRole_rejects in Hr as [msg ->]. eexists; reflexivity. }
  2:{ intros [= <- <-]. left. split; [now left | apply Hcatch]. }
  destruct (call_toLowerCase "email" (body !! "email")) as [lowered|r0|e] eqn:Hl.
  2:{ now apply call_toLowerCase_Return in Hl. }
  2:{ intros [= <- <-]. left. split; [now left | apply Hcatch]. }
  case_bool_decide.
  { intros [= <- <-]. left. split; [now right |]. left. eexists; reflexivity. }
  destruct (buildUserData body) as [ud|r0|e] eqn:Hu.
  2:{ now apply buildUserData_Return in Hu. }
  2:{ intros [= <- <-]. left. split; [now right | apply Hcatch]. }
  rewrite save_construct.
  destruct (Mongoose.validate _) eqn:Hv.
  2:{ intros [= <- <-]. left. split; [now right | apply Hcatch]. }
  destruct (Mongoose.insertOne _ _) as [db1|e] eqn:Hi.
  2:{ intros [= <- <-]. left. split; [now right | apply Hcatch]. }
  simpl. rewrite generateToken_Ok by assumption.
  intros [= <- <-]. right.
  apply CollectionFacts.insertOne_Ok in Hi as [-> Hfresh].
  eexists _, _. repeat split; apply Hfresh; assumption.
Qed.

(** A login under a secret either reports an error and leaves the
    collection as it was, or answers 200 after setting [lastLogin]. *)
Lemma login_classify (fx : Effects) body db db' (r : Response) :
  secret <> "" ->
  login secret development fx body db = (db', r) ->
  (db' = db /\
   ((exists msg, r = reject 400 msg) \/ (exists msg, r = reject 401 msg) \/
    (exists e, r = {| status := 500;
                      jsonBody := ErrorJson (Text "Login failed. Please try again.")
                                    (if development then Some e else None) |}))) \/
  exists u token,
    In u db /\
    db' = Mongoose.updateOne (User._id u) (User.set_lastLogin (Some (clock fx))) db /\
    r = {| status := 200;
           jsonBody := AuthJson token (safeUser (User.set_lastLogin (Some (clock fx)) u)) |}.
Proof.
  intros Hs. rewrite login_unfold.
  destruct (negb (truthy (body !! "email")) || negb (truthy (body !! "password"))).
  { intros [= <- <-]. left. split; [reflexivity |]. left. eexists; reflexivity. }
  destruct (call_toLowerCase "email" (body !! "email")) as [lowered|r0|e] eqn:Hl.
  2:{ now apply call_toLowerCase_Return in Hl. }
  2:{ intros [= <- <-]. left. split; [reflexivity |]. right. right. eexists; reflexivity. }
  destruct (Mongoose.findOne _ db) as [u|] eqn:Hf.
  2:{ intros [= <- <-]. left. split; [reflexivity |]. right. left. eexists; reflexivity. }
  destruct (negb (User.isActive u)).
  { intros [= <- <-]. left. split; [reflexivity |]. right. left. eexists; reflexivity. }
  destruct (compare_val (body !! "password") (User.password u)) as [m|r0|e] eqn:Hm.
  2:{ destruct (body !! "password") as [[| | |p]|]; discriminate Hm. }
  2:{ intros [= <- <-]. left. split; [reflexivity |]. right. right. eexists; reflexivity. }
  destruct (negb m).
  { intros [= <- <-]. left. split; [reflexivity |]. right. left. eexists; reflexivity. }
  destruct (save_lastLogin (salt fx) (clock fx) u db) as [_ ->]. simpl.
  rewrite generateToken_Ok by assumption.
  intros [= <- <-]. right. eexists u, _.
  apply CollectionFacts.findOne_Some in Hf as [Hin _].
  repeat split; assumption.
Qed.

End ResponseShapes.

(** ** Further facts about normalisation *)

Lemma trimStart_head (s : string) :
  match Js.trimStart s with
  | String c _ => Js.is_space c = false
  | EmptyString => True
  end.
Proof.
  induction s as [|c s IH]; simpl; [exact I |].
  destruct (Js.is_space c) eqn:Hc; [exact IH | exact Hc].
Qed.

Lemma trimStart_fixed (s : string) :
  match s with String c _ => Js.is_space c = false | EmptyString => True end ->
  Js.trimStart s = s.
Proof. destruct s as [|c s]; simpl; [reflexivity |]. now intros ->. Qed.

Lemma trimEnd_head (s : string) :
  match s with String c _ => Js.is_space c = false | EmptyString => True end ->
  match Js.trimEnd s with
  | String c _ => Js.is_space c = false
  | EmptyString => True
  end.
Proof.
  destruct s as [|c s]; simpl; [trivial |]. intros Hc.
  destruct (Js.trimEnd s); [now rewrite Hc | exact Hc].
Qed.

Lemma trimEnd_idem (s : string) : Js.trimEnd (Js.trimEnd s) = Js.trimEnd s.
Proof.
  induction s as [|c s IH]; simpl; [reflexivity |].
  destruct (Js.trimEnd s) as [|d t] eqn:E.
  - destruct (Js.is_space c) eqn:Hc; simpl; [reflexivity | now rewrite Hc].
  - change (Js.trimEnd (String c (String d t))) with
      (match Js.trimEnd (String d t) with
       | EmptyString => if Js.is_space c then EmptyString else String c EmptyString
       | x => String c x
       end).
    now rewrite IH.
Qed.

(** Trimming twice is trimming once. *)
Lemma trim_idem (s : string) : Js.trim (Js.trim s) = Js.trim s.
Proof.
  unfold Js.trim.
  rewrite (trimStart_fixed (Js.trimEnd (Js.trimStart s))).
  - apply trimEnd_idem.
  - apply trimEnd_head, trimStart_head.
Qed.

(** A normalised address is its own normal form. *)
Lemma normalise_idem (e : string) :
  Js.trim (Js.toLowerCase (Js.trim (Js.toLowerCase e))) = Js.trim (Js.toLowerCase e).
Proof. now rewrite toLowerCase_normalised, trim_idem. Qed.

(** ** Further facts about the validation of a registration *)

Section MoreValidationFacts.

Implicit Types (body : gmap string jsval).

(** What the role-specific validation has checked when it passes. *)
Lemma validateRole_Next body (r : string) :
  body !! "role" = Some (VStr r) ->
  In r ["student"; "proctor"; "admin"] ->
  validateRole body = Next tt ->
  truthy (body !! "department") = true /\
  (r = "student" ->
   truthy (body !! "rollNumber") = true /\ truthy (body !! "semester") = true /\
   truthy (body !! "batch") = true) /\
  (r = "proctor" -> truthy (body !! "proctorId") = true).
Proof.
  intros Hr Hin. unfold validateRole. rewrite Hr.
  destruct Hin as [<- | [<- | [<- | []]]]; simpl; unfold returnIf;
    repeat match goal with
           | |- context [truthy ?v] => destruct (truthy v); simpl; try discriminate
           end;
    intros _; repeat split; congruence.
Qed.

(** The role-specific members of [userData]: those of the role are taken
    from the body, the others are left out. *)
Lemma buildUserData_role body (r : string) (ud : UserData) :
  body !! "role" = Some (VStr r) ->
  In r ["student"; "proctor"; "admin"] ->
  buildUserData body = Next ud ->
  ud_department ud = body !! "department" /\
  (r = "student" ->
   ud_semester ud = Some (parseInt (body !! "semester")) /\
   (exists rn, body !! "rollNumber" = Some (VStr rn) /\
               ud_rollNumber ud = Some (Js.toUpperCase (Js.trim rn))) /\
   (exists bt, body !! "batch" = Some (VStr bt) /\ ud_batch ud = Some (Js.trim bt)) /\
   ud_proctorId ud = None /\ ud_adminLevel ud = None) /\
  (r = "proctor" ->
   (exists pi, body !! "proctorId" = Some (VStr pi) /\
               ud_proctorId ud = Some (Js.toUpperCase (Js.trim pi))) /\
   ud_rollNumber ud = None /\ ud_semester ud = None /\ ud_batch ud = None /\
   ud_adminLevel ud = None) /\
  (r = "admin" ->
   ud_adminLevel ud =
     Some (if truthy (body !! "adminLevel") then default VNull (body !! "adminLevel")
           else VStr "limited") /\
   ud_rollNumber ud = None /\ ud_semester ud = None /\ ud_batch ud = None /\
   ud_proctorId ud = None).
Proof.
  intros Hr Hin. unfold buildUserData. rewrite Hr.
  destruct (body !! "name") as [[| | |n]|]; simpl; try discriminate.
  destruct (body !! "email") as [[| | |e]|]; simpl; try discriminate.
  destruct Hin as [<- | [<- | [<- | []]]]; simpl.
  - destruct (body !! "rollNumber") as [[| | |rn]|]; simpl; try discriminate.
    destruct (body !! "batch") as [[| | |bt]|]; simpl; try discriminate.
    intros [= <-]. simpl. repeat split; eauto; discriminate.
  - destruct (body !! "proctorId") as [[| | |pi]|]; simpl; try discriminate.
    intros [= <-]. simpl. repeat split; eauto; discriminate.
  - intros [= <-]. simpl. repeat split; eauto; discriminate.
Qed.

End MoreValidationFacts.

(** ** Further facts about the validators *)

Module ValidatorFacts.
Import User Mongoose.

Lemma flat_map_nil {A B} (f : A -> list B) (l : list A) (x : A) :
  flat_map f l = [] -> In x l -> f x = [].
Proof.
  induction l as [|a l IH]; simpl; [tauto |].
  intros Hnil [<- | Hin].
  - now apply app_eq_nil in Hnil.
  - apply IH; [| assumption]. now apply app_eq_nil in Hnil.
Qed.

(** A new document without validation errors passes the validators of
    every path. *)
Lemma validate_new (d : Doc) (p : Path) :
  isNew d = true -> validate d = [] -> validatePath (fields d) p = [].
Proof.
  intros Hnew Hv. unfold validate in Hv. rewrite Hnew in Hv.
  apply (flat_map_nil _ _ p Hv). destruct p; simpl; tauto.
Qed.

Lemma required_nil (path value : string) : required path value = [] -> value <> "".
Proof. unfold required. destruct (String.eqb_spec value ""); [discriminate | trivial]. Qed.

Lemma includes_In (arr : list string) (x : string) :
  Js.includes arr x = true <-> In x arr.
Proof.
  unfold Js.includes. rewrite existsb_exists. split.
  - intros (y & Hy & Heq). apply String.eqb_eq in Heq. now subst.
  - intros Hin. exists x. split; [assumption | apply String.eqb_refl].
Qed.

Lemma enum_nil (path : string) (allowed : list string) (value : string) :
  enum path allowed value = [] -> In value allowed.
Proof.
  unfold enum. destruct (Js.includes allowed value) eqn:E; [| discriminate].
  intros _. now apply includes_In.
Qed.

End ValidatorFacts.

(** ** Further facts about tokens *)

Section MoreTokenFacts.

Context `{Jwt.Codec}.




(** Two payloads with the same serialisation are the same payload. *)
Lemma serialize_inj (secret : string) (p q : Jwt.Payload) :
  Jwt.serialize secret p = Jwt.serialize secret q -> p = q.
Proof.
  intros Heq.
  assert (Js.split "." (Jwt.serialize secret p) = Js.split "." (Jwt.serialize secret q))
    as Hsplit by now rewrite Heq.
  unfold Jwt.serialize in Hsplit.
  rewrite !split_token in Hsplit by (apply header_lacks_dot || apply payload_lacks_dot).
  injection Hsplit as Hpq _.
  apply (f_equal Jwt.decodePayload) in Hpq.
  rewrite !Jwt.decode_encode in Hpq. now injection Hpq.
Qed.

End MoreTokenFacts.

(** ** Further properties of the code *)

Section FurtherProperties.

Context `{Bcrypt} `{Jwt.Codec}.


(** X2. The [pre('save')] hook and [comparePassword]: after the hook has
    run on a document whose password was modified, [comparePassword] accepts
    the password that was set; on a document whose password was not
    modified the hook leaves the stored password, and so the answer of
    [comparePassword], as it was. *)
Theorem hook_then_comparePassword (salt : string) (d : User.Doc) (candidate : string) :
  (User.isModified User.p_password d = true ->
   User.comparePassword (User.fields (User.preSave salt d))
     (User.password (User.fields d)) = true) /\
  (User.isModified User.p_password d = false ->
   User.password (User.fields (User.preSave salt d)) = User.password (User.fields d) /\
   User.comparePassword (User.fields (User.preSave salt d)) candidate =
   User.comparePassword (User.fields d) candidate).
Proof.
  destruct (UserFacts.preSave_fields salt d) as (Hp & _).
  unfold User.comparePassword. rewrite Hp. split.
  - intros ->. apply bcrypt_compare_hash.
  - intros ->. now split.
Qed.

(** X3. Tokens are not shared: when [generateToken] returns the same
    token for two users, roles and times of issue, they are the same user,
    role and time. *)
Theorem generateToken_injective
    (secret id id' role role' token : string) (issued issued' : N) :
  generateToken secret issued id role = Ok token ->
  generateToken secret issued' id' role' = Ok token ->
  id = id' /\ role = role' /\ issued = issued'.
Proof.
  unfold generateToken. intros Hfirst Hsecond.
  assert (secret <> "") as Hs by (intros ->; discriminate Hfirst).
  rewrite sign_serialize in Hfirst, Hsecond by assumption.
  assert (Jwt.serialize secret
            {| Jwt.userId := id; Jwt.role := role; Jwt.iat := issued;
               Jwt.exp := (issued + sevenDays)%N |} =
          Jwt.serialize secret
            {| Jwt.userId := id'; Jwt.role := role'; Jwt.iat := issued';
               Jwt.exp := (issued' + sevenDays)%N |}) as Heq by congruence.
  apply serialize_inj in Heq. now injection Heq as -> -> -> _.
Qed.



End FurtherProperties.

Lemma hook_then_comparePassword_witness :
  @User.comparePassword reference_bcrypt
    (User.fields (@User.preSave reference_bcrypt "salt" Sample.newAdmin)) "hunter22" = true /\
  @User.comparePassword reference_bcrypt
    (User.fields (@User.preSave reference_bcrypt "salt" (Mongoose.hydrate Sample.proctor)))
    "digest" =
  @User.comparePassword reference_bcrypt Sample.proctor "digest".
Proof.
  destruct (@hook_then_comparePassword reference_bcrypt "salt" Sample.newAdmin "x")
    as (Hset & _).
  destruct (@hook_then_comparePassword reference_bcrypt "salt"
              (Mongoose.hydrate Sample.proctor) "digest") as (_ & Hkept).
  split; [apply Hset; reflexivity | apply Hkept; reflexivity].
Defined.

Lemma generateToken_injective_witness :
  "id1" = "id1" /\ "student" = "student" /\ 1000%N = 1000%N.
Proof.
  apply (@generateToken_injective reference_codec Sample.secret "id1" "id1"
           "student" "student" Sample.token 1000 1000);
    vm_compute; reflexivity.
Defined.



Section HandlerProperties.

Context `{Bcrypt} `{Jwt.Codec}.

(** X6. The register handler answers 201, 400 or 500. When it answers
    201 the collection has one more document, stored last, whose [_id] and
    [email] no other document has; otherwise nothing of the request is
    stored: the collection is as it was, with the documents that other
    requests inserted in the meantime. Documents already stored are never
    changed. *)
Theorem register_stores_only_on_201
    (secret : string) (development : bool) (fx : Effects) (others : list User.t)
    (body : gmap string jsval) (db db' : list User.t) (r : Response) :
  secret <> "" ->
  register secret development fx others body db = (db', r) ->
  (status r = 201%nat \/ status r = 400%nat \/ status r = 500%nat) /\
  (status r = 201%nat ->
   exists u, db' = (db ++ others) ++ [u] /\
             forall v, In v (db ++ others) ->
                       User._id v <> User._id u /\ User.email v <> User.email u) /\
  (status r <> 201%nat -> db' = db \/ db' = db ++ others).
Proof.
  intros Hs Hr.
  apply register_classify in Hr as [[Hdb [[txt ->] | [e ->]]] | (u & token & -> & Hfresh & ->)];
    try assumption; simpl.
  - repeat split; [auto | discriminate | auto].
  - repeat split; [auto | discriminate | auto].
  - repeat split; [auto | | intros Hst; now elim Hst].
    intros _. now exists u.
Qed.

(** X7. A response of the register or login handler carries the message
    of the exception it caught only when the status is 500 and [NODE_ENV]
    is ['development']; in any other environment no response has a
    detail. *)
Theorem detail_only_in_development
    (secret : string) (development : bool) (fx : Effects) (others : list User.t)
    (body : gmap string jsval) (db db' : list User.t) (r : Response)
    (txt : ErrorText) (e : Exn) :
  secret <> "" ->
  register secret development fx others body db = (db', r) \/
  login secret development fx body db = (db', r) ->
  jsonBody r = ErrorJson txt (Some e) ->
  development = true /\ status r = 500%nat.
Proof.
  intros Hs [Hr | Hr] Hbody.
  - apply register_classify in Hr as [[_ [[t ->] | [x ->]]] | (u & token & _ & _ & ->)];
      try assumption; simpl in Hbody; try discriminate.
    destruct development; [now split | discriminate].
  - apply login_classify in Hr as [[_ [[m ->] | [[m ->] | [x ->]]]] | (u & token & _ & _ & ->)];
      try assumption; simpl in Hbody; try discriminate.
    destruct development; [now split | discriminate].
Qed.

(** X8. The login handler answers 400 exactly when the email or the
    password of the body is missing, null, empty, zero or false; the
    response is then "Email and password are required" and the collection
    is left as it was. *)
Theorem login_400_iff_missing
    (secret : string) (development : bool) (fx : Effects)
    (body : gmap string jsval) (db : list User.t) :
  (status (snd (login secret development fx body db)) = 400%nat <->
   truthy (body !! "email") = false \/ truthy (body !! "password") = false) /\
  (truthy (body !! "email") = false \/ truthy (body !! "password") = false ->
   login secret development fx body db =
     (db, reject 400 "Email and password are required")).
Proof.
  assert (truthy (body !! "email") = false \/ truthy (body !! "password") = false ->
          login secret development fx body db =
            (db, reject 400 "Email and password are required")) as Hmissing.
  { intros Hm. rewrite login_unfold.
    destruct Hm as [-> | ->]; [reflexivity | now rewrite orb_true_r]. }
  split; [| exact Hmissing]. split; [| intros Hm; now rewrite (Hmissing Hm)].
  rewrite login_unfold.
  destruct (truthy (body !! "email")); [| auto].
  destruct (truthy (body !! "password")); [| auto]. simpl.
  destruct (call_toLowerCase "email" (body !! "email")) as [lowered|r0|e] eqn:Hl;
    [| now apply call_toLowerCase_Return in Hl | discriminate].
  destruct (Mongoose.findOne _ db) as [u|]; [| discriminate].
  destruct (negb (User.isActive u)); [discriminate |].
  destruct (compare_val (body !! "password") (User.password u)) as [m|r0|e] eqn:Hm;
    [| destruct (body !! "password") as [[| | |p]|]; discriminate Hm | discriminate].
  destruct (negb m); [discriminate |].
  destruct (Mongoose.save _ _ _) as [[db' d]|]; [| discriminate].
  simpl. destruct (generateToken _ _ _ _); discriminate.
Qed.

(** X9. Values of the wrong type. A name that is a number or [true] makes
    the register handler throw on [name.trim()], and a login with such an
    email throws on [email.toLowerCase()]; a login with such a password
    against an active account throws in [bcrypt.compare]. Each is answered
    500 with the handler's general message, the exception showing as
    detail only in development, and nothing is stored. *)
Theorem wrong_type_is_500
    (secret : string) (development : bool) (fx : Effects) (others : list User.t)
    (body : gmap string jsval) (db : list User.t) (v : jsval) :
  (forall s, v <> VStr s) ->
  truthy (Some v) = true ->
  (body !! "name" = Some v ->
   register secret development fx others body db =
     (db, {| status := 500;
             jsonBody := ErrorJson (Text "Registration failed. Please try again.")
                           (if development
                            then Some (TypeError "name.trim is not a function")
                            else None) |})) /\
  (body !! "email" = Some v -> truthy (body !! "password") = true ->
   login secret development fx body db =
     (db, {| status := 500;
             jsonBody := ErrorJson (Text "Login failed. Please try again.")
                           (if development
                            then Some (TypeError "email.toLowerCase is not a function")
                            else None) |})) /\
  (forall e u, body !! "email" = Some (VStr e) -> e <> "" ->
   body !! "password" = Some v ->
   Mongoose.findOne (Js.trim (Js.toLowerCase e)) db = Some u ->
   User.isActive u = true ->
   login secret development fx body db =
     (db, {| status := 500;
             jsonBody := ErrorJson (Text "Login failed. Please try again.")
                           (if development then Some IllegalArguments else None) |})).
Proof.
  intros Hv Ht.
  assert (call_trim "name" (Some v) = Raise (TypeError "name.trim is not a function")
          /\ call_toLowerCase "email" (Some v) =
               Raise (TypeError "email.toLowerCase is not a function")
          /\ forall hash, compare_val (Some v) hash = Raise IllegalArguments)
    as (Htrim & Hlower & Hcompare).
  { destruct v as [| | |s]; try (repeat split; reflexivity). now elim (Hv s). }
  repeat split.
  - intros Hn. rewrite register_unfold. unfold validateBase.
    rewrite Hn, Ht, Htrim. reflexivity.
  - intros He Hp. rewrite login_unfold, He, Ht, Hp, Hlower. reflexivity.
  - intros e u He Hne Hp Hf Ha.
    assert (truthy (Some (VStr e)) = true) as Hte
      by (simpl; now rewrite (eqb_false_of_neq _ _ Hne)).
    rewrite login_unfold, He, Hp, Ht, Hte. cbn [negb orb].
    change (call_toLowerCase "email" (Some (VStr e))) with (Next (Js.toLowerCase e)).
    cbv iota beta. rewrite Hf, Ha. cbn [negb].
    rewrite Hcompare. reflexivity.
Qed.

End HandlerProperties.

Lemma register_stores_only_on_201_witness :
  fst (Sample.register Sample.fx1 [] Sample.studentBody []) = Sample.registered /\
  (fst (Sample.register Sample.fx2 [] Sample.studentBody Sample.registered) =
     Sample.registered \/
   fst (Sample.register Sample.fx2 [] Sample.studentBody Sample.registered) =
     Sample.registered ++ []).
Proof.
  split; [reflexivity |].
  destruct (@register_stores_only_on_201 reference_bcrypt reference_codec Sample.secret
              false Sample.fx2 [] Sample.studentBody Sample.registered
              (fst (Sample.register Sample.fx2 [] Sample.studentBody Sample.registered))
              (snd (Sample.register Sample.fx2 [] Sample.studentBody Sample.registered)))
    as (_ & _ & Hkept); [discriminate | apply surjective_pairing |].
  apply Hkept. vm_compute. discriminate.
Defined.

Lemma detail_only_in_development_witness : true = true /\ 500%nat = 500%nat.
Proof.
  apply (@detail_only_in_development reference_bcrypt reference_codec Sample.secret
           true Sample.fx1 [] (<["name" := VNum 5]> Sample.studentBody) [] []
           {| status := 500;
              jsonBody := ErrorJson (Text "Registration failed. Please try again.")
                            (Some (TypeError "name.trim is not a function")) |}
           (Text "Registration failed. Please try again.")
           (TypeError "name.trim is not a function"));
    [discriminate | left; vm_compute; reflexivity | reflexivity].
Defined.

Lemma login_400_iff_missing_witness :
  Sample.login Sample.fx2 (delete "password" (Sample.loginBody "A@X.com" "x"))
    Sample.registered =
    (Sample.registered, reject 400 "Email and password are required") /\
  status (snd (Sample.login Sample.fx2 (Sample.loginBody "" "secret1") Sample.registered))
    = 400%nat.
Proof.
  split.
  - apply (@login_400_iff_missing reference_bcrypt reference_codec Sample.secret false
             Sample.fx2 (delete "password" (Sample.loginBody "A@X.com" "x"))
             Sample.registered).
    right. vm_compute. reflexivity.
  - apply (@login_400_iff_missing reference_bcrypt reference_codec Sample.secret false
             Sample.fx2 (Sample.loginBody "" "secret1") Sample.registered).
    left. vm_compute. reflexivity.
Defined.

Lemma wrong_type_is_500_witness :
  status (snd (Sample.register Sample.fx2 []
                 (<["name" := VNum 5]> Sample.studentBody) Sample.registered)) = 500%nat /\
  Sample.login Sample.fx2 (<["password" := VNum 1234567]> (Sample.loginBody "A@X.com" "x"))
    Sample.registered =
    (Sample.registered,
     {| status := 500;
        jsonBody := ErrorJson (Text "Login failed. Please try again.") None |}).
Proof.
  split.
  - destruct (@wrong_type_is_500 reference_bcrypt reference_codec Sample.secret false
                Sample.fx2 [] (<["name" := VNum 5]> Sample.studentBody)
                Sample.registered (VNum 5))
      as (Hname & _); [discriminate | reflexivity |].
    unfold Sample.register. rewrite Hname; reflexivity.
  - destruct (@wrong_type_is_500 reference_bcrypt reference_codec Sample.secret false
                Sample.fx2 []
                (<["password" := VNum 1234567]> (Sample.loginBody "A@X.com" "x"))
                Sample.registered (VNum 1234567))
      as (_ & _ & Hpassword); [discriminate | reflexivity |].
    eapply (Hpassword "A@X.com"); [vm_compute; reflexivity | discriminate
      | vm_compute; reflexivity | vm_compute; reflexivity | reflexivity].
Defined.

(** ** Further facts about a registration *)

Section MoreOutcomes.

Context `{Bcrypt} `{Jwt.Codec}.
Variable secret : string.
Variable development : bool.

Implicit Types (body : gmap string jsval) (db others : list User.t).



(** A response with status 201 comes with the document that was built,
    validated and stored. *)
Lemma register_201 (fx : Effects) others body db db' (r : Response) :
  register secret development fx others body db = (db', r) ->
  status r = 201%nat ->
  exists ud token,
    let d := Mongoose.construct (objectId fx) (clock fx) ud in
    let u := User.fields (User.preSave (salt fx) d) in
    validateBase body = Next tt /\ validateRole body = Next tt /\
    buildUserData body = Next ud /\ Mongoose.validate d = [] /\
    db' = (db ++ others) ++ [u] /\
    (forall v, In v (db ++ others) -> User._id v <> User._id u /\ User.email v <> User.email u) /\
    generateToken secret (clock fx) (User._id u) (User.role u) = Ok token /\
    r = {| status := 201; jsonBody := AuthJson token (safeUser u) |}.
Proof.
  intros Hreg Hst. apply register_inv in Hreg as [[Hge _] | Hcreated].
  - rewrite Hst in Hge. lia.
  - exact Hcreated.
Qed.

End MoreOutcomes.

Section SchemaProperties.

Context `{Bcrypt} `{Jwt.Codec}.


End SchemaProperties.


(** ** The gate on an issued token, a login that succeeds *)

Section IssuedFacts.

Context `{Bcrypt} `{Jwt.Codec}.
Variable secret : string.
Variable development : bool.

Implicit Types (body : gmap string jsval) (db others : list User.t).

(** The gate on a header made of the scheme and a serialized token. *)
Lemma authMiddleware_issued (now : N) (req : Request) (p : Jwt.Payload) :
  secret <> "" ->
  authorization req = Some ("Bearer " +:+ Jwt.serialize secret p) ->
  authMiddleware secret now req =
  if (Jwt.exp p <=? now)%N then Answered (reject 401 "Invalid or expired token")
  else Passed {| authorization := authorization req;
                 userId := Some (Jwt.userId p);
                 userRole := Some (Jwt.role p) |}.
Proof.
  intros Hs Hh. destruct (serialize_plain secret p) as [Hsp Hne].
  unfold authMiddleware. rewrite Hh.
  rewrite bearer_scheme, split_bearer_token by assumption.
  rewrite (eqb_false_of_neq _ _ Hne), verify_serialize by assumption.
  now destruct (Jwt.exp p <=? now)%N.
Qed.

(** A login for the address of an active document, with its password. *)
Lemma login_success (fx : Effects) body db (e p : string) (u : User.t) :
  secret <> "" ->
  body !! "email" = Some (VStr e) -> e <> "" ->
  body !! "password" = Some (VStr p) -> p <> "" ->
  Mongoose.findOne (Js.trim (Js.toLowerCase e)) db = Some u ->
  User.isActive u = true -> bcrypt_compare p (User.password u) = true ->
  login secret development fx body db =
  (Mongoose.updateOne (User._id u) (User.set_lastLogin (Some (clock fx))) db,
   {| status := 200;
      jsonBody := AuthJson
                    (Jwt.serialize secret
                       {| Jwt.userId := User._id u; Jwt.role := User.role u;
                          Jwt.iat := clock fx; Jwt.exp := (clock fx + sevenDays)%N |})
                    (safeUser (User.set_lastLogin (Some (clock fx)) u)) |}).
Proof.
  intros Hs He Hne Hp Hpne Hf Ha Hm.
  rewrite login_unfold, He, Hp. simpl.
  rewrite (eqb_false_of_neq _ _ Hne), (eqb_false_of_neq _ _ Hpne). simpl.
  rewrite Hf, Ha. simpl. rewrite Hm. simpl.
  destruct (save_lastLogin (salt fx) (clock fx) u db) as [_ ->]. simpl.
  destruct (UserFacts.set_lastLogin_fields (Some (clock fx)) u) as (-> & _ & _ & -> & _).
  now rewrite generateToken_Ok.
Qed.

End IssuedFacts.

Section SessionProperties.

Context `{Bcrypt} `{Jwt.Codec}.


(** X12. The token of a response opens the gate. The token that a
    registration or a login returns, sent as a Bearer token before seven
    days have passed since the handler read the clock, makes the middleware
    call [next()] with the id and the role of the user object of the same
    response; from seven days on the middleware answers 401. *)
Theorem issued_token_authenticates
    (secret : string) (development : bool) (fx : Effects) (others : list User.t)
    (body : gmap string jsval) (db db' : list User.t) (r : Response)
    (token : string) (user : list (string * json)) (now : N) (req : Request) :
  secret <> "" ->
  register secret development fx others body db = (db', r) \/
  login secret development fx body db = (db', r) ->
  jsonBody r = AuthJson token user ->
  authorization req = Some ("Bearer " +:+ token) ->
  exists u,
    user = safeUser u /\
    ((now < clock fx + sevenDays)%N ->
     authMiddleware secret now req =
       Passed {| authorization := authorization req;
                 userId := Some (User._id u); userRole := Some (User.role u) |}) /\
    ((clock fx + sevenDays <= now)%N ->
     authMiddleware secret now req = Answered (reject 401 "Invalid or expired token")).
Proof.
  intros Hs Hhandler Hbody Hh.
  assert (exists u,
            token = Jwt.serialize secret
                      {| Jwt.userId := User._id u; Jwt.role := User.role u;
                         Jwt.iat := clock fx; Jwt.exp := (clock fx + sevenDays)%N |} /\
            user = safeUser u) as (u & -> & ->).
  { destruct Hhandler as [Hreg | Hlog].
    - apply register_inv in Hreg
        as [[_ (txt & d & Herr)] | (ud & t & _ & _ & _ & _ & _ & _ & Ht & ->)].
      + rewrite Herr in Hbody. discriminate Hbody.
      + rewrite generateToken_Ok in Ht by assumption.
        simpl in Hbody. injection Ht as <-. injection Hbody as <- <-. eauto.
    - apply login_inv in Hlog
        as [[[_ (txt & d & Herr)] _] | (e & p & u & _ & _ & _ & _ & _ & _ & ->)];
        [| | assumption].
      + rewrite Herr in Hbody. discriminate Hbody.
      + simpl in Hbody. injection Hbody as <- <-.
        exists (User.set_lastLogin (Some (clock fx)) u).
        destruct (UserFacts.set_lastLogin_fields (Some (clock fx)) u)
          as (-> & _ & _ & -> & _). eauto. }
  exists u. split; [reflexivity |].
  rewrite (authMiddleware_issued secret now req _ Hs Hh). cbn [Jwt.exp Jwt.userId Jwt.role].
  split; intros Hnow.
  - now rewrite (proj2 (N.leb_gt _ _) Hnow).
  - now rewrite (proj2 (N.leb_le _ _) Hnow).
Qed.

End SessionProperties.


Lemma issued_token_authenticates_witness :
  exists token user,
    jsonBody (snd (Sample.login Sample.fx2 (Sample.loginBody "A@X.com" "secret1")
                     Sample.registered)) = AuthJson token user /\
    @authMiddleware reference_codec Sample.secret 600000
      {| authorization := Some ("Bearer " +:+ token);
         userId := Some "intruder"; userRole := Some "admin" |} =
      Passed {| authorization := Some ("Bearer " +:+ token);
                userId := Some "id1"; userRole := Some "student" |} /\
    @authMiddleware reference_codec Sample.secret 606800
      {| authorization := Some ("Bearer " +:+ token);
         userId := None; userRole := None |} =
      Answered (reject 401 "Invalid or expired token").
Proof.
  assert (exists token user,
            Sample.login Sample.fx2 (Sample.loginBody "A@X.com" "secret1")
              Sample.registered =
            (fst (Sample.login Sample.fx2 (Sample.loginBody "A@X.com" "secret1")
                    Sample.registered),
             {| status := 200; jsonBody := AuthJson token user |}))
    as (token & user & Hlogin) by (vm_compute; eauto).
  exists token, user. rewrite Hlogin. split; [reflexivity |].
  destruct (@issued_token_authenticates reference_bcrypt reference_codec Sample.secret
              false Sample.fx2 [] (Sample.loginBody "A@X.com" "secret1")
              Sample.registered _ _ token user 600000
              {| authorization := Some ("Bearer " +:+ token);
                 userId := Some "intruder"; userRole := Some "admin" |}
              ltac:(discriminate) (or_intror Hlogin) eq_refl eq_refl)
    as (u & Hu & Hopen & _).
  destruct (@issued_token_authenticates reference_bcrypt reference_codec Sample.secret
              false Sample.fx2 [] (Sample.loginBody "A@X.com" "secret1")
              Sample.registered _ _ token user 606800
              {| authorization := Some ("Bearer " +:+ token);
                 userId := None; userRole := None |}
              ltac:(discriminate) (or_intror Hlogin) eq_refl eq_refl)
    as (_ & _ & _ & Hshut).
  split; [| apply Hshut; vm_compute; discriminate].
  rewrite Hopen by (vm_compute; reflexivity). cbn [authorization].
  assert (In ("id", JStr "id1") user /\ In ("role", JStr "student") user) as [Hid Hrole].
  { vm_compute in Hlogin. injection Hlogin as _ <-. split; vm_compute; tauto. }
  subst user. unfold safeUser in Hid, Hrole.
  destruct Hid as [[= ->] | Hid];
    [| repeat (destruct Hid as [Hid | Hid]; [discriminate Hid |]); destruct Hid].
  destruct Hrole as [Hrole | Hrole]; [discriminate Hrole |].
  destruct Hrole as [Hrole | Hrole]; [discriminate Hrole |].
  destruct Hrole as [Hrole | Hrole]; [discriminate Hrole |].
  destruct Hrole as [[= ->] | Hrole];
    [| repeat (destruct Hrole as [Hrole | Hrole]; [discriminate Hrole |]); destruct Hrole].
  reflexivity.
Defined.

(** ** The document that a registration has stored *)

Section RegisteredFacts.

Context `{Bcrypt} `{Jwt.Codec}.
Variable secret : string.
Variable development : bool.

Implicit Types (body : gmap string jsval) (db others : list User.t).

(** The validators look at fields that the hook does not write. *)
Lemma validatePath_preSave (salt : string) (d : User.Doc) (p : User.Path) :
  p <> User.p_password ->
  Mongoose.validatePath (User.fields (User.preSave salt d)) p =
  Mongoose.validatePath (User.fields d) p.
Proof.
  intros Hp.
  destruct (UserFacts.preSave_fields salt d)
    as (_ & _ & _ & Hn & He & Hr & _ & Hd & Hs & _ & _ & _ & Hal & _).
  destruct p; simpl; try congruence; now rewrite ?Hn, ?He, ?Hr, ?Hd, ?Hs, ?Hal.
Qed.

(** A response with status 201: the document stored last, its role, the
    object it was built from, and the validators it has passed. *)
Lemma registered_document (fx : Effects) others body db db' (r : Response) :
  register secret development fx others body db = (db', r) ->
  status r = 201%nat ->
  exists ud role,
    let d := Mongoose.construct (objectId fx) (clock fx) ud in
    let u := User.fields (User.preSave (salt fx) d) in
    validateBase body = Next tt /\ validateRole body = Next tt /\
    buildUserData body = Next ud /\
    body !! "role" = Some (VStr role) /\ In role Mongoose.roles /\
    db' = (db ++ others) ++ [u] /\
    User.role u = role /\
    (forall p, p <> User.p_password -> Mongoose.validatePath u p = []) /\
    User.name u = ud_name ud /\
    User.email u = Js.toLowerCase (ud_email ud) /\
    User.rollNumber u = ud_rollNumber ud /\
    User.department u = castString <$> ud_department ud /\
    User.semester u = ud_semester ud /\
    User.batch u = ud_batch ud /\
    User.proctorId u = ud_proctorId ud /\
    User.adminLevel u = from_option castString "limited" (ud_adminLevel ud).
Proof.
  intros Hreg Hst.
  destruct (register_201 secret development fx others body db db' r Hreg Hst)
    as (ud & token & Hb & Hr & Hud & Hv & Hdb & _).
  destruct (validateBase_Next body Hb) as (_ & _ & _ & _ & role & Hrole & Hincl).
  apply ValidatorFacts.includes_In in Hincl.
  destruct (buildUserData_Next body role ud Hrole Hud) as (_ & _ & _ & Hur & _).
  destruct (UserFacts.preSave_fields (salt fx)
              (Mongoose.construct (objectId fx) (clock fx) ud))
    as (_ & _ & _ & Hn & He & Hro & Hrn & Hd & Hs & Hbt & Hpi & _ & Hal & _).
  exists ud, role. cbv zeta. repeat split; try assumption.
  - now rewrite Hro.
  - intros p Hp. rewrite validatePath_preSave by assumption.
    now apply ValidatorFacts.validate_new.
Qed.

End RegisteredFacts.

Section RegisteredProperties.

Context `{Bcrypt} `{Jwt.Codec}.

(** X13. What a registration leaves in the collection. The document stored
    by a registration that was answered 201 has a name that is trimmed and
    not empty, an address that is not empty and is its own normal form, a
    role among student, proctor and admin, a department of the list of the
    schema, an [adminLevel] among super, department and limited, and, when
    it is a student, a semester that is a number from 1 to 8. *)
Theorem stored_document_satisfies_schema
    (secret : string) (development : bool) (fx : Effects) (others : list User.t)
    (body : gmap string jsval) (db db' : list User.t) (r : Response) :
  register secret development fx others body db = (db', r) ->
  status r = 201%nat ->
  exists u,
    db' = (db ++ others) ++ [u] /\
    User.name u <> "" /\ Js.trim (User.name u) = User.name u /\
    User.email u <> "" /\ Js.trim (Js.toLowerCase (User.email u)) = User.email u /\
    In (User.role u) Mongoose.roles /\
    (exists dp, User.department u = Some dp /\ In dp Mongoose.departments) /\
    In (User.adminLevel u) Mongoose.adminLevels /\
    (User.role u = "student" ->
     exists z, User.semester u = Some (Js.Num z) /\ 1 <= z <= 8).
Proof.
  intros Hreg Hst.
  destruct (registered_document secret development fx others body db db' r Hreg Hst)
    as (ud & role & Hb & Hr & Hud & Hrole & Hin & Hdb & Hro & Hvalid
        & Hn & He & _ & Hd & Hs & _ & _ & Hal).
  cbv zeta in *.
  set (u := User.fields (User.preSave (salt fx)
              (Mongoose.construct (objectId fx) (clock fx) ud))) in *.
  destruct (buildUserData_Next body role ud Hrole Hud)
    as ((n & _ & Hname) & (e & _ & Hmail) & _).
  destruct (buildUserData_role body role ud Hrole Hin Hud) as (Hdp & Hstudent & _).
  destruct (validateRole_Next body role Hrole Hin Hr) as (Hdept & _).
  exists u. repeat split.
  - exact Hdb.
  - apply (ValidatorFacts.required_nil "name").
    apply (Hvalid User.p_name). discriminate.
  - rewrite Hn, Hname. apply trim_idem.
  - apply (ValidatorFacts.required_nil "email").
    apply (Hvalid User.p_email). discriminate.
  - rewrite He, Hmail, toLowerCase_normalised. apply normalise_idem.
  - now rewrite Hro.
  - destruct (body !! "department") as [v|] eqn:Hbd; [| discriminate Hdept].
    exists (castString v). rewrite Hd, Hdp. split; [reflexivity |].
    apply (ValidatorFacts.enum_nil "department").
    pose proof (Hvalid User.p_department ltac:(discriminate)) as Hp.
    simpl in Hp. now rewrite Hd, Hdp in Hp.
  - apply (ValidatorFacts.enum_nil "adminLevel").
    apply (Hvalid User.p_adminLevel). discriminate.
  - intros Hst'. rewrite Hro in Hst'. destruct (Hstudent Hst') as (Hsem & _).
    pose proof (Hvalid User.p_semester ltac:(discriminate)) as Hp.
    simpl in Hp. rewrite Hs, Hsem in Hp. rewrite Hs, Hsem.
    destruct (parseInt (body !! "semester")) as [|z]; [discriminate Hp |].
    exists z. split; [reflexivity |].
    destruct (Z.ltb_spec z 1); [discriminate Hp |].
    destruct (Z.ltb_spec 8 z); [discriminate Hp | lia].
Qed.

(** X14. The capabilities of an admin who has registered. The level stored
    is the [adminLevel] of the body, or limited when the body has none, and
    [hasPermission] on the stored document follows the table of the hook:
    [manageCalendar] and [viewAnalytics] at every level, [manageUsers],
    [manageProctors] and [exportReports] unless the level is limited,
    [manageAdmins] only for super, and no capability of any other name. *)
Theorem registered_admin_permissions
    (secret : string) (development : bool) (fx : Effects) (others : list User.t)
    (body : gmap string jsval) (db db' : list User.t) (r : Response) :
  register secret development fx others body db = (db', r) ->
  status r = 201%nat ->
  body !! "role" = Some (VStr "admin") ->
  exists u,
    db' = (db ++ others) ++ [u] /\ User.role u = "admin" /\
    User.adminLevel u =
      (if truthy (body !! "adminLevel")
       then castString (default VNull (body !! "adminLevel")) else "limited") /\
    User.hasPermission u "manageCalendar" = true /\
    User.hasPermission u "viewAnalytics" = true /\
    (User.hasPermission u "manageUsers" = true <-> User.adminLevel u <> "limited") /\
    (User.hasPermission u "manageProctors" = true <-> User.adminLevel u <> "limited") /\
    (User.hasPermission u "exportReports" = true <-> User.adminLevel u <> "limited") /\
    (User.hasPermission u "manageAdmins" = true <-> User.adminLevel u = "super") /\
    (forall permission,
       ~ In permission ["manageCalendar"; "manageUsers"; "viewAnalytics";
                        "manageProctors"; "manageAdmins"; "exportReports"] ->
       User.hasPermission u permission = false).
Proof.
  intros Hreg Hst Hadmin.
  destruct (registered_document secret development fx others body db db' r Hreg Hst)
    as (ud & role & Hb & Hr & Hud & Hrole & Hin & Hdb & Hro & Hvalid
        & _ & _ & _ & _ & _ & _ & _ & Hal).
  cbv zeta in *.
  destruct (created_document fx body ud Hb Hud) as (_ & _ & Hperm & _).
  cbv zeta in Hperm.
  set (u := User.fields (User.preSave (salt fx)
              (Mongoose.construct (objectId fx) (clock fx) ud))) in *.
  rewrite Hadmin in Hrole. injection Hrole as <-.
  destruct (buildUserData_role body "admin" ud Hadmin Hin Hud) as (_ & _ & _ & Hlevel).
  destruct (Hlevel eq_refl) as (Hudal & _).
  rewrite Hro in Hperm. simpl in Hperm.
  assert (In (User.adminLevel u) Mongoose.adminLevels) as Hlevels.
  { apply (ValidatorFacts.enum_nil "adminLevel").
    apply (Hvalid User.p_adminLevel). discriminate. }
  exists u. split; [exact Hdb |]. split; [exact Hro |].
  split; [rewrite Hal, Hudal; now destruct (truthy (body !! "adminLevel")) |].
  assert (forall permission,
            User.hasPermission u permission =
            match User.permissions_get (User.permissionsFor (User.adminLevel u)) permission
            with Some true => true | _ => false end) as Hhas.
  { intros permission. unfold User.hasPermission. now rewrite Hro, Hperm. }
  rewrite !Hhas.
  split; [| split; [| split; [| split; [| split; [| split]]]]].
  - destruct Hlevels as [<- | [<- | [<- | []]]]; reflexivity.
  - destruct Hlevels as [<- | [<- | [<- | []]]]; reflexivity.
  - destruct Hlevels as [<- | [<- | [<- | []]]]; simpl; split; congruence.
  - destruct Hlevels as [<- | [<- | [<- | []]]]; simpl; split; congruence.
  - destruct Hlevels as [<- | [<- | [<- | []]]]; simpl; split; congruence.
  - destruct Hlevels as [<- | [<- | [<- | []]]]; simpl; split; congruence.
  - intros permission Hout. rewrite Hhas. unfold User.permissions_get.
    repeat match goal with
           | |- context [String.eqb permission ?s] =>
               destruct (String.eqb_spec permission s);
               [subst permission; exfalso; apply Hout; simpl; tauto |]
           end.
    reflexivity.
Qed.

(** X15. Members of the body that belong to another role are not stored.
    The document of a student has no [proctorId] and the default
    [adminLevel], that of a proctor has no roll number, semester or batch
    and the default [adminLevel], and that of an admin has no roll number,
    semester, batch or [proctorId], whatever the body gave for them. *)
Theorem fields_of_other_roles_dropped
    (secret : string) (development : bool) (fx : Effects) (others : list User.t)
    (body : gmap string jsval) (db db' : list User.t) (r : Response) :
  register secret development fx others body db = (db', r) ->
  status r = 201%nat ->
  exists u,
    db' = (db ++ others) ++ [u] /\
    body !! "role" = Some (VStr (User.role u)) /\
    (User.role u = "student" ->
     User.proctorId u = None /\ User.adminLevel u = "limited") /\
    (User.role u = "proctor" ->
     User.rollNumber u = None /\ User.semester u = None /\ User.batch u = None /\
     User.adminLevel u = "limited") /\
    (User.role u = "admin" ->
     User.rollNumber u = None /\ User.semester u = None /\ User.batch u = None /\
     User.proctorId u = None).
Proof.
  intros Hreg Hst.
  destruct (registered_document secret development fx others body db db' r Hreg Hst)
    as (ud & role & Hb & Hr & Hud & Hrole & Hin & Hdb & Hro & _
        & _ & _ & Hrn & _ & Hs & Hbt & Hpi & Hal).
  cbv zeta in *.
  set (u := User.fields (User.preSave (salt fx)
              (Mongoose.construct (objectId fx) (clock fx) ud))) in *.
  destruct (buildUserData_role body role ud Hrole Hin Hud)
    as (_ & Hstudent & Hproctor & Hadmin).
  exists u. split; [exact Hdb |]. split; [now rewrite Hro |].
  rewrite Hro, Hrn, Hs, Hbt, Hpi, Hal.
  split; [| split]; intros E.
  - destruct (Hstudent E) as (_ & _ & _ & -> & ->). now split.
  - destruct (Hproctor E) as (_ & -> & -> & -> & ->). now repeat split.
  - destruct (Hadmin E) as (_ & -> & -> & -> & ->). now repeat split.
Qed.

End RegisteredProperties.

Lemma stored_document_satisfies_schema_witness :
  exists u,
    Sample.registered = [u] /\ Js.trim (Js.toLowerCase (User.email u)) = User.email u /\
    In (User.role u) Mongoose.roles /\
    (exists dp, User.department u = Some dp /\ In dp Mongoose.departments).
Proof.
  destruct (@stored_document_satisfies_schema reference_bcrypt reference_codec
              Sample.secret false Sample.fx1 [] Sample.studentBody [] Sample.registered
              (snd (Sample.register Sample.fx1 [] Sample.studentBody [])))
    as (u & Hdb & _ & _ & _ & Hmail & Hrole & Hdept & _);
    [vm_compute; reflexivity | vm_compute; reflexivity |].
  exists u. repeat apply conj; assumption.
Defined.

Lemma registered_admin_permissions_witness :
  exists u,
    fst (Sample.register Sample.fx2 [] Sample.adminBody Sample.registered) =
      (Sample.registered ++ []) ++ [u] /\
    User.adminLevel u = "department" /\
    User.hasPermission u "manageUsers" = true /\
    (User.hasPermission u "manageAdmins" = true <-> User.adminLevel u = "super").
Proof.
  destruct (@registered_admin_permissions reference_bcrypt reference_codec
              Sample.secret false Sample.fx2 [] Sample.adminBody Sample.registered
              (fst (Sample.register Sample.fx2 [] Sample.adminBody Sample.registered))
              (snd (Sample.register Sample.fx2 [] Sample.adminBody Sample.registered)))
    as (u & Hdb & _ & Hlevel & _ & _ & Husers & _ & _ & Hadmins & _);
    [vm_compute; reflexivity | vm_compute; reflexivity | vm_compute; reflexivity |].
  exists u. split; [exact Hdb |]. split; [exact Hlevel |].
  split; [| exact Hadmins].
  apply Husers. rewrite Hlevel. discriminate.
Defined.

Lemma fields_of_other_roles_dropped_witness :
  exists u,
    fst (Sample.register Sample.fx1 []
           (<["adminLevel" := VStr "super"]>
              (<["proctorId" := VStr "pr7"]> Sample.studentBody)) []) = [u] /\
    User.proctorId u = None /\ User.adminLevel u = "limited".
Proof.
  destruct (@fields_of_other_roles_dropped reference_bcrypt reference_codec
              Sample.secret false Sample.fx1 []
              (<["adminLevel" := VStr "super"]>
                 (<["proctorId" := VStr "pr7"]> Sample.studentBody)) []
              (fst (Sample.register Sample.fx1 []
                      (<["adminLevel" := VStr "super"]>
                         (<["proctorId" := VStr "pr7"]> Sample.studentBody)) []))
              (snd (Sample.register Sample.fx1 []
                      (<["adminLevel" := VStr "super"]>
                         (<["proctorId" := VStr "pr7"]> Sample.studentBody)) [])))
    as (u & Hdb & Hrole & Hstudent & _);
    [vm_compute; reflexivity | vm_compute; reflexivity |].
  exists u. split; [exact Hdb |].
  assert (Some (VStr "student") = Some (VStr (User.role u))) as E
    by (rewrite <- Hrole; vm_compute; reflexivity).
  apply Hstudent. now injection E as <-.
Defined.

(** ** Bodies that the register handler accepts *)

Section AcceptFacts.

Context `{Bcrypt} `{Jwt.Codec}.
Variable secret : string.
Variable development : bool.

Implicit Types (body : gmap string jsval) (db others : list User.t).

Lemma length_nonempty (s : string) (n : nat) :
  (S n <= String.length s)%nat -> s <> "".
Proof. intros Hl ->. simpl in Hl. lia. Qed.

Lemma In_nonempty (l : list string) (s : string) :
  Js.includes l "" = false -> In s l -> s <> "".
Proof.
  intros Hl Hin ->. apply ValidatorFacts.includes_In in Hin. congruence.
Qed.

(** The base validation passes on four strings that are in order. *)
Lemma validateBase_accepts body (n e pw r : string) :
  body !! "name" = Some (VStr n) -> Js.trim n <> "" ->
  body !! "email" = Some (VStr e) -> Js.trim e <> "" ->
  body !! "password" = Some (VStr pw) -> (6 <= String.length pw)%nat ->
  body !! "role" = Some (VStr r) -> In r Mongoose.roles ->
  validateBase body = Next tt.
Proof.
  intros Hn Hnb He Heb Hp Hlen Hr Hin.
  rewrite validateBase_named, Hp, Hr.
  - apply ValidatorFacts.includes_In in Hin.
    change (includes_val ["student"; "proctor"; "admin"] (Some (VStr r)))
      with (Js.includes Mongoose.roles r).
    rewrite Hin. cbn [truthy length_lt].
    rewrite (eqb_false_of_neq pw "") by (now apply (length_nonempty pw 5)).
    now rewrite (proj2 (Nat.ltb_ge _ _) Hlen).
  - rewrite Hn. simpl. now rewrite (eqb_false_of_neq _ _ Hnb).
  - rewrite He. simpl. now rewrite (eqb_false_of_neq _ _ Heb).
Qed.

(** The validators pass on a member of the list of an [enum]. *)
Lemma enum_In (path : string) (allowed : list string) (value : string) :
  In value allowed -> Mongoose.enum path allowed value = [].
Proof.
  intros Hin. apply ValidatorFacts.includes_In in Hin.
  unfold Mongoose.enum. now rewrite Hin.
Qed.

Lemma required_nonempty (path value : string) :
  value <> "" -> Mongoose.required path value = [].
Proof. intros Hv. unfold Mongoose.required. now rewrite (eqb_false_of_neq _ _ Hv). Qed.

(** An assignment to one path does not mark another. *)
Lemma isModified_assign_other (p q : User.Path) (f : User.t -> User.t) (d : User.Doc) :
  p <> q -> User.isModified p (User.assign q f d) = User.isModified p d.
Proof.
  intros Hpq. unfold User.isModified. apply bool_decide_ext. simpl.
  rewrite elem_of_cons. tauto.
Qed.

End AcceptFacts.

Section AcceptedStudent.

Context `{Bcrypt} `{Jwt.Codec}.

(** X16. A registration of a student that succeeds, from the body alone.
    With a name and an address that are not blank, a password of six
    characters or more, a roll number and a batch that are not empty, a
    department of the list of the schema and a semester that [parseInt]
    reads as a number from 1 to 8, for an address and an ObjectId that no
    document has, the handler answers 201 and stores exactly this document:
    the name and the batch trimmed, the address trimmed and in lower case,
    the roll number trimmed and in upper case, the password hashed, no
    [proctorId], the default [adminLevel] and no permission. The roll
    number and the batch need only be non-empty: blanks alone are accepted
    and stored as the empty string. *)
Theorem student_registration_succeeds
    (secret : string) (development : bool) (fx : Effects)
    (body : gmap string jsval) (db : list User.t)
    (n e pw rn dp bt : string) (z : Z) :
  secret <> "" ->
  body !! "name" = Some (VStr n) -> Js.trim n <> "" ->
  body !! "email" = Some (VStr e) -> Js.trim e <> "" ->
  body !! "password" = Some (VStr pw) -> (6 <= String.length pw)%nat ->
  body !! "role" = Some (VStr "student") ->
  body !! "rollNumber" = Some (VStr rn) -> rn <> "" ->
  body !! "department" = Some (VStr dp) -> In dp Mongoose.departments ->
  truthy (body !! "semester") = true ->
  parseInt (body !! "semester") = Js.Num z -> 1 <= z <= 8 ->
  body !! "batch" = Some (VStr bt) -> bt <> "" ->
  (forall v, In v db ->
     User._id v <> objectId fx /\ User.email v <> Js.trim (Js.toLowerCase e)) ->
  let u :=
    {| User._id := objectId fx; User.name := Js.trim n;
       User.email := Js.trim (Js.toLowerCase e);
       User.password := bcrypt_hash pw (salt fx);
       User.role := "student";
       User.rollNumber := Some (Js.toUpperCase (Js.trim rn));
       User.department := Some dp; User.semester := Some (Js.Num z);
       User.batch := Some (Js.trim bt); User.proctorId := None;
       User.assignedStudents := []; User.adminLevel := "limited";
       User.permissions := Mongoose.noPermissions;
       User.createdAt := clock fx; User.lastLogin := None;
       User.isActive := true; User.profilePicture := None;
       User.phone := None |} in
  register secret development fx [] body db =
  (db ++ [u],
   {| status := 201;
      jsonBody := AuthJson
                    (Jwt.serialize secret
                       {| Jwt.userId := objectId fx; Jwt.role := "student";
                          Jwt.iat := clock fx; Jwt.exp := (clock fx + sevenDays)%N |})
                    (safeUser u) |}).
Proof.
  intros Hs Hn Hnb He Heb Hp Hlen Hrole Hrn Hrnb Hdp Hdin Hsem Hparse Hz Hbt Hbtb
    Hfresh u.
  set (ud := {| ud_name := Js.trim n; ud_email := Js.trim (Js.toLowerCase e);
                ud_password := VStr pw; ud_role := "student";
                ud_rollNumber := Some (Js.toUpperCase (Js.trim rn));
                ud_department := Some (VStr dp); ud_semester := Some (Js.Num z);
                ud_batch := Some (Js.trim bt); ud_proctorId := None;
                ud_adminLevel := None |}).
  assert (dp <> "") as Hdpb by (now apply (In_nonempty Mongoose.departments)).
  assert (validateBase body = Next tt) as Hb.
  { apply (validateBase_accepts body n e pw "student"); try assumption.
    simpl. tauto. }
  assert (validateRole body = Next tt) as Hr.
  { unfold validateRole. rewrite Hrole, Hrn, Hdp, Hsem, Hbt. simpl.
    now rewrite (eqb_false_of_neq _ _ Hrnb), (eqb_false_of_neq _ _ Hdpb),
      (eqb_false_of_neq _ _ Hbtb). }
  assert (buildUserData body = Next ud) as Hud.
  { unfold buildUserData. rewrite Hn, He, Hp, Hrole, Hrn, Hdp, Hparse, Hbt.
    reflexivity. }
  assert (Mongoose.validate (Mongoose.construct (objectId fx) (clock fx) ud) = [])
    as Hv.
  { unfold Mongoose.validate. simpl.
    rewrite toLowerCase_normalised.
    rewrite (required_nonempty "name") by assumption.
    rewrite (required_nonempty "email") by now apply trim_toLowerCase_nonempty.
    rewrite (required_nonempty "password") by now apply (length_nonempty pw 5).
    rewrite (enum_In "department") by assumption.
    rewrite (proj2 (Z.ltb_ge z 1)), (proj2 (Z.ltb_ge 8 z)) by lia.
    reflexivity. }
  assert (User.fields (User.preSave (salt fx)
            (Mongoose.construct (objectId fx) (clock fx) ud)) = u) as Hu.
  { unfold User.preSave. rewrite construct_modified_password. simpl.
    unfold u. now rewrite toLowerCase_normalised. }
  pose proof (register_created secret development fx body db e ud
                Hs Hb Hr Hud Hv He Hfresh) as Hreg.
  cbv zeta in Hreg. rewrite Hu in Hreg. exact Hreg.
Qed.

End AcceptedStudent.

Lemma student_registration_succeeds_witness :
  exists u,
    Sample.register Sample.fx1 []
      (<["semester" := VStr " 7th"]> (<["rollNumber" := VStr "  "]> Sample.studentBody)) [] =
      ([u], {| status := 201;
               jsonBody := AuthJson
                 (@Jwt.serialize reference_codec Sample.secret
                    {| Jwt.userId := "id1"; Jwt.role := "student";
                       Jwt.iat := 1000; Jwt.exp := (1000 + sevenDays)%N |})
                 (safeUser u) |}) /\
    User.rollNumber u = Some "" /\ User.semester u = Some (Js.Num 7).
Proof.
  eexists. split.
  - apply (@student_registration_succeeds reference_bcrypt reference_codec
             Sample.secret false Sample.fx1
             (<["semester" := VStr " 7th"]> (<["rollNumber" := VStr "  "]> Sample.studentBody))
             [] "A" "a@x.com" "secret1" "  " "CSE" "2024" 7);
      [discriminate | vm_compute; reflexivity | vm_compute; discriminate
       | vm_compute; reflexivity | vm_compute; discriminate
       | vm_compute; reflexivity | vm_compute; lia
       | vm_compute; reflexivity | vm_compute; reflexivity | discriminate
       | vm_compute; reflexivity | simpl; tauto
       | vm_compute; reflexivity | vm_compute; reflexivity | lia
       | vm_compute; reflexivity | discriminate | intros v []].
  - split; reflexivity.
Defined.

Section AcceptedStaff.

Context `{Bcrypt} `{Jwt.Codec}.

(** X17. A registration of an admin that succeeds, from the body alone.
    With a name and an address that are not blank, a password of six
    characters or more and a department of the list of the schema, for an
    address and an ObjectId that no document has, the handler answers 201
    when the level, which is the [adminLevel] of the body or limited when
    the body has none, is super, department or limited. The document it
    stores has that level and the permissions of the table of the hook for
    it, and no roll number, semester, batch or [proctorId]. *)
Theorem admin_registration_succeeds
    (secret : string) (development : bool) (fx : Effects)
    (body : gmap string jsval) (db : list User.t)
    (n e pw dp : string) :
  secret <> "" ->
  body !! "name" = Some (VStr n) -> Js.trim n <> "" ->
  body !! "email" = Some (VStr e) -> Js.trim e <> "" ->
  body !! "password" = Some (VStr pw) -> (6 <= String.length pw)%nat ->
  body !! "role" = Some (VStr "admin") ->
  body !! "department" = Some (VStr dp) -> In dp Mongoose.departments ->
  let level :=
    if truthy (body !! "adminLevel")
    then castString (default VNull (body !! "adminLevel")) else "limited" in
  In level Mongoose.adminLevels ->
  (forall v, In v db ->
     User._id v <> objectId fx /\ User.email v <> Js.trim (Js.toLowerCase e)) ->
  let u :=
    {| User._id := objectId fx; User.name := Js.trim n;
       User.email := Js.trim (Js.toLowerCase e);
       User.password := bcrypt_hash pw (salt fx);
       User.role := "admin";
       User.rollNumber := None; User.department := Some dp;
       User.semester := None; User.batch := None; User.proctorId := None;
       User.assignedStudents := []; User.adminLevel := level;
       User.permissions := User.permissionsFor level;
       User.createdAt := clock fx; User.lastLogin := None;
       User.isActive := true; User.profilePicture := None;
       User.phone := None |} in
  register secret development fx [] body db =
  (db ++ [u],
   {| status := 201;
      jsonBody := AuthJson
                    (Jwt.serialize secret
                       {| Jwt.userId := objectId fx; Jwt.role := "admin";
                          Jwt.iat := clock fx; Jwt.exp := (clock fx + sevenDays)%N |})
                    (safeUser u) |}).
Proof.
  intros Hs Hn Hnb He Heb Hp Hlen Hrole Hdp Hdin level Hlevel Hfresh u.
  set (ud := {| ud_name := Js.trim n; ud_email := Js.trim (Js.toLowerCase e);
                ud_password := VStr pw; ud_role := "admin";
                ud_rollNumber := None;
                ud_department := Some (VStr dp); ud_semester := None;
                ud_batch := None; ud_proctorId := None;
                ud_adminLevel :=
                  Some (if truthy (body !! "adminLevel")
                        then default VNull (body !! "adminLevel")
                        else VStr "limited") |}).
  assert (from_option castString "limited" (ud_adminLevel ud) = level) as Hal.
  { unfold ud, level. simpl. now destruct (truthy (body !! "adminLevel")). }
  assert (dp <> "") as Hdpb by (now apply (In_nonempty Mongoose.departments)).
  assert (validateBase body = Next tt) as Hb.
  { apply (validateBase_accepts body n e pw "admin"); try assumption.
    simpl. tauto. }
  assert (validateRole body = Next tt) as Hr.
  { unfold validateRole. rewrite Hrole, Hdp. simpl.
    now rewrite (eqb_false_of_neq _ _ Hdpb). }
  assert (buildUserData body = Next ud) as Hud.
  { unfold buildUserData. rewrite Hn, He, Hp, Hrole, Hdp. reflexivity. }
  assert (Mongoose.validate (Mongoose.construct (objectId fx) (clock fx) ud) = [])
    as Hv.
  { unfold Mongoose.validate.
    change (User.isNew (Mongoose.construct (objectId fx) (clock fx) ud)) with true.
    cbv iota. unfold User.schemaPaths. cbn [flat_map].
    unfold Mongoose.validatePath. cbn [User.fields Mongoose.construct User.name
      User.email User.password User.role User.department User.semester
      User.adminLevel].
    rewrite Hal. cbn [ud_name ud_email ud_password ud_role ud_department
      ud_semester ud castString fmap option_fmap option_map].
    rewrite toLowerCase_normalised.
    rewrite (required_nonempty "name") by assumption.
    rewrite (required_nonempty "email") by now apply trim_toLowerCase_nonempty.
    rewrite (required_nonempty "password") by now apply (length_nonempty pw 5).
    rewrite (enum_In "department") by assumption.
    rewrite (enum_In "adminLevel") by assumption.
    reflexivity. }
  assert (User.fields (User.preSave (salt fx)
            (Mongoose.construct (objectId fx) (clock fx) ud)) = u) as Hu.
  { unfold User.preSave. rewrite construct_modified_password.
    rewrite isModified_assign_other by discriminate.
    rewrite construct_modified_adminLevel.
    change (User.role (User.fields (User.assign User.p_password
              (User.set_password
                 (bcrypt_hash
                    (User.password
                       (User.fields (Mongoose.construct (objectId fx) (clock fx) ud)))
                    (salt fx)))
              (Mongoose.construct (objectId fx) (clock fx) ud))))
      with "admin".
    rewrite String.eqb_refl.
    change (ud_adminLevel ud) with
      (Some (if truthy (body !! "adminLevel")
             then default VNull (body !! "adminLevel") else VStr "limited")).
    cbv iota. cbn [andb].
    cbn [User.assign User.fields User.set_permissions User.set_password
         User.adminLevel Mongoose.construct].
    rewrite Hal. unfold u. cbn [ud_name ud_email ud_password ud_department
      ud_rollNumber ud_semester ud_batch ud_proctorId ud_role ud
      castString fmap option_fmap option_map].
    now rewrite toLowerCase_normalised. }
  pose proof (register_created secret development fx body db e ud
                Hs Hb Hr Hud Hv He Hfresh) as Hreg.
  cbv zeta in Hreg. rewrite Hu in Hreg. exact Hreg.
Qed.

(** X18. A registration of a proctor that succeeds, from the body alone.
    With a name and an address that are not blank, a password of six
    characters or more, a [proctorId] that is not empty and a department of
    the list of the schema, for an address and an ObjectId that no document
    has, the handler answers 201 and stores the [proctorId] trimmed and in
    upper case, no roll number, semester or batch, the default [adminLevel]
    and no permission. *)
Theorem proctor_registration_succeeds
    (secret : string) (development : bool) (fx : Effects)
    (body : gmap string jsval) (db : list User.t)
    (n e pw pi dp : string) :
  secret <> "" ->
  body !! "name" = Some (VStr n) -> Js.trim n <> "" ->
  body !! "email" = Some (VStr e) -> Js.trim e <> "" ->
  body !! "password" = Some (VStr pw) -> (6 <= String.length pw)%nat ->
  body !! "role" = Some (VStr "proctor") ->
  body !! "proctorId" = Some (VStr pi) -> pi <> "" ->
  body !! "department" = Some (VStr dp) -> In dp Mongoose.departments ->
  (forall v, In v db ->
     User._id v <> objectId fx /\ User.email v <> Js.trim (Js.toLowerCase e)) ->
  let u :=
    {| User._id := objectId fx; User.name := Js.trim n;
       User.email := Js.trim (Js.toLowerCase e);
       User.password := bcrypt_hash pw (salt fx);
       User.role := "proctor";
       User.rollNumber := None; User.department := Some dp;
       User.semester := None; User.batch := None;
       User.proctorId := Some (Js.toUpperCase (Js.trim pi));
       User.assignedStudents := []; User.adminLevel := "limited";
       User.permissions := Mongoose.noPermissions;
       User.createdAt := clock fx; User.lastLogin := None;
       User.isActive := true; User.profilePicture := None;
       User.phone := None |} in
  register secret development fx [] body db =
  (db ++ [u],
   {| status := 201;
      jsonBody := AuthJson
                    (Jwt.serialize secret
                       {| Jwt.userId := objectId fx; Jwt.role := "proctor";
                          Jwt.iat := clock fx; Jwt.exp := (clock fx + sevenDays)%N |})
                    (safeUser u) |}).
Proof.
  intros Hs Hn Hnb He Heb Hp Hlen Hrole Hpi Hpib Hdp Hdin Hfresh u.
  set (ud := {| ud_name := Js.trim n; ud_email := Js.trim (Js.toLowerCase e);
                ud_password := VStr pw; ud_role := "proctor";
                ud_rollNumber := None;
                ud_department := Some (VStr dp); ud_semester := None;
                ud_batch := None;
                ud_proctorId := Some (Js.toUpperCase (Js.trim pi));
                ud_adminLevel := None |}).
  assert (dp <> "") as Hdpb by (now apply (In_nonempty Mongoose.departments)).
  assert (validateBase body = Next tt) as Hb.
  { apply (validateBase_accepts body n e pw "proctor"); try assumption.
    simpl. tauto. }
  assert (validateRole body = Next tt) as Hr.
  { unfold validateRole. rewrite Hrole, Hpi, Hdp. simpl.
    now rewrite (eqb_false_of_neq _ _ Hpib), (eqb_false_of_neq _ _ Hdpb). }
  assert (buildUserData body = Next ud) as Hud.
  { unfold buildUserData. rewrite Hn, He, Hp, Hrole, Hpi, Hdp. reflexivity. }
  assert (Mongoose.validate (Mongoose.construct (objectId fx) (clock fx) ud) = [])
    as Hv.
  { unfold Mongoose.validate. simpl.
    rewrite toLowerCase_normalised.
    rewrite (required_nonempty "name") by assumption.
    rewrite (required_nonempty "email") by now apply trim_toLowerCase_nonempty.
    rewrite (required_nonempty "password") by now apply (length_nonempty pw 5).
    rewrite (enum_In "department") by assumption.
    reflexivity. }
  assert (User.fields (User.preSave (salt fx)
            (Mongoose.construct (objectId fx) (clock fx) ud)) = u) as Hu.
  { unfold User.preSave. rewrite construct_modified_password. simpl.
    unfold u. now rewrite toLowerCase_normalised. }
  pose proof (register_created secret development fx body db e ud
                Hs Hb Hr Hud Hv He Hfresh) as Hreg.
  cbv zeta in Hreg. rewrite Hu in Hreg. exact Hreg.
Qed.

End AcceptedStaff.

Lemma admin_registration_succeeds_witness :
  exists u token,
    Sample.register Sample.fx2 [] Sample.adminBody Sample.registered =
      (Sample.registered ++ [u],
       {| status := 201; jsonBody := AuthJson token (safeUser u) |}) /\
    User.email u = "root@x.com" /\ User.adminLevel u = "department" /\
    User.permissions u = User.permissionsFor "department" /\
    (exists v, In v (fst (Sample.register Sample.fx2 []
                            (delete "adminLevel" Sample.adminBody) Sample.registered)) /\
               User.adminLevel v = "limited" /\
               User.permissions v = User.permissionsFor "limited").
Proof.
  assert (forall v, In v Sample.registered ->
            User._id v <> objectId Sample.fx2 /\
            User.email v <> Js.trim (Js.toLowerCase " Root@X.com ")) as Hfresh
    by (intros v [<- | []]; split; vm_compute; discriminate).
  pose proof (@admin_registration_succeeds reference_bcrypt reference_codec
                Sample.secret false Sample.fx2 Sample.adminBody Sample.registered
                "Root" " Root@X.com " "hunter22" "IT"
                ltac:(discriminate) ltac:(vm_compute; reflexivity)
                ltac:(vm_compute; discriminate) ltac:(vm_compute; reflexivity)
                ltac:(vm_compute; discriminate) ltac:(vm_compute; reflexivity)
                ltac:(vm_compute; lia) ltac:(vm_compute; reflexivity)
                ltac:(vm_compute; reflexivity) ltac:(simpl; tauto)
                ltac:(vm_compute; tauto) Hfresh) as Hgiven.
  pose proof (@admin_registration_succeeds reference_bcrypt reference_codec
                Sample.secret false Sample.fx2 (delete "adminLevel" Sample.adminBody)
                Sample.registered "Root" " Root@X.com " "hunter22" "IT"
                ltac:(discriminate) ltac:(vm_compute; reflexivity)
                ltac:(vm_compute; discriminate) ltac:(vm_compute; reflexivity)
                ltac:(vm_compute; discriminate) ltac:(vm_compute; reflexivity)
                ltac:(vm_compute; lia) ltac:(vm_compute; reflexivity)
                ltac:(vm_compute; reflexivity) ltac:(simpl; tauto)
                ltac:(vm_compute; tauto) Hfresh) as Hdefault.
  cbv zeta in Hgiven, Hdefault.
  eexists _, _. split; [exact Hgiven |].
  split; [reflexivity |]. split; [reflexivity |]. split; [reflexivity |].
  eexists. split.
  - unfold Sample.register. rewrite Hdefault. apply in_or_app. right. left. reflexivity.
  - split; reflexivity.
Defined.

Lemma proctor_registration_succeeds_witness :
  exists u token,
    Sample.register Sample.fx2 []
      (list_to_map
         [("name", VStr " P Q "); ("email", VStr "P@X.com"); ("password", VStr "123456");
          ("role", VStr "proctor"); ("proctorId", VStr " pr7 ");
          ("department", VStr "ECE"); ("rollNumber", VStr "r5");
          ("adminLevel", VStr "super")])
      Sample.registered =
      (Sample.registered ++ [u],
       {| status := 201; jsonBody := AuthJson token (safeUser u) |}) /\
    User.name u = "P Q" /\ User.proctorId u = Some "PR7" /\
    User.rollNumber u = None /\ User.adminLevel u = "limited".
Proof.
  eexists _, _. split; [| split; [| split; [| split]]].
  - apply (@proctor_registration_succeeds reference_bcrypt reference_codec
             Sample.secret false Sample.fx2 _ Sample.registered
             " P Q " "P@X.com" "123456" " pr7 " "ECE");
      [discriminate | vm_compute; reflexivity | vm_compute; discriminate
       | vm_compute; reflexivity | vm_compute; discriminate
       | vm_compute; reflexivity | vm_compute; lia
       | vm_compute; reflexivity | vm_compute; reflexivity | discriminate
       | vm_compute; reflexivity | simpl; tauto
       | intros v [<- | []]; split; vm_compute; discriminate].
  - reflexivity.
  - reflexivity.
  - reflexivity.
  - reflexivity.
Defined.

(** ** The collection across requests *)

Section CollectionInvariant.

Context `{Bcrypt} `{Jwt.Codec}.
Variable secret : string.
Variable development : bool.

Implicit Types (body : gmap string jsval) (db others : list User.t).

Lemma wellKeyed_prefix db others : wellKeyed (db ++ others) -> wellKeyed db.
Proof.
  unfold wellKeyed. rewrite !map_app, Forall_app.
  intros (Hid & Hmail & Hnorm & _).
  apply NoDup_app in Hid as (Hid & _). apply NoDup_app in Hmail as (Hmail & _).
  repeat split; assumption.
Qed.

Lemma wellKeyed_snoc db (u : User.t) :
  wellKeyed db ->
  (forall v, In v db -> User._id v <> User._id u /\ User.email v <> User.email u) ->
  Js.trim (Js.toLowerCase (User.email u)) = User.email u ->
  wellKeyed (db ++ [u]).
Proof.
  unfold wellKeyed. intros (Hid & Hmail & Hnorm) Hfresh Hu.
  rewrite !map_app, Forall_app. simpl. repeat split.
  - apply NoDup_app. split; [assumption |]. split; [| apply NoDup_singleton].
    intros x Hx Hx'. apply list_elem_of_singleton in Hx'. subst x.
    apply list_elem_of_In, in_map_iff in Hx as (v & Hv & Hin).
    destruct (Hfresh v Hin) as [Hi He]. congruence.
  - apply NoDup_app. split; [assumption |]. split; [| apply NoDup_singleton].
    intros x Hx Hx'. apply list_elem_of_singleton in Hx'. subst x.
    apply list_elem_of_In, in_map_iff in Hx as (v & Hv & Hin).
    destruct (Hfresh v Hin) as [Hi He]. congruence.
  - assumption.
  - now apply Forall_singleton.
Qed.

Lemma updateOne_Forall (P : User.t -> Prop) (id : string) (f : User.t -> User.t) db :
  (forall v, P v -> P (f v)) -> Forall P db -> Forall P (Mongoose.updateOne id f db).
Proof.
  intros Hf. induction 1 as [|v db Hv Hdb IH]; simpl; [constructor |].
  destruct (String.eqb (User._id v) id); constructor; auto.
Qed.

Lemma wellKeyed_updateOne (id : string) (c : option N) db :
  wellKeyed db -> wellKeyed (Mongoose.updateOne id (User.set_lastLogin c) db).
Proof.
  unfold wellKeyed. intros (Hid & Hmail & Hnorm).
  rewrite !CollectionFacts.updateOne_map
    by (intros u; now destruct (UserFacts.set_lastLogin_fields c u) as (? & ? & _)).
  repeat split; try assumption.
  apply updateOne_Forall; [| assumption].
  intros v Hv. now destruct (UserFacts.set_lastLogin_fields c v) as (_ & -> & _).
Qed.

(** Under the unique index on [_id], an update by the [_id] of a document
    of the collection changes that document and no other. *)
Lemma updateOne_unique (f : User.t -> User.t) db (u : User.t) :
  NoDup (map User._id db) -> In u db ->
  forall v, In v (Mongoose.updateOne (User._id u) f db) <->
            v = f u \/ (In v db /\ v <> u).
Proof.
  induction db as [|w db IH]; simpl; [tauto |].
  intros Hnd Hin v. apply NoDup_cons in Hnd as [Hw Hnd].
  assert (forall x, In x db -> User._id x <> User._id w) as Hother.
  { intros x Hx E. apply Hw. rewrite <- E.
    apply list_elem_of_In, in_map. exact Hx. }
  destruct (String.eqb_spec (User._id w) (User._id u)) as [E | E].
  - assert (w = u) as ->.
    { destruct Hin as [-> | Hin]; [reflexivity |]. now elim (Hother u Hin). }
    simpl. split.
    + intros [<- | Hv]; [now left |]. right. split; [now right |].
      intros ->. now apply (Hother u Hv).
    + intros [-> | [[-> | Hv] Hne]]; [now left | now elim Hne | now right].
  - assert (In u db) as Hu by (destruct Hin as [-> | Hin]; [now elim E | exact Hin]).
    simpl. rewrite (IH Hnd Hu v). split.
    + intros [<- | [-> | [Hv Hne]]].
      * right. split; [now left |]. intros ->. now apply E.
      * now left.
      * right. split; [now right | exact Hne].
    + intros [-> | [[-> | Hv] Hne]]; [right; now left | now left |].
      right. right. now split.
Qed.

(** The address under which a registration has stored its document. *)
Lemma registered_email (fx : Effects) others body db db' (r : Response) :
  register secret development fx others body db = (db', r) ->
  status r = 201%nat ->
  exists u, db' = (db ++ others) ++ [u] /\
            (forall v, In v (db ++ others) ->
               User._id v <> User._id u /\ User.email v <> User.email u) /\
            Js.trim (Js.toLowerCase (User.email u)) = User.email u.
Proof.
  intros Hreg Hst.
  destruct (register_201 secret development fx others body db db' r Hreg Hst)
    as (ud & token & Hb & _ & Hud & _ & Hdb & Hfresh & _).
  cbv zeta in *.
  destruct (validateBase_Next body Hb) as (_ & Hne & _).
  destruct (nonBlank_inv _ Hne) as (e & He & _).
  eexists. split; [exact Hdb |]. split; [exact Hfresh |].
  rewrite (stored_email fx body e ud Hb He Hud). apply normalise_idem.
Qed.

End CollectionInvariant.

Section CollectionProperties.

Context `{Bcrypt} `{Jwt.Codec}.

(** X19. An invariant of the collection. When no two documents share an
    [_id] or an address and every address is stored trimmed and in lower
    case, the same holds after a registration and after a login, whatever
    the request was and however it was answered. *)
Theorem collection_invariant_preserved
    (secret : string) (development : bool) (fx : Effects) (others : list User.t)
    (body : gmap string jsval) (db db' : list User.t) (r : Response) :
  secret <> "" ->
  (register secret development fx others body db = (db', r) /\ wellKeyed (db ++ others)) \/
  (login secret development fx body db = (db', r) /\ wellKeyed db) ->
  wellKeyed db'.
Proof.
  intros Hs [[Hreg Hinv] | [Hlog Hinv]].
  - destruct (Nat.eq_dec (status r) 201) as [Hst | Hst].
    + destruct (registered_email secret development fx others body db db' r Hreg Hst)
        as (u & -> & Hfresh & Hnorm).
      now apply wellKeyed_snoc.
    + apply register_classify in Hreg
        as [[[-> | ->] _] | (u & token & _ & _ & ->)]; try assumption.
      * now apply (wellKeyed_prefix db others).
      * now elim Hst.
  - apply login_classify in Hlog as [[-> _] | (u & token & _ & -> & _)];
      try assumption.
    now apply wellKeyed_updateOne.
Qed.

(** X20. Under the unique index on [_id], a login that is answered 200
    changes the document that its lookup found, by setting [lastLogin] to
    the time of the login, and no other document: every other document of
    the collection is there afterwards as it was, and nothing is added. *)
Theorem login_touches_only_found
    (secret : string) (development : bool) (fx : Effects)
    (body : gmap string jsval) (db db' : list User.t) (r : Response) :
  secret <> "" ->
  NoDup (map User._id db) ->
  login secret development fx body db = (db', r) ->
  status r = 200%nat ->
  exists e u,
    body !! "email" = Some (VStr e) /\
    Mongoose.findOne (Js.trim (Js.toLowerCase e)) db = Some u /\
    List.length db' = List.length db /\
    forall v, In v db' <->
              v = User.set_lastLogin (Some (clock fx)) u \/ (In v db /\ v <> u).
Proof.
  intros Hs Hnd Hlog Hst.
  apply login_inv in Hlog
    as [[[Hge _] _] | (e & p & u & He & _ & Hf & _ & _ & -> & _)]; [| | assumption].
  - rewrite Hst in Hge. lia.
  - exists e, u. split; [exact He |]. split; [exact Hf |]. split.
    + rewrite <- (length_map User._id), <- (length_map User._id db).
      f_equal. apply CollectionFacts.updateOne_map.
      intros v. now destruct (UserFacts.set_lastLogin_fields (Some (clock fx)) v).
    + apply updateOne_unique; [assumption |].
      now apply CollectionFacts.findOne_Some in Hf.
Qed.

End CollectionProperties.

Lemma collection_invariant_preserved_witness :
  wellKeyed Sample.registered /\
  wellKeyed (fst (Sample.login Sample.fx2 (Sample.loginBody "A@X.com" "secret1")
                    Sample.registered)).
Proof.
  assert (wellKeyed Sample.registered) as Hregistered.
  { apply (@collection_invariant_preserved reference_bcrypt reference_codec
             Sample.secret false Sample.fx1 [] Sample.studentBody [] Sample.registered
             (snd (Sample.register Sample.fx1 [] Sample.studentBody [])));
      [discriminate |].
    left. split; [vm_compute; reflexivity |].
    repeat split; simpl; constructor. }
  split; [exact Hregistered |].
  apply (@collection_invariant_preserved reference_bcrypt reference_codec
           Sample.secret false Sample.fx2 [] (Sample.loginBody "A@X.com" "secret1")
           Sample.registered _
           (snd (Sample.login Sample.fx2 (Sample.loginBody "A@X.com" "secret1")
                   Sample.registered)));
    [discriminate |].
  right. split; [apply surjective_pairing | exact Hregistered].
Defined.

Lemma login_touches_only_found_witness :
  exists e u,
    Sample.loginBody "A@X.com" "secret1" !! "email" = Some (VStr e) /\
    Mongoose.findOne (Js.trim (Js.toLowerCase e)) (Sample.suspended :: Sample.registered)
      = Some u /\
    In Sample.suspended
      (fst (Sample.login Sample.fx2 (Sample.loginBody "A@X.com" "secret1")
              (Sample.suspended :: Sample.registered))).
Proof.
  destruct (@login_touches_only_found reference_bcrypt reference_codec
              Sample.secret false Sample.fx2 (Sample.loginBody "A@X.com" "secret1")
              (Sample.suspended :: Sample.registered)
              (fst (Sample.login Sample.fx2 (Sample.loginBody "A@X.com" "secret1")
                      (Sample.suspended :: Sample.registered)))
              (snd (Sample.login Sample.fx2 (Sample.loginBody "A@X.com" "secret1")
                      (Sample.suspended :: Sample.registered))))
    as (e & u & He & Hf & _ & Hin);
    [discriminate
     | vm_compute; repeat constructor; rewrite ?elem_of_cons, ?elem_of_nil;
       intuition discriminate
     | apply surjective_pairing | vm_compute; reflexivity |].
  exists e, u. split; [exact He |]. split; [exact Hf |].
  apply Hin. right. split; [now left |].
  intros <-. vm_compute in He. injection He as <-.
  vm_compute in Hf. discriminate Hf.
Defined.

(** ** A login after a registration *)

Section AfterRegistration.

Context `{Bcrypt} `{Jwt.Codec}.
Variable secret : string.
Variable development : bool.

Implicit Types (body : gmap string jsval) (db others : list User.t).


(** The document of a registration is the one that a lookup by its
    address finds afterwards. *)
Lemma findOne_registered (fx : Effects) body db (e : string) (ud : UserData) :
  validateBase body = Next tt -> body !! "email" = Some (VStr e) ->
  buildUserData body = Next ud ->
  (forall v, In v db ->
     User._id v <> objectId fx /\ User.email v <> Js.trim (Js.toLowerCase e)) ->
  let u := User.fields (User.preSave (salt fx)
             (Mongoose.construct (objectId fx) (clock fx) ud)) in
  Mongoose.findOne (Js.trim (Js.toLowerCase e)) (db ++ [u]) = Some u.
Proof.
  intros Hb He Hud Hfresh u.
  rewrite CollectionFacts.findOne_app.
  rewrite (proj2 (CollectionFacts.findOne_None _ db))
    by (intros v Hv; now apply Hfresh).
  simpl. fold u. unfold u at 1.
  rewrite (stored_email fx body e ud Hb He Hud).
  now rewrite String.eqb_refl.
Qed.

End AfterRegistration.

Section AfterRegistrationProperties.

Context `{Bcrypt} `{Jwt.Codec}.

(** X21. The address of the user object of a registration response is
    one that the login handler accepts: a login with that address as it was
    returned and the password of the registration finds the document and is
    answered 200 with the same id and role. *)
Theorem returned_address_logs_in
    (secret : string) (development : bool) (fx fx' : Effects)
    (body body' : gmap string jsval) (db : list User.t) (ud : UserData)
    (e pw : string) :
  secret <> "" ->
  validateBase body = Next tt -> validateRole body = Next tt ->
  buildUserData body = Next ud ->
  Mongoose.validate (Mongoose.construct (objectId fx) (clock fx) ud) = [] ->
  body !! "email" = Some (VStr e) ->
  body !! "password" = Some (VStr pw) ->
  (forall v, In v db ->
     User._id v <> objectId fx /\ User.email v <> Js.trim (Js.toLowerCase e)) ->
  exists u token,
    register secret development fx [] body db =
      (db ++ [u], {| status := 201; jsonBody := AuthJson token (safeUser u) |}) /\
    In ("email", JStr (User.email u)) (safeUser u) /\
    (body' !! "email" = Some (VStr (User.email u)) ->
     body' !! "password" = Some (VStr pw) ->
     exists token',
       login secret development fx' body' (db ++ [u]) =
         (db ++ [User.set_lastLogin (Some (clock fx')) u],
          {| status := 200;
             jsonBody := AuthJson token'
                           (safeUser (User.set_lastLogin (Some (clock fx')) u)) |}) /\
       In ("id", JStr (User._id u))
          (safeUser (User.set_lastLogin (Some (clock fx')) u)) /\
       In ("role", JStr (User.role u))
          (safeUser (User.set_lastLogin (Some (clock fx')) u))).
Proof.
  intros Hs Hb Hr Hud Hv He Hpw Hfresh.
  pose proof (register_created secret development fx body db e ud
                Hs Hb Hr Hud Hv He Hfresh) as Hreg.
  pose proof (findOne_registered fx body db e ud Hb He Hud Hfresh) as Hfind.
  pose proof (stored_email fx body e ud Hb He Hud) as Hmail.
  destruct (created_document fx body ud Hb Hud)
    as (_ & Hhash & _ & Hact & _ & _ & Hid & _).
  cbv zeta in *.
  set (u := User.fields (User.preSave (salt fx)
              (Mongoose.construct (objectId fx) (clock fx) ud))) in *.
  destruct (validateBase_Next body Hb) as (_ & Hne & Hpt & _).
  destruct (nonBlank_inv _ Hne) as (e0 & He0 & Hnb).
  rewrite He in He0. injection He0 as <-.
  rewrite Hpw in Hhash, Hpt. simpl in Hhash, Hpt.
  eexists u, _. split; [exact Hreg |].
  split; [simpl; tauto |].
  intros He' Hpw'. eexists. split; [| split].
  - rewrite (login_success secret development fx' body' (db ++ [u])
               (User.email u) pw u); try assumption.
    + f_equal.
      assert (forall v, In v db -> User._id v <> User._id u) as Hother
        by (intros v Hv'; rewrite Hid; now apply Hfresh).
      clear - Hother. induction db as [|w l IH]; simpl.
      * now rewrite String.eqb_refl.
      * rewrite (eqb_false_of_neq (User._id w) (User._id u))
          by (apply Hother; now left).
        f_equal. apply IH. intros v Hv'. apply Hother. now right.
    + rewrite Hmail. now apply trim_toLowerCase_nonempty.
    + intros ->. discriminate Hpt.
    + rewrite Hmail, normalise_idem. exact Hfind.
    + rewrite Hhash. apply bcrypt_compare_hash.
  - destruct (UserFacts.set_lastLogin_fields (Some (clock fx')) u) as (E & _).
    unfold safeUser. rewrite E. simpl. tauto.
  - destruct (UserFacts.set_lastLogin_fields (Some (clock fx')) u)
      as (_ & _ & _ & E & _).
    unfold safeUser. rewrite E. simpl. tauto.
Qed.


End AfterRegistrationProperties.

Lemma returned_address_logs_in_witness :
  exists u token token',
    Sample.register Sample.fx1 [] Sample.studentBody [] =
      ([] ++ [u], {| status := 201; jsonBody := AuthJson token (safeUser u) |}) /\
    Sample.login Sample.fx2 (Sample.loginBody "a@x.com" "secret1") ([] ++ [u]) =
      ([] ++ [User.set_lastLogin (Some (clock Sample.fx2)) u],
       {| status := 200;
          jsonBody := AuthJson token'
                        (safeUser (User.set_lastLogin (Some (clock Sample.fx2)) u)) |}).
Proof.
  destruct (@returned_address_logs_in reference_bcrypt reference_codec Sample.secret
              false Sample.fx1 Sample.fx2 Sample.studentBody
              (Sample.loginBody "a@x.com" "secret1") [] Sample.studentData
              "a@x.com" "secret1")
    as (u & token & Hreg & _ & Hlogin);
    [discriminate | vm_compute; reflexivity | vm_compute; reflexivity
     | vm_compute; reflexivity | vm_compute; reflexivity
     | vm_compute; reflexivity | vm_compute; reflexivity | intros v [] |].
  assert (Sample.registered = [u]) as Hu by exact (f_equal fst Hreg).
  unfold Sample.registered in Hu. injection Hu as <-.
  destruct Hlogin as (token' & Hl & _);
    [vm_compute; reflexivity | vm_compute; reflexivity |].
  eexists _, token, token'. split; [exact Hreg | exact Hl].
Defined.

